(** * Alert Notification Service: control-point engine

    A shallow embedding of [CAlertNotificationService]
    (src/alert_notification_service.h, src/alert_notification_service.cpp)
    together with the part of [CGattService] it relies on
    (src/gatt_service.h), and the properties of the control-point engine
    proved or refuted on that embedding.

    The classes around it are embedded in modules of their own, ahead of
    the service: the base class [CGattService] (src/gatt_service.cpp), the
    Immediate Alert service (src/immediate_alert_service.cpp) and the
    [CGattServer] that hands the events of the BLE stack to the services
    (src/gatt_server.cpp).  Their properties follow those of the service.

    Conventions.
    - Fixed-width unsigned integers are [Z] with the wrap-around written
      out ([u8], [u16], [u32]).
    - The object is a record [ANS]; every member function is a computation
      in the monad [M], which threads the object and stops with a [Fault]
      when the source indexes [_alert_status] outside its declared bound
      or shifts by a count the language does not define (undefined
      behaviour in C++).
    - The BLE stack is an external collaborator: every call of
      [GattServer::write] made through [setCharacteristicValue] is appended
      to the log [gatt_server_writes]. *)

From Stdlib Require Import ZArith Lia List Bool.
From stdpp Require Import base numbers list.
Import ListNotations.

Local Open Scope Z_scope.

(** ** Fixed-width integers *)

Definition u8 (x : Z) : Z := x mod 2 ^ 8.
Definition u16 (x : Z) : Z := x mod 2 ^ 16.
Definition u32 (x : Z) : Z := x mod 2 ^ 32.

(** A C++ integer used as a condition: true when it is not zero. *)
Definition truthy (x : Z) : bool := negb (x =? 0).

(** * The GATT service base class (gatt_service.h, gatt_service.cpp)

    Objects of the BLE stack ([GattCharacteristic], [GattAttribute]) live
    on the heap and the class knows them by their addresses; [nullptr] is
    address 0.  What the stack answers about such an object -- the value
    handle of a characteristic, the value pointer of an attribute -- is a
    parameter of the functions that ask for it. *)
Module CGattService.

Definition pointer : Type := Z.
Definition Handle_t : Type := Z.
Abbreviation nullptr := 0%Z (only parsing).

Inductive ble_error_t : Type :=
| BLE_ERROR_NONE
| BLE_ERROR_INVALID_STATE.

(** How a call ends when it does not return: a failed [assert], the
    exception [std::out_of_range] of [std::vector::at], the use of a null
    pointer or of an element a container does not have, a read past the
    end of a buffer. *)
Inductive failure : Type :=
| AssertionFailed
| OutOfRange
| NullDereference
| BufferOverread.

Inductive outcome (A : Type) : Type :=
| Returns (a : A)
| Fails (f : failure).

Arguments Returns {A} a.
Arguments Fails {A} f.

Definition and_then {A B : Type} (m : outcome A) (k : A -> outcome B) :
  outcome B :=
  match m with
  | Returns a => k a
  | Fails f => Fails f
  end.

Definition assert (b : bool) : outcome unit :=
  if b then Returns tt else Fails AssertionFailed.

(** The [GattService] object made by [createService]: it keeps the UUID,
    the address of the first element of [_characteristics] and the number
    of characteristics at the time of the call.  The array itself is the
    vector of the [CGattService], shared, not copied. *)
Record GattService : Type := mk_GattService {
  service_uuid : Z;
  characteristic_count : nat
}.

Record CGattService : Type := mk_CGattService {
  _characteristics_user_descriptions : list (list pointer);
  _characteristics : list pointer;
  _service : option GattService
}.

(** [CGattService::CGattService()]: both vectors empty, no service. *)
Definition constructor : CGattService := mk_CGattService [] [] None.

(** [explicit operator bool()]. *)
Definition created (s : CGattService) : bool :=
  match _service s with
  | Some _ => true
  | None => false
  end.

(** [addCharacteristic(uuid, properties, user_description, value,
    max_value_size)].  [attribute] and [characteristic] are the addresses
    the two [new] expressions return; the UUID, the properties, the value
    buffer and its size only go into the new characteristic object. *)
Definition addCharacteristic
  (user_description attribute characteristic : pointer) (s : CGattService) :
  outcome (bool * CGattService) :=
  match _service s with
  | Some _ => Returns (false, s)
  | None =>
    and_then
      (if negb (user_description =? nullptr)
       then and_then (assert (negb (attribute =? nullptr)))
                     (fun _ => Returns [attribute])
       else Returns [])
      (fun descriptors =>
         and_then (assert (negb (characteristic =? nullptr))) (fun _ =>
         Returns
           (true,
            mk_CGattService
              (_characteristics_user_descriptions s ++ [descriptors])
              (_characteristics s ++ [characteristic])
              (_service s))))
  end.

(** [createService(uuid)]. *)
Definition createService (uuid : Z) (s : CGattService) :
  outcome (ble_error_t * CGattService) :=
  and_then (assert (negb (created s))) (fun _ =>
  match _characteristics s with
  | [] => Returns (BLE_ERROR_INVALID_STATE, s)
  | _ :: _ =>
    Returns
      (BLE_ERROR_NONE,
       mk_CGattService
         (_characteristics_user_descriptions s)
         (_characteristics s)
         (Some (mk_GattService uuid (length (_characteristics s)))))
  end).

Definition getService (s : CGattService) : option GattService := _service s.

(** [static_cast<unsigned int>(_characteristics.size())]. *)
Definition getCharacteristicCount (s : CGattService) : Z :=
  u32 (Z.of_nat (length (_characteristics s))).

(** [registerService(ble)]: [ble.gattServer().addService( *_service)];
    [registered] is the list of services the system's GATT server holds. *)
Definition registerService (s : CGattService) (registered : list GattService) :
  outcome (list GattService) :=
  match _service s with
  | None => Fails NullDereference
  | Some service => Returns (registered ++ [service])
  end.

Section Stack.

Variable getValueHandle : pointer -> Handle_t.
Variable getValuePtr : pointer -> pointer.

(** The loop of [getCharacteristicWithValueHandle]. *)
Fixpoint find_value_handle
  (value_handle : Handle_t) (characteristics : list pointer) : pointer :=
  match characteristics with
  | [] => nullptr
  | i :: rest =>
    if getValueHandle i =? value_handle then i
    else find_value_handle value_handle rest
  end.

Definition getCharacteristicWithValueHandle
  (value_handle : Handle_t) (s : CGattService) : pointer :=
  find_value_handle value_handle (_characteristics s).

(** The loop of [getCharacteristicUserDescription]; both uses of
    [std::vector::at] throw when the element is missing. *)
Fixpoint find_user_description
  (descriptions : list (list pointer)) (value_handle : Handle_t)
  (characteristics : list pointer) (index : nat) : outcome pointer :=
  match characteristics with
  | [] => Returns nullptr
  | i :: rest =>
    if getValueHandle i =? value_handle then
      match descriptions !! index with
      | None => Fails OutOfRange
      | Some descriptions_at_index =>
        match descriptions_at_index !! 0%nat with
        | None => Fails OutOfRange
        | Some user_description => Returns (getValuePtr user_description)
        end
      end
    else find_user_description descriptions value_handle rest (S index)
  end.

Definition getCharacteristicUserDescription
  (value_handle : Handle_t) (s : CGattService) : outcome pointer :=
  find_user_description (_characteristics_user_descriptions s) value_handle
    (_characteristics s) 0.

End Stack.

(** ** Views used in the statements *)

(** The objects a program can build: the constructor, then any calls of
    [addCharacteristic] and [createService] that return. *)
Inductive reachable : CGattService -> Prop :=
| reachable_constructor : reachable constructor
| reachable_addCharacteristic
    (user_description attribute characteristic : pointer)
    (s s' : CGattService) (added : bool) :
    reachable s ->
    addCharacteristic user_description attribute characteristic s
    = Returns (added, s') ->
    reachable s'
| reachable_createService
    (uuid : Z) (s s' : CGattService) (error : ble_error_t) :
    reachable s ->
    createService uuid s = Returns (error, s') ->
    reachable s'.

(** What calls that return can make of an object [s]. *)
Inductive evolves (s : CGattService) : CGattService -> Prop :=
| evolves_here : evolves s s
| evolves_addCharacteristic
    (user_description attribute characteristic : pointer)
    (s1 s2 : CGattService) (added : bool) :
    evolves s s1 ->
    addCharacteristic user_description attribute characteristic s1
    = Returns (added, s2) ->
    evolves s s2
| evolves_createService
    (uuid : Z) (s1 s2 : CGattService) (error : ble_error_t) :
    evolves s s1 ->
    createService uuid s1 = Returns (error, s2) ->
    evolves s s2.

(** The two vectors go together: one list of descriptors per
    characteristic, holding at most one attribute, no null address stored,
    and a created service counts the characteristics of the vector. *)
Definition shape (s : CGattService) : Prop :=
  length (_characteristics_user_descriptions s) = length (_characteristics s)
  /\ Forall (fun descriptors => (length descriptors <= 1)%nat)
            (_characteristics_user_descriptions s)
  /\ Forall (Forall (fun attribute => attribute <> nullptr))
            (_characteristics_user_descriptions s)
  /\ Forall (fun characteristic => characteristic <> nullptr)
            (_characteristics s)
  /\ (forall service,
        _service s = Some service ->
        characteristic_count service = length (_characteristics s)
        /\ _characteristics s <> []).

(** A service with two characteristics, the second without description. *)
Definition two_characteristics : CGattService :=
  mk_CGattService [[501]; []] [101; 102] None.

Definition example_handle (characteristic : pointer) : Handle_t :=
  characteristic + 10.

Definition example_value (attribute : pointer) : pointer :=
  attribute + 1000.

(** As [example_value], with a null value pointer for attribute 499. *)
Definition example_value_or_null (attribute : pointer) : pointer :=
  if attribute =? 499 then nullptr else attribute + 1000.

(** A created service with one characteristic. *)
Definition created_service : CGattService :=
  mk_CGattService [[501]] [101] (Some (mk_GattService 6146 1)).

End CGattService.

(** * The Immediate Alert service (immediate_alert_service.h,
      immediate_alert_service.cpp)

    The LED is a [PwmOut]; the object records the duty cycle last written
    to it, as the literal the source writes.  Writes to the GATT server
    made through [setCharacteristicValue] are logged. *)
Module CImmediateAlertService.

Import CGattService.

(** [enum AlertLevel]. *)
Abbreviation IAS_ALERT_LEVEL_NO_ALERT := 0%Z (only parsing).
Abbreviation IAS_ALERT_LEVEL_MEDIUM := 1%Z (only parsing).
Abbreviation IAS_ALERT_LEVEL_HIGH := 2%Z (only parsing).

(** [GattService::UUID_IMMEDIATE_ALERT_SERVICE], the assigned number of
    the service. *)
Abbreviation UUID_IMMEDIATE_ALERT_SERVICE := 0x1802%Z (only parsing).

(** The three arguments [_led.write] is called with: 1.0, 0.75 and 0.1. *)
Inductive duty_cycle : Type :=
| DUTY_1_0
| DUTY_0_75
| DUTY_0_1.

(** A call of [GattServer::write]: value handle and the byte written. *)
Record gatt_write : Type := mk_gatt_write {
  gw_handle : Handle_t;
  gw_value : Z
}.

Record CImmediateAlertService : Type := mk_IAS {
  base : CGattService;
  _led : duty_cycle;
  _alert_level : Z;
  _alert_level_value : Z;
  gatt_server_writes : list gatt_write
}.

Definition set_base (b : CGattService) (s : CImmediateAlertService) :=
  mk_IAS b (_led s) (_alert_level s) (_alert_level_value s)
    (gatt_server_writes s).

Definition set_led (d : duty_cycle) (s : CImmediateAlertService) :=
  mk_IAS (base s) d (_alert_level s) (_alert_level_value s)
    (gatt_server_writes s).

Definition set_alert_level (level : Z) (s : CImmediateAlertService) :=
  mk_IAS (base s) (_led s) level (u8 level) (gatt_server_writes s).

Definition log_write (w : gatt_write) (s : CImmediateAlertService) :=
  mk_IAS (base s) (_led s) (_alert_level s) (_alert_level_value s)
    (gatt_server_writes s ++ [w]).

(** The constructor.  [description] is the value of the global
    [const char* description]; [attribute] and [characteristic] are the
    addresses allocated by [addCharacteristic]. *)
Definition constructor (description attribute characteristic : pointer) :
  outcome CImmediateAlertService :=
  let s := mk_IAS CGattService.constructor DUTY_1_0
             IAS_ALERT_LEVEL_NO_ALERT IAS_ALERT_LEVEL_NO_ALERT [] in
  and_then (addCharacteristic description attribute characteristic (base s))
    (fun '(char_added, b) =>
  and_then (assert char_added) (fun _ =>
  let s := set_base b s in
  and_then
    (match _characteristics (base s) !! 0%nat with
     | None => Fails NullDereference
     | Some _ => Returns tt
     end) (fun _ =>
  and_then (createService UUID_IMMEDIATE_ALERT_SERVICE (base s))
    (fun '(service_success, b) =>
  and_then (assert (match service_success with
                    | BLE_ERROR_NONE => true
                    | _ => false
                    end)) (fun _ =>
  Returns (set_base b s)))))).

Section Stack.

Variable getValueHandle : pointer -> Handle_t.

(** The [switch] of [onDataWrittenHandler]. *)
Definition led_for_level (level : Z) (s : CImmediateAlertService) :
  CImmediateAlertService :=
  match level with
  | IAS_ALERT_LEVEL_NO_ALERT => set_led DUTY_1_0 s
  | IAS_ALERT_LEVEL_MEDIUM => set_led DUTY_0_75 s
  | IAS_ALERT_LEVEL_HIGH => set_led DUTY_0_1 s
  | _ => s
  end.

(** [std::cout << data] with [data] a [const uint8_t*]: the buffer is
    printed as a C string, which reads it up to its first zero byte, and
    past its end when it holds none. *)
Definition zero_terminated (data : list Z) : bool :=
  existsb (fun byte => byte =? 0) data.

Definition print_c_string (data : list Z) : outcome unit :=
  if zero_terminated data then Returns tt else Fails BufferOverread.

(** [onDataWrittenHandler(characteristic, data, size)].  [data] is the
    written buffer; the handler prints it, takes the level from its first
    byte and never looks at [size]. *)
Definition onDataWrittenHandler
  (characteristic : pointer) (data : list Z) (size : Z)
  (s : CImmediateAlertService) : outcome CImmediateAlertService :=
  let exists_ :=
    negb (getCharacteristicWithValueHandle getValueHandle
            (getValueHandle characteristic) (base s) =? nullptr) in
  and_then (assert exists_) (fun _ =>
  and_then (print_c_string data) (fun _ =>
  match data !! 0%nat with
  | None => Fails BufferOverread
  | Some level => Returns (led_for_level level s)
  end)).

(** The tail shared by [onConnected] and [onDisconnected]: the value is
    written to the characteristic at position 0. *)
Definition write_alert_level (s : CImmediateAlertService) :
  outcome CImmediateAlertService :=
  match _characteristics (base s) !! 0%nat with
  | None => Fails NullDereference
  | Some characteristic =>
    Returns (log_write (mk_gatt_write (getValueHandle characteristic)
                                      (_alert_level_value s)) s)
  end.

Definition onConnected (s : CImmediateAlertService) :
  outcome CImmediateAlertService :=
  write_alert_level (set_alert_level IAS_ALERT_LEVEL_NO_ALERT s).

Definition onDisconnected (s : CImmediateAlertService) :
  outcome CImmediateAlertService :=
  write_alert_level (set_alert_level IAS_ALERT_LEVEL_MEDIUM s).

End Stack.

(** The objects the program reaches: the constructor, then connection
    events and writes, each under the handles the stack has given out at
    that time. *)
Inductive reachable : CImmediateAlertService -> Prop :=
| reachable_constructor
    (description attribute characteristic : pointer)
    (s : CImmediateAlertService) :
    constructor description attribute characteristic = Returns s ->
    reachable s
| reachable_onConnected
    (getValueHandle : pointer -> Handle_t) (s s' : CImmediateAlertService) :
    reachable s -> onConnected getValueHandle s = Returns s' -> reachable s'
| reachable_onDisconnected
    (getValueHandle : pointer -> Handle_t) (s s' : CImmediateAlertService) :
    reachable s -> onDisconnected getValueHandle s = Returns s' ->
    reachable s'
| reachable_onDataWritten
    (getValueHandle : pointer -> Handle_t)
    (characteristic : pointer) (data : list Z) (size : Z)
    (s s' : CImmediateAlertService) :
    reachable s ->
    onDataWrittenHandler getValueHandle characteristic data size s
    = Returns s' ->
    reachable s'.

(** The object the constructor leaves when it returns. *)
Definition built (description attribute characteristic : pointer) :
  CImmediateAlertService :=
  mk_IAS
    (mk_CGattService
       [if description =? nullptr then [] else [attribute]]
       [characteristic]
       (Some (mk_GattService UUID_IMMEDIATE_ALERT_SERVICE 1)))
    DUTY_1_0 IAS_ALERT_LEVEL_NO_ALERT IAS_ALERT_LEVEL_NO_ALERT [].

(** The service as [main] builds it, with sample addresses. *)
Definition constructed : CImmediateAlertService :=
  mk_IAS (mk_CGattService [[501]] [101] (Some (mk_GattService UUID_IMMEDIATE_ALERT_SERVICE 1)))
    DUTY_1_0 0 0 [].

End CImmediateAlertService.

(** * The GATT server (gatt_server.h, gatt_server.cpp)

    The server holds pointers to services of any class derived from
    [CGattService].  [Service] is that interface: the base-class part of
    the object and the three pure virtual functions.  The service objects
    live in a store, a list indexed by address, so that a service listed
    twice is one object. *)
Module CGattServer.

Import CGattService.

Class Service (S : Type) : Type := {
  base : S -> CGattService;
  onDataWrittenHandler : pointer -> list Z -> Z -> S -> outcome S;
  onConnected : S -> outcome S;
  onDisconnected : S -> outcome S
}.

Record CGattServer : Type := mk_CGattServer {
  _services : list nat;
  _started : bool
}.

(** [CGattServer::CGattServer()]. *)
Definition constructor : CGattServer := mk_CGattServer [] false.

Section Server.

Context {S : Type} {service_class : Service S}.

Variable getValueHandle : pointer -> Handle_t.
Variable getValuePtr : pointer -> pointer.

(** [addService(service)]; [service] is the address of the object. *)
Definition addService (service : nat) (heap : list S) (srv : CGattServer) :
  outcome (bool * CGattServer) :=
  if _started srv then Returns (false, srv)
  else
    match heap !! service with
    | None => Fails NullDereference
    | Some object =>
      if negb (created (base object)) then Returns (false, srv)
      else Returns (true, mk_CGattServer (_services srv ++ [service])
                                         (_started srv))
    end.

(** The loop of [startServer]. *)
Fixpoint register_all
  (services : list nat) (heap : list S) (registered : list GattService) :
  outcome (list GattService) :=
  match services with
  | [] => Returns registered
  | i :: rest =>
    match heap !! i with
    | None => Fails NullDereference
    | Some object =>
      and_then (registerService (base object) registered)
               (register_all rest heap)
    end
  end.

(** [startServer(ble)]: the services are registered, then the server is
    made the event handler of the system's GATT server.  The result is
    the server object and the list of registered services. *)
Definition startServer
  (heap : list S) (registered : list GattService) (srv : CGattServer) :
  outcome (CGattServer * list GattService) :=
  and_then (register_all (_services srv) heap registered) (fun registered =>
  Returns (srv, registered)).

(** The loops of [onConnected] and [onDisconnected]. *)
Fixpoint for_each_service
  (event : S -> outcome S) (services : list nat) (heap : list S) :
  outcome (list S) :=
  match services with
  | [] => Returns heap
  | i :: rest =>
    match heap !! i with
    | None => Fails NullDereference
    | Some object =>
      and_then (event object) (fun object' =>
      for_each_service event rest (<[i := object']> heap))
    end
  end.

Definition server_onConnected (heap : list S) (srv : CGattServer) :
  outcome (list S) :=
  for_each_service onConnected (_services srv) heap.

Definition server_onDisconnected (heap : list S) (srv : CGattServer) :
  outcome (list S) :=
  for_each_service onDisconnected (_services srv) heap.

(** The loop of [onDataWritten]. *)
Fixpoint dispatch_write
  (value_handle : Handle_t) (data : list Z) (len : Z)
  (services : list nat) (heap : list S) : outcome (list S) :=
  match services with
  | [] => Returns heap
  | i :: rest =>
    match heap !! i with
    | None => Fails NullDereference
    | Some object =>
      let characteristic :=
        getCharacteristicWithValueHandle getValueHandle value_handle
          (base object) in
      if characteristic =? nullptr
      then dispatch_write value_handle data len rest heap
      else
        and_then
          (getCharacteristicUserDescription getValueHandle getValuePtr
             value_handle (base object)) (fun user_desc =>
        if user_desc =? nullptr
        then dispatch_write value_handle data len rest heap
        else
          and_then (onDataWrittenHandler characteristic data len object)
            (fun object' => Returns (<[i := object']> heap)))
    end
  end.

Definition onDataWritten
  (value_handle : Handle_t) (data : list Z) (len : Z)
  (heap : list S) (srv : CGattServer) : outcome (list S) :=
  dispatch_write value_handle data len (_services srv) heap.

(** The loop shared by [onDataRead], [onUpdatesEnabled],
    [onUpdatesDisabled] and [onConfirmationReceived]: the same search,
    which only prints. *)
Fixpoint find_described
  (value_handle : Handle_t) (services : list nat) (heap : list S) :
  outcome unit :=
  match services with
  | [] => Returns tt
  | i :: rest =>
    match heap !! i with
    | None => Fails NullDereference
    | Some object =>
      let characteristic :=
        getCharacteristicWithValueHandle getValueHandle value_handle
          (base object) in
      if characteristic =? nullptr
      then find_described value_handle rest heap
      else
        and_then
          (getCharacteristicUserDescription getValueHandle getValuePtr
             value_handle (base object)) (fun characteristic_description =>
        if characteristic_description =? nullptr
        then find_described value_handle rest heap
        else Returns tt)
    end
  end.

Definition onDataRead
  (value_handle : Handle_t) (heap : list S) (srv : CGattServer) :
  outcome unit :=
  find_described value_handle (_services srv) heap.

(** [service] owns [value_handle]: the first lookup of the search loops
    finds a characteristic. *)
Definition owns (value_handle : Handle_t) (object : S) : bool :=
  negb (getCharacteristicWithValueHandle getValueHandle value_handle
          (base object) =? nullptr).

(** The search of [onDataWritten] passes over the service: it has no
    characteristic with the value handle, or the description it returns
    for the handle is null. *)
Definition passed_over (value_handle : Handle_t) (object : S) : bool :=
  if owns value_handle object
  then match getCharacteristicUserDescription getValueHandle getValuePtr
               value_handle (base object) with
       | Returns user_desc => user_desc =? nullptr
       | Fails _ => false
       end
  else true.

(** Creation is never undone and objects are not destroyed while the
    server runs: what may happen to the store outside the server. *)
Definition keeps_created (heap heap' : list S) : Prop :=
  forall i object,
    heap !! i = Some object -> created (base object) = true ->
    exists object',
      heap' !! i = Some object' /\ created (base object') = true.

(** Every listed service exists in the store and is created. *)
Definition all_created (heap : list S) (srv : CGattServer) : Prop :=
  Forall (fun i => exists object,
            heap !! i = Some object /\ created (base object) = true)
         (_services srv).

(** The three events of a service keep a created service created: no
    class derived from [CGattService] resets [_service]. *)
Definition events_keep_created : Prop :=
  forall object object',
    created (base object) = true ->
    (onConnected object = Returns object' \/
     onDisconnected object = Returns object' \/
     exists characteristic data len,
       onDataWrittenHandler characteristic data len object
       = Returns object') ->
    created (base object') = true.

(** The stores, servers and registered services a program can reach. *)
Inductive reachable :
  list S -> CGattServer -> list GattService -> Prop :=
| reachable_constructor (heap : list S) : reachable heap constructor []
| reachable_addService
    (service : nat) (heap : list S) (srv srv' : CGattServer) (added : bool)
    (registered : list GattService) :
    reachable heap srv registered ->
    addService service heap srv = Returns (added, srv') ->
    reachable heap srv' registered
| reachable_startServer
    (heap : list S) (srv srv' : CGattServer)
    (registered registered' : list GattService) :
    reachable heap srv registered ->
    startServer heap registered srv = Returns (srv', registered') ->
    reachable heap srv' registered'
| reachable_onConnected
    (heap heap' : list S) (srv : CGattServer)
    (registered : list GattService) :
    reachable heap srv registered ->
    server_onConnected heap srv = Returns heap' ->
    reachable heap' srv registered
| reachable_onDisconnected
    (heap heap' : list S) (srv : CGattServer)
    (registered : list GattService) :
    reachable heap srv registered ->
    server_onDisconnected heap srv = Returns heap' ->
    reachable heap' srv registered
| reachable_onDataWritten
    (value_handle : Handle_t) (data : list Z) (len : Z)
    (heap heap' : list S) (srv : CGattServer)
    (registered : list GattService) :
    reachable heap srv registered ->
    onDataWritten value_handle data len heap srv = Returns heap' ->
    reachable heap' srv registered
| reachable_elsewhere
    (heap heap' : list S) (srv : CGattServer)
    (registered : list GattService) :
    reachable heap srv registered ->
    keeps_created heap heap' ->
    reachable heap' srv registered.

End Server.

(** [CImmediateAlertService] as a service of the server. *)
#[export] Instance immediate_alert_service
  (getValueHandle : pointer -> Handle_t) :
  Service CImmediateAlertService.CImmediateAlertService := {
  base := CImmediateAlertService.base;
  onDataWrittenHandler :=
    CImmediateAlertService.onDataWrittenHandler getValueHandle;
  onConnected := CImmediateAlertService.onConnected getValueHandle;
  onDisconnected := CImmediateAlertService.onDisconnected getValueHandle
}.

(** A server that lists the service at address 0 of the store. *)
Definition alert_server : CGattServer := mk_CGattServer [0%nat] false.

(** Two Immediate Alert services with a characteristic of the same value
    handle, and a server that lists both. *)
Definition two_alert_services :
  list CImmediateAlertService.CImmediateAlertService :=
  [CImmediateAlertService.built 7 499 101; CImmediateAlertService.constructed].

Definition two_alert_server : CGattServer :=
  mk_CGattServer [0%nat; 1%nat] false.

End CGattServer.

Module CAlertNotificationService.

(** ** Constants and enumerations (alert_notification_service.h) *)

Abbreviation ANS_ALERT_CATEGORY_COUNT := 10%Z (only parsing).

(** [enum CategoryId].  The source casts arbitrary bytes to this type, so a
    category id is a [Z]. *)
Abbreviation ANS_TYPE_SIMPLE_ALERT := 0%Z (only parsing).
Abbreviation ANS_TYPE_EMAIL := 1%Z (only parsing).
Abbreviation ANS_TYPE_NEWS := 2%Z (only parsing).
Abbreviation ANS_TYPE_NOTIFICATION_CALL := 3%Z (only parsing).
Abbreviation ANS_TYPE_MISSED_CALL := 4%Z (only parsing).
Abbreviation ANS_TYPE_SMS_MMS := 5%Z (only parsing).
Abbreviation ANS_TYPE_VOICE_MAIL := 6%Z (only parsing).
Abbreviation ANS_TYPE_SCHEDULE := 7%Z (only parsing).
Abbreviation ANS_TYPE_HIGH_PRIORITIZED_ALERT := 8%Z (only parsing).
Abbreviation ANS_TYPE_INSTANT_MESSAGE := 9%Z (only parsing).
Abbreviation ANS_TYPE_ALL_ALERTS := 255%Z (only parsing).

(** [enum CategoryMaskId]: the two members the code uses. *)
Abbreviation ANS_TYPE_MASK_SIMPLE_ALERT := 1%Z (only parsing).
Abbreviation ANS_TYPE_MASK_ALL_ALERTS := 1023%Z (only parsing).

(** [enum CommandId]. *)
Abbreviation ANS_ENABLE_NEW_INCOMING_ALERT_NOTIFICATION := 0%Z (only parsing).
Abbreviation ANS_ENABLE_UNREAD_CATEGORY_STATUS_NOTIFICATION := 1%Z (only parsing).
Abbreviation ANS_DISABLE_NEW_INCOMING_ALERT_NOTIFICATION := 2%Z (only parsing).
Abbreviation ANS_DISABLE_UNREAD_CATEGORY_STATUS_NOTIFICATION := 3%Z (only parsing).
Abbreviation ANS_NOTIFY_NEW_INCOMING_ALERT_IMMEDIATELY := 4%Z (only parsing).
Abbreviation ANS_NOTIFY_UNREAD_CATEGORY_STATUS_IMMEDIATELY := 5%Z (only parsing).

(** The integers [0 .. n-1], the index values of a counted [for] loop. *)
Definition range (n : nat) : list Z := map Z.of_nat (seq 0 n).

(** ** The two pure conversions *)

(** The loop of [getCategoryIdFromMask]: the first [ii] whose bit is set in
    [mask] ends the loop; [category] is the value kept when none is. *)
Fixpoint scan_mask (mask : Z) (iis : list Z) (category : Z) : Z :=
  match iis with
  | [] => category
  | ii :: rest =>
      if negb (Z.land mask (Z.shiftl 1 ii) =? 0) then ii
      else scan_mask mask rest category
  end.

Definition getCategoryIdFromMask (mask : Z) : Z :=
  scan_mask mask (range 10) 0.

(** [1 << (int)category] is computed on [int], which is 32 bits wide, and
    converted to [uint16_t] on return, which keeps the low 16 bits (none
    for a count from 16 to 31).  The source language defines the shift
    for a count from 0 to 31 only: for any other count the function has
    no result. *)
Definition shift_defined (count : Z) : bool :=
  (0 <=? count) && (count <? 32).

Definition getCategoryMaskFromId (category : Z) : option Z :=
  if negb (category =? ANS_TYPE_ALL_ALERTS)
  then if shift_defined category then Some (u16 (Z.shiftl 1 category))
       else None
  else Some ANS_TYPE_MASK_ALL_ALERTS.

(** ** The object *)

(** [union alert_status_t], through its [fields] view. *)
Record alert_status_t := mk_alert_status
  { as_category : Z;   (* uint8_t category *)
    as_count : Z }.    (* uint8_t count *)

(** [union control_point_t], through its [fields] view. *)
Record control_point_t := mk_control_point
  { cp_command : Z;    (* uint8_t command *)
    cp_category : Z }. (* uint8_t category *)

(** One call [server.write(handle, value_ptr, sizeof(T), false)]: the
    position of the characteristic in [_characteristics], the width of the
    value in bytes, and the value. *)
Record gatt_write := mk_gatt_write
  { gw_characteristic : Z;
    gw_size : Z;
    gw_value : Z }.

Record ANS := mk_ANS
  { _characteristics : list Z;            (* the GattCharacteristic pointers *)
    _connected : bool;
    _button_press_count : Z;              (* uint32_t *)
    _supported_new_alert_category : Z;    (* uint16_t *)
    _supported_unread_alert_category : Z; (* uint16_t *)
    _enabled_new_alert_category : Z;      (* uint16_t *)
    _enabled_unread_alert_category : Z;   (* uint16_t *)
    _alert_status : list alert_status_t;  (* alert_status_t [10] *)
    _control_point : control_point_t;
    gatt_server_writes : list gatt_write }.

(** The characteristic indices are assigned once, by the constructor. *)
Definition _supported_new_alert_category_index : Z := 0.
Definition _supported_unread_alert_category_index : Z := 1.
Definition _unread_alert_status_index : Z := 2.
Definition _new_alert_index : Z := 3.
Definition _alert_notification_control_point_index : Z := 4.

(** ** The monad of member functions *)

Inductive fault : Type :=
  | OutOfBounds (index : Z)  (* _alert_status[index], index not in [0, 10) *)
  | UndefinedShift (count : Z).  (* 1 << count, count not in [0, 32) *)

Inductive result (A : Type) : Type :=
  | Done (a : A) (s : ANS)
  | Fault (f : fault).
Arguments Done {A} a s.
Arguments Fault {A} f.

Definition M (A : Type) : Type := ANS -> result A.

Definition ret {A} (a : A) : M A := fun s => Done a s.

Definition bind {A B} (m : M A) (k : A -> M B) : M B :=
  fun s => match m s with
           | Done a s' => k a s'
           | Fault f => Fault f
           end.

Definition get : M ANS := fun s => Done s s.
Definition modify (f : ANS -> ANS) : M unit := fun s => Done tt (f s).

Declare Scope ans_scope.
Delimit Scope ans_scope with ans.
Notation "x <- c1 ;; c2" := (bind c1 (fun x => c2))
  (at level 100, c1 at next level, right associativity) : ans_scope.
Notation "c1 ;;; c2" := (bind c1 (fun _ => c2))
  (at level 100, right associativity) : ans_scope.
Local Open Scope ans_scope.

(** [for (x : xs) body]. *)
Fixpoint for_each {A} (xs : list A) (body : A -> M unit) : M unit :=
  match xs with
  | [] => ret tt
  | x :: rest => body x ;;; for_each rest body
  end.

(** Field assignments. *)
Definition set_connected (b : bool) (s : ANS) : ANS :=
  mk_ANS (_characteristics s) b (_button_press_count s)
    (_supported_new_alert_category s) (_supported_unread_alert_category s)
    (_enabled_new_alert_category s) (_enabled_unread_alert_category s)
    (_alert_status s) (_control_point s) (gatt_server_writes s).

Definition set_button_press_count (n : Z) (s : ANS) : ANS :=
  mk_ANS (_characteristics s) (_connected s) n
    (_supported_new_alert_category s) (_supported_unread_alert_category s)
    (_enabled_new_alert_category s) (_enabled_unread_alert_category s)
    (_alert_status s) (_control_point s) (gatt_server_writes s).

Definition set_supported_new (m : Z) (s : ANS) : ANS :=
  mk_ANS (_characteristics s) (_connected s) (_button_press_count s)
    m (_supported_unread_alert_category s)
    (_enabled_new_alert_category s) (_enabled_unread_alert_category s)
    (_alert_status s) (_control_point s) (gatt_server_writes s).

Definition set_supported_unread (m : Z) (s : ANS) : ANS :=
  mk_ANS (_characteristics s) (_connected s) (_button_press_count s)
    (_supported_new_alert_category s) m
    (_enabled_new_alert_category s) (_enabled_unread_alert_category s)
    (_alert_status s) (_control_point s) (gatt_server_writes s).

Definition set_enabled_new (m : Z) (s : ANS) : ANS :=
  mk_ANS (_characteristics s) (_connected s) (_button_press_count s)
    (_supported_new_alert_category s) (_supported_unread_alert_category s)
    m (_enabled_unread_alert_category s)
    (_alert_status s) (_control_point s) (gatt_server_writes s).

Definition set_enabled_unread (m : Z) (s : ANS) : ANS :=
  mk_ANS (_characteristics s) (_connected s) (_button_press_count s)
    (_supported_new_alert_category s) (_supported_unread_alert_category s)
    (_enabled_new_alert_category s) m
    (_alert_status s) (_control_point s) (gatt_server_writes s).

Definition set_alert_status (l : list alert_status_t) (s : ANS) : ANS :=
  mk_ANS (_characteristics s) (_connected s) (_button_press_count s)
    (_supported_new_alert_category s) (_supported_unread_alert_category s)
    (_enabled_new_alert_category s) (_enabled_unread_alert_category s)
    l (_control_point s) (gatt_server_writes s).

Definition set_control_point (c : control_point_t) (s : ANS) : ANS :=
  mk_ANS (_characteristics s) (_connected s) (_button_press_count s)
    (_supported_new_alert_category s) (_supported_unread_alert_category s)
    (_enabled_new_alert_category s) (_enabled_unread_alert_category s)
    (_alert_status s) c (gatt_server_writes s).

Definition set_characteristics (l : list Z) (s : ANS) : ANS :=
  mk_ANS l (_connected s) (_button_press_count s)
    (_supported_new_alert_category s) (_supported_unread_alert_category s)
    (_enabled_new_alert_category s) (_enabled_unread_alert_category s)
    (_alert_status s) (_control_point s) (gatt_server_writes s).

Definition log_write (w : gatt_write) (s : ANS) : ANS :=
  mk_ANS (_characteristics s) (_connected s) (_button_press_count s)
    (_supported_new_alert_category s) (_supported_unread_alert_category s)
    (_enabled_new_alert_category s) (_enabled_unread_alert_category s)
    (_alert_status s) (_control_point s) (gatt_server_writes s ++ [w]).

(** ** Access to [_alert_status]

    The array is declared with [ANS_ALERT_CATEGORY_COUNT] elements; an
    access at any other index is a [Fault]. *)

Definition in_bounds (i : Z) : bool :=
  (0 <=? i) && (i <? ANS_ALERT_CATEGORY_COUNT).

Definition alert_status_at (i : Z) : M alert_status_t := fun s =>
  if in_bounds i then
    match _alert_status s !! Z.to_nat i with
    | Some a => Done a s
    | None => Fault (OutOfBounds i)
    end
  else Fault (OutOfBounds i).

Definition alert_status_store (i : Z) (a : alert_status_t) : M unit := fun s =>
  if in_bounds i then
    Done tt (set_alert_status (<[Z.to_nat i := a]> (_alert_status s)) s)
  else Fault (OutOfBounds i).

(** [_alert_status[i].fields.category = v]. *)
Definition store_category (i v : Z) : M unit :=
  a <- alert_status_at i ;;
  alert_status_store i (mk_alert_status v (as_count a)).

(** [_alert_status[i].fields.count = v]. *)
Definition store_count (i v : Z) : M unit :=
  a <- alert_status_at i ;;
  alert_status_store i (mk_alert_status (as_category a) v).

(** [_alert_status[i].fields.count] as an rvalue. *)
Definition load_count (i : Z) : M Z :=
  a <- alert_status_at i ;; ret (as_count a).

(** [CGattService::setCharacteristicValue<T>] applied to the characteristic
    at position [index] of [_characteristics], with [size = sizeof(T)]. *)
Definition setCharacteristicValue (index size value : Z) : M unit :=
  modify (log_write (mk_gatt_write index size value)).

(** A call of [getCategoryMaskFromId]: the mask, or a [Fault] where the
    shift is not defined. *)
Definition mask_from_id (category : Z) : M Z :=
  fun s =>
    match getCategoryMaskFromId category with
    | Some mask => Done mask s
    | None => Fault (UndefinedShift category)
    end.

(** ** Member functions (alert_notification_service.cpp) *)

(** The body of the loops [for (i = 0; i < ANS_ALERT_CATEGORY_COUNT; i++)
    _alert_status[i].fields.count = 0]. *)
Definition clear_all_counts : M unit :=
  for_each (range 10) (fun i => store_count i 0).

Definition clearAlertsOfCategory (category : Z) : M unit :=
  match category with
  | ANS_TYPE_SIMPLE_ALERT => store_count ANS_TYPE_SIMPLE_ALERT 0
  | ANS_TYPE_EMAIL => store_count ANS_TYPE_EMAIL 0
  | ANS_TYPE_NEWS => store_count ANS_TYPE_NEWS 0
  | ANS_TYPE_NOTIFICATION_CALL => store_count ANS_TYPE_NOTIFICATION_CALL 0
  | ANS_TYPE_MISSED_CALL => store_count ANS_TYPE_MISSED_CALL 0
  | ANS_TYPE_SMS_MMS => store_count ANS_TYPE_SMS_MMS 0
  | ANS_TYPE_VOICE_MAIL => store_count ANS_TYPE_VOICE_MAIL 0
  | ANS_TYPE_SCHEDULE => store_count ANS_TYPE_SCHEDULE 0
  | ANS_TYPE_HIGH_PRIORITIZED_ALERT =>
      store_count ANS_TYPE_HIGH_PRIORITIZED_ALERT 0
  | ANS_TYPE_INSTANT_MESSAGE => store_count ANS_TYPE_INSTANT_MESSAGE 0
  | ANS_TYPE_ALL_ALERTS => clear_all_counts
  | _ => ret tt
  end.

Definition onConnected : M unit :=
  clearAlertsOfCategory ANS_TYPE_ALL_ALERTS ;;;
  modify (set_button_press_count 0) ;;;
  modify (set_connected true).

Definition onDisconnected : M unit :=
  modify (set_connected false) ;;;
  clearAlertsOfCategory ANS_TYPE_ALL_ALERTS.

Definition addNewAlertToCategory (category : Z) : M bool :=
  category_mask <- mask_from_id category ;;
  s <- get ;;
  if negb (truthy (Z.land category_mask (_supported_new_alert_category s)))
  then ret false
  else
    n <- load_count category ;;
    store_count category (u8 (n + 1)) ;;;
    s <- get ;;
    let enabled := Z.land category_mask (_enabled_new_alert_category s) in
    if negb (truthy enabled) then ret false
    else
      n <- load_count category ;;
      setCharacteristicValue _new_alert_index 1 n ;;;
      s <- get ;;
      let enabled_unread :=
        Z.land category_mask (_enabled_unread_alert_category s) in
      if negb (truthy enabled_unread) then ret false
      else
        n <- load_count category ;;
        setCharacteristicValue _unread_alert_status_index 1 n ;;;
        ret true.

(** The loop shared by the two [setSupported...] functions: every category
    whose bit is set in the new mask has its alerts cleared. *)
Definition clear_supported (mask : Z) : M unit :=
  for_each (range 10) (fun ii =>
    if negb (Z.land mask (Z.shiftl 1 ii) =? 0)
    then clearAlertsOfCategory ii
    else ret tt).

Definition setSupportedUnreadAlertsCategory (supportedUnreadAlerts : Z)
  : M bool :=
  s <- get ;;
  if _connected s then ret false
  else
    modify (set_supported_unread supportedUnreadAlerts) ;;;
    clear_supported supportedUnreadAlerts ;;;
    s <- get ;;
    setCharacteristicValue _supported_unread_alert_category_index 2
      (_supported_unread_alert_category s) ;;;
    ret true.

Definition addSupportedUnreadAlertsCategory (category : Z) : M bool :=
  s <- get ;;
  if _connected s then ret false
  else
    category_mask <- mask_from_id category ;;
    modify (set_supported_unread
              (u16 (Z.lor (_supported_unread_alert_category s)
                          category_mask))) ;;;
    clearAlertsOfCategory category ;;;
    s <- get ;;
    setCharacteristicValue _supported_unread_alert_category_index 2
      (_supported_unread_alert_category s) ;;;
    ret true.

Definition removeSupportedUnreadAlertsCategory (category : Z) : M bool :=
  s <- get ;;
  if _connected s then ret false
  else
    category_mask <- mask_from_id category ;;
    modify (set_supported_unread
              (u16 (Z.land (_supported_unread_alert_category s)
                           (Z.lnot category_mask)))) ;;;
    s <- get ;;
    setCharacteristicValue _supported_unread_alert_category_index 2
      (_supported_unread_alert_category s) ;;;
    clearAlertsOfCategory category ;;;
    ret true.

Definition setSupportedNewAlertsCategory (supportedNewAlerts : Z) : M bool :=
  s <- get ;;
  if _connected s then ret false
  else
    modify (set_supported_new supportedNewAlerts) ;;;
    clear_supported supportedNewAlerts ;;;
    s <- get ;;
    setCharacteristicValue _supported_new_alert_category_index 2
      (_supported_new_alert_category s) ;;;
    ret true.

Definition addSupportedNewAlertsCategory (category : Z) : M bool :=
  s <- get ;;
  if _connected s then ret false
  else
    category_mask <- mask_from_id category ;;
    modify (set_supported_new
              (u16 (Z.lor (_supported_new_alert_category s) category_mask))) ;;;
    s <- get ;;
    setCharacteristicValue _supported_new_alert_category_index 2
      (_supported_new_alert_category s) ;;;
    clearAlertsOfCategory category ;;;
    ret true.

Definition removeSupportedNewAlertsCategory (category : Z) : M bool :=
  s <- get ;;
  if _connected s then ret false
  else
    category_mask <- mask_from_id category ;;
    modify (set_supported_new
              (u16 (Z.land (_supported_new_alert_category s)
                           (Z.lnot category_mask)))) ;;;
    s <- get ;;
    setCharacteristicValue _supported_new_alert_category_index 2
      (_supported_new_alert_category s) ;;;
    clearAlertsOfCategory category ;;;
    ret true.

(** The button handler, run from the event queue. *)
Definition buttonPressedHandler : M unit :=
  s <- get ;;
  modify (set_button_press_count (u32 (_button_press_count s + 1))) ;;;
  addNewAlertToCategory ANS_TYPE_SIMPLE_ALERT ;;;
  ret tt.

(** *** The control-point handler *)

(** The search loop at the head of [onDataWrittenHandler]: the position of
    [characteristic] in [_characteristics], or [-1]. *)
Fixpoint find_characteristic (its : list Z) (characteristic index : Z) : Z :=
  match its with
  | [] => -1
  | it :: rest =>
      if it =? characteristic then index
      else find_characteristic rest characteristic (index + 1)
  end.

(** [case ANS_NOTIFY_NEW_INCOMING_ALERT_IMMEDIATELY] with
    [category == 0xff]: the loop runs [i] from 0 to
    [ANS_ALERT_CATEGORY_COUNT] inclusive and writes [_button_press_count],
    a [uint32_t]. *)
Definition notify_all_new : M unit :=
  for_each (range 11) (fun i =>
    let mask := u16 (Z.shiftl 1 i) in
    s <- get ;;
    if truthy (Z.land (_enabled_new_alert_category s) mask)
    then setCharacteristicValue _new_alert_index 4 (_button_press_count s)
    else ret tt).

(** The [switch (command)] statement. *)
Definition command_switch (command category categoryMask : Z) : M unit :=
  s <- get ;;
  match command with
  | ANS_ENABLE_NEW_INCOMING_ALERT_NOTIFICATION =>
      if truthy (Z.land (_supported_new_alert_category s) categoryMask)
      then modify (set_enabled_new
                     (u16 (Z.lor (_enabled_new_alert_category s) categoryMask)))
      else ret tt
  | ANS_ENABLE_UNREAD_CATEGORY_STATUS_NOTIFICATION =>
      if truthy (Z.land (_supported_unread_alert_category s) categoryMask)
      then modify (set_enabled_unread
                     (u16 (Z.lor (_enabled_unread_alert_category s)
                                 categoryMask)))
      else ret tt
  | ANS_DISABLE_NEW_INCOMING_ALERT_NOTIFICATION =>
      if truthy (Z.land (_supported_new_alert_category s) categoryMask)
      then modify (set_enabled_new
                     (u16 (Z.land (_enabled_new_alert_category s)
                                  (Z.lnot categoryMask))))
      else ret tt
  | ANS_DISABLE_UNREAD_CATEGORY_STATUS_NOTIFICATION =>
      if truthy (Z.land (_supported_unread_alert_category s) categoryMask)
      then modify (set_enabled_unread
                     (u16 (Z.land (_enabled_unread_alert_category s)
                                  (Z.lnot categoryMask))))
      else ret tt
  | ANS_NOTIFY_NEW_INCOMING_ALERT_IMMEDIATELY =>
      if category =? 255 then notify_all_new
      else if truthy (Z.land (_enabled_new_alert_category s) categoryMask)
      then n <- load_count category ;;
           setCharacteristicValue _new_alert_index 1 n
      else ret tt
  | ANS_NOTIFY_UNREAD_CATEGORY_STATUS_IMMEDIATELY =>
      if truthy (Z.land (_enabled_unread_alert_category s) categoryMask)
      then n <- load_count category ;;
           setCharacteristicValue _unread_alert_status_index 1 n
      else ret tt
  | _ => ret tt
  end.

(** What the handler does once the written characteristic is known to be
    the control point.  [data] holds the written bytes and [size], a
    [uint16_t] in the source, is their number: the caller passes the
    length of the attribute write. *)
Definition control_point_written (data : list Z) : M unit :=
  let size := Z.of_nat (length data) in
  if (size <? 1) || (size >? 2) then ret tt
  else if size =? 1 then
    for_each (range 10) (fun j => store_count j 0)
  else
    let category := nth 1 data 0 in
    let command := nth 0 data 0 in
    store_category category category ;;;
    modify (set_control_point (mk_control_point command category)) ;;;
    s <- get ;;
    categoryMask <- mask_from_id (cp_category (_control_point s)) ;;
    command_switch command category categoryMask.

(** The second loop of the handler: the first iteration that finds the
    control point runs the body and leaves the loop. *)
Fixpoint dispatch_loop (iterations : nat) (characteristic_index : Z)
  (body : M unit) : M unit :=
  match iterations with
  | O => ret tt
  | S rest =>
      if characteristic_index =? _alert_notification_control_point_index
      then body
      else dispatch_loop rest characteristic_index body
  end.

Definition onDataWrittenHandler (characteristic : Z) (data : list Z) : M unit :=
  s <- get ;;
  let characteristic_index :=
    find_characteristic (_characteristics s) characteristic 0 in
  if characteristic_index =? -1 then ret tt
  else
    dispatch_loop (length (_characteristics s)) characteristic_index
      (control_point_written data).

(** *** The constructor *)

(** [CGattService::addCharacteristic], as far as this object is concerned:
    the new characteristic is appended to [_characteristics]. *)
Definition addCharacteristic (characteristic : Z) : M unit :=
  s <- get ;;
  modify (set_characteristics (_characteristics s ++ [characteristic])).

(** The object before the constructor body runs: [_button_press_count] is
    0 by the initialiser list, [_control_point] is value-initialised, the
    base class has no characteristic; the other members, which the body
    assigns before reading them, are shown as zero. *)
Definition allocated : ANS :=
  mk_ANS [] false 0 0 0 0 0
    (replicate 10 (mk_alert_status 0 0)) (mk_control_point 0 0) [].

(** The constructor body; [pointers] are the five characteristics it
    allocates, in creation order. *)
Definition constructor_body (pointers : list Z) : M unit :=
  modify (set_supported_new 0) ;;;
  modify (set_supported_unread 0) ;;;
  modify (set_enabled_new 0) ;;;
  modify (set_enabled_unread 0) ;;;
  modify (set_control_point
            (mk_control_point ANS_DISABLE_NEW_INCOMING_ALERT_NOTIFICATION
                              ANS_TYPE_ALL_ALERTS)) ;;;
  modify (set_connected false) ;;;
  for_each (range 10) (fun i =>
    store_category i i ;;; store_count i 0) ;;;
  for_each pointers addCharacteristic ;;;
  setSupportedNewAlertsCategory ANS_TYPE_MASK_SIMPLE_ALERT ;;;
  setSupportedUnreadAlertsCategory ANS_TYPE_MASK_SIMPLE_ALERT ;;;
  ret tt.

Definition constructor (p0 p1 p2 p3 p4 : Z) : result unit :=
  constructor_body [p0; p1; p2; p3; p4] allocated.

(** ** Views of the object used in the statements *)

(** The two notification axes of the service. *)
Inductive axis : Type := NEW | UNREAD.

Definition supported_mask (a : axis) (s : ANS) : Z :=
  match a with
  | NEW => _supported_new_alert_category s
  | UNREAD => _supported_unread_alert_category s
  end.

Definition enabled_mask (a : axis) (s : ANS) : Z :=
  match a with
  | NEW => _enabled_new_alert_category s
  | UNREAD => _enabled_unread_alert_category s
  end.

(** The bits of the mask of a category; no bit where
    [getCategoryMaskFromId] has no result. *)
Definition category_bits (category : Z) : Z :=
  match getCategoryMaskFromId category with
  | Some mask => mask
  | None => 0
  end.

(** The tests the code makes, [_supported_... & categoryMask] and
    [_enabled_... & categoryMask], for a category that has a mask; a
    category that has none is neither supported nor enabled. *)
Definition is_supported (a : axis) (category : Z) (s : ANS) : bool :=
  truthy (Z.land (supported_mask a s) (category_bits category)).

Definition is_enabled (a : axis) (category : Z) (s : ANS) : bool :=
  truthy (Z.land (enabled_mask a s) (category_bits category)).

Definition enable_command (a : axis) : Z :=
  match a with
  | NEW => ANS_ENABLE_NEW_INCOMING_ALERT_NOTIFICATION
  | UNREAD => ANS_ENABLE_UNREAD_CATEGORY_STATUS_NOTIFICATION
  end.

Definition disable_command (a : axis) : Z :=
  match a with
  | NEW => ANS_DISABLE_NEW_INCOMING_ALERT_NOTIFICATION
  | UNREAD => ANS_DISABLE_UNREAD_CATEGORY_STATUS_NOTIFICATION
  end.

(** The ten counters, in index order. *)
Definition counts (s : ANS) : list Z := map as_count (_alert_status s).

(** The four bitmasks, in declaration order. *)
Definition masks (s : ANS) : Z * Z * Z * Z :=
  (_supported_new_alert_category s, _supported_unread_alert_category s,
   _enabled_new_alert_category s, _enabled_unread_alert_category s).

(** The writes made to the GATT server between [s] and [s']. *)
Definition new_writes (s s' : ANS) : list gatt_write :=
  drop (length (gatt_server_writes s)) (gatt_server_writes s').

(** [characteristic] is the pointer stored at the control-point position. *)
Definition is_control_point (s : ANS) (characteristic : Z) : Prop :=
  find_characteristic (_characteristics s) characteristic 0
  = _alert_notification_control_point_index.

(** The array has its declared number of elements. *)
Definition array_ok (s : ANS) : Prop :=
  length (_alert_status s) = 10%nat.

(** The four masks are 16-bit values. *)
Definition masks_ok (s : ANS) : Prop :=
  0 <= _supported_new_alert_category s < 2 ^ 16 /\
  0 <= _supported_unread_alert_category s < 2 ^ 16 /\
  0 <= _enabled_new_alert_category s < 2 ^ 16 /\
  0 <= _enabled_unread_alert_category s < 2 ^ 16.

(** What the types of the members guarantee of every object. *)
Definition well_formed (s : ANS) : Prop := array_ok s /\ masks_ok s.

(** [m] keeps [P] whenever it returns. *)
Definition preserves {A} (P : ANS -> Prop) (m : M A) : Prop :=
  forall s a s', P s -> m s = Done a s' -> P s'.

(** The objects the program can hold: the constructed object, then any
    sequence of calls of the public member functions and handlers that
    return.  A mask passed to a [setSupported...] function is a
    [uint16_t]. *)
Inductive reachable : ANS -> Prop :=
  | reach_constructed p0 p1 p2 p3 p4 s :
      constructor p0 p1 p2 p3 p4 = Done tt s -> reachable s
  | reach_connected s s' :
      reachable s -> onConnected s = Done tt s' -> reachable s'
  | reach_disconnected s s' :
      reachable s -> onDisconnected s = Done tt s' -> reachable s'
  | reach_written s characteristic data s' :
      reachable s ->
      onDataWrittenHandler characteristic data s = Done tt s' -> reachable s'
  | reach_button s s' :
      reachable s -> buttonPressedHandler s = Done tt s' -> reachable s'
  | reach_alert s category r s' :
      reachable s -> addNewAlertToCategory category s = Done r s' ->
      reachable s'
  | reach_set_new s mask r s' :
      reachable s -> 0 <= mask < 2 ^ 16 ->
      setSupportedNewAlertsCategory mask s = Done r s' -> reachable s'
  | reach_add_new s category r s' :
      reachable s -> addSupportedNewAlertsCategory category s = Done r s' ->
      reachable s'
  | reach_remove_new s category r s' :
      reachable s -> removeSupportedNewAlertsCategory category s = Done r s' ->
      reachable s'
  | reach_set_unread s mask r s' :
      reachable s -> 0 <= mask < 2 ^ 16 ->
      setSupportedUnreadAlertsCategory mask s = Done r s' -> reachable s'
  | reach_add_unread s category r s' :
      reachable s -> addSupportedUnreadAlertsCategory category s = Done r s' ->
      reachable s'
  | reach_remove_unread s category r s' :
      reachable s ->
      removeSupportedUnreadAlertsCategory category s = Done r s' ->
      reachable s'.

(** ** Shorthands and concrete objects used in the statements *)

Definition with_count (v : Z) (a : alert_status_t) : alert_status_t :=
  mk_alert_status (as_category a) v.

Definition with_category (v : Z) (a : alert_status_t) : alert_status_t :=
  mk_alert_status v (as_count a).

(** The object after the handler has recorded a two-byte command: the
    category tag of the addressed element and [_control_point]. *)
Definition latched (command category : Z) (s : ANS) : ANS :=
  set_control_point (mk_control_point command category)
    (set_alert_status
       (alter (with_category category) (Z.to_nat category) (_alert_status s))
       s).

(** Assignment to the enabled mask of an axis. *)
Definition set_enabled (a : axis) (m : Z) (s : ANS) : ANS :=
  match a with
  | NEW => set_enabled_new m s
  | UNREAD => set_enabled_unread m s
  end.

(** The object the constructor builds when the five characteristics it
    allocates are numbered 100 .. 104. *)
Definition constructed : ANS := Eval vm_compute in
  match constructor 100 101 102 103 104 with
  | Done _ s => s
  | Fault _ => allocated
  end.

(** The object once a peer has connected to the constructed service. *)
Definition connected_state : ANS := Eval vm_compute in
  match onConnected constructed with
  | Done _ s => s
  | Fault _ => constructed
  end.

(** The constructed service after a peer has connected and enabled
    new-alert notification for category 0 (command 0, category 0). *)
Definition simple_alert_enabled : ANS := Eval vm_compute in
  match (onConnected ;;;
         onDataWrittenHandler 104 [ANS_ENABLE_NEW_INCOMING_ALERT_NOTIFICATION;
                                   ANS_TYPE_SIMPLE_ALERT]) constructed with
  | Done _ s => s
  | Fault _ => constructed
  end.

(** The constructed service after a peer has connected and enabled
    unread-status notification only, for category 0 (command 1). *)
Definition unread_only_enabled : ANS := Eval vm_compute in
  match (onConnected ;;;
         onDataWrittenHandler 104
           [ANS_ENABLE_UNREAD_CATEGORY_STATUS_NOTIFICATION;
            ANS_TYPE_SIMPLE_ALERT]) constructed with
  | Done _ s => s
  | Fault _ => constructed
  end.

(** An object with alerts pending in three categories. *)
Definition with_pending_alerts : ANS :=
  set_alert_status
    [mk_alert_status 0 3; mk_alert_status 1 0; mk_alert_status 2 5;
     mk_alert_status 3 0; mk_alert_status 4 0; mk_alert_status 5 0;
     mk_alert_status 6 0; mk_alert_status 7 0; mk_alert_status 8 0;
     mk_alert_status 9 255]
    (set_enabled_new 1 constructed).

(** The constructed service after: a peer connects and enables new-alert
    notification for category 0, disconnects, the application removes
    category 0 from the supported new-alert categories, and a peer connects
    again. *)
Definition enabled_then_desupported : result unit := Eval vm_compute in
  (onConnected ;;;
   onDataWrittenHandler 104 [ANS_ENABLE_NEW_INCOMING_ALERT_NOTIFICATION;
                             ANS_TYPE_SIMPLE_ALERT] ;;;
   onDisconnected ;;;
   removeSupportedNewAlertsCategory ANS_TYPE_SIMPLE_ALERT ;;;
   onConnected) constructed.

(** Scenario A, reached through the public interface: the application
    adds category 2 to the supported new-alert categories, a peer connects
    and enables new-alert notification for categories 0 and 2, the button
    is pressed once, and the application adds two more alerts to category
    0 and five to category 2. *)
Definition scenario_A : ANS := Eval vm_compute in
  match (addSupportedNewAlertsCategory ANS_TYPE_NEWS ;;;
         onConnected ;;;
         onDataWrittenHandler 104
           [ANS_ENABLE_NEW_INCOMING_ALERT_NOTIFICATION;
            ANS_TYPE_SIMPLE_ALERT] ;;;
         onDataWrittenHandler 104
           [ANS_ENABLE_NEW_INCOMING_ALERT_NOTIFICATION; ANS_TYPE_NEWS] ;;;
         buttonPressedHandler ;;;
         for_each (range 2) (fun _ =>
           addNewAlertToCategory ANS_TYPE_SIMPLE_ALERT ;;; ret tt) ;;;
         for_each (range 5) (fun _ =>
           addNewAlertToCategory ANS_TYPE_NEWS ;;; ret tt)) constructed with
  | Done _ s => s
  | Fault _ => constructed
  end.

(** ** The configuration functions, by axis *)

Definition setSupported (a : axis) : Z -> M bool :=
  match a with
  | NEW => setSupportedNewAlertsCategory
  | UNREAD => setSupportedUnreadAlertsCategory
  end.

Definition addSupported (a : axis) : Z -> M bool :=
  match a with
  | NEW => addSupportedNewAlertsCategory
  | UNREAD => addSupportedUnreadAlertsCategory
  end.

Definition removeSupported (a : axis) : Z -> M bool :=
  match a with
  | NEW => removeSupportedNewAlertsCategory
  | UNREAD => removeSupportedUnreadAlertsCategory
  end.

(** The position of the "supported categories" characteristic of an axis. *)
Definition supported_index (a : axis) : Z :=
  match a with
  | NEW => _supported_new_alert_category_index
  | UNREAD => _supported_unread_alert_category_index
  end.

Definition other_axis (a : axis) : axis :=
  match a with
  | NEW => UNREAD
  | UNREAD => NEW
  end.

Definition set_supported (a : axis) (m : Z) (s : ANS) : ANS :=
  match a with
  | NEW => set_supported_new m s
  | UNREAD => set_supported_unread m s
  end.

(** The array after the loop of a [setSupported...] function: the elements
    visited in [iis] whose bit is set in [mask] have their count at 0. *)
Fixpoint cleared_where (mask : Z) (iis : list Z) (l : list alert_status_t)
  : list alert_status_t :=
  match iis with
  | [] => l
  | ii :: rest =>
      cleared_where mask rest
        (if Z.testbit mask ii then alter (with_count 0) (Z.to_nat ii) l
         else l)
  end.

(** The array after [clearAlertsOfCategory category]. *)
Definition clear_category (category : Z) (l : list alert_status_t)
  : list alert_status_t :=
  if category =? 255 then map (with_count 0) l
  else if in_bounds category then alter (with_count 0) (Z.to_nat category) l
  else l.

(** The state a peer cannot reach through the control point: the supported
    masks, the connection flag, the button count and the characteristics. *)
Definition configuration (s : ANS) : Z * Z * bool * Z * list Z :=
  (_supported_new_alert_category s, _supported_unread_alert_category s,
   _connected s, _button_press_count s, _characteristics s).

(** The two enabled masks: what the connected peer has subscribed to. *)
Definition subscriptions (s : ANS) : Z * Z :=
  (_enabled_new_alert_category s, _enabled_unread_alert_category s).

Definition notify_command (a : axis) : Z :=
  match a with
  | NEW => ANS_NOTIFY_NEW_INCOMING_ALERT_IMMEDIATELY
  | UNREAD => ANS_NOTIFY_UNREAD_CATEGORY_STATUS_IMMEDIATELY
  end.

(** The position of the characteristic an axis notifies through. *)
Definition notify_index (a : axis) : Z :=
  match a with
  | NEW => _new_alert_index
  | UNREAD => _unread_alert_status_index
  end.

(** What every object reached without an out-of-bounds access satisfies:
    each element of the array carries its own index as category tag, each
    counter fits a byte, the enabled masks have bits for the ten concrete
    categories only, the button count fits 32 bits, and the service has
    its five characteristics. *)
Definition consistent (s : ANS) : Prop :=
  map as_category (_alert_status s) = range 10 /\
  Forall (fun n => 0 <= n < 2 ^ 8) (counts s) /\
  0 <= _enabled_new_alert_category s < 2 ^ 10 /\
  0 <= _enabled_unread_alert_category s < 2 ^ 10 /\
  0 <= _button_press_count s < 2 ^ 32 /\
  length (_characteristics s) = 5%nat.

(** [n] successive calls of [addNewAlertToCategory category]. *)
Fixpoint raise_alerts (n : nat) (category : Z) : M unit :=
  match n with
  | O => ret tt
  | S n' => addNewAlertToCategory category ;;; raise_alerts n' category
  end.

(** ** Properties *)

Lemma concrete_category_cases (c : Z) :
  0 <= c < 10 ->
  c = 0 \/ c = 1 \/ c = 2 \/ c = 3 \/ c = 4 \/
  c = 5 \/ c = 6 \/ c = 7 \/ c = 8 \/ c = 9.
Proof. lia. Qed.

Ltac each_category c H :=
  let E := fresh "E" in
  pose proof (concrete_category_cases c H) as E;
  repeat (destruct E as [E | E]); subst c.

Lemma shiftl_one_odd_iff (i : Z) : 0 <= i -> Z.odd (Z.shiftl 1 i) = (i =? 0).
Proof.
  intros Hi. rewrite Z.shiftl_1_l.
  destruct (Z.eqb_spec i 0) as [-> | Hne]; [reflexivity |].
  replace i with (Z.succ (i - 1)) by lia.
  rewrite Z.pow_succ_r by lia.
  rewrite Z.odd_mul. reflexivity.
Qed.

(** C10 -- For every concrete category [c] in [0, 10), converting [c] to its
    mask, the mask back to a category and that category to a mask again
    gives the single-bit mask [1 << c]; and the mask of the ALL sentinel is
    the constant 0x03FF, which is not the single-bit mask of any bit. *)
Theorem mask_roundtrip_and_all :
  (forall c, 0 <= c < 10 ->
     exists mask,
       getCategoryMaskFromId c = Some mask /\
       getCategoryMaskFromId (getCategoryIdFromMask mask)
       = Some (Z.shiftl 1 c)) /\
  getCategoryMaskFromId ANS_TYPE_ALL_ALERTS = Some 1023 /\
  (forall i, 0 <= i ->
     getCategoryMaskFromId ANS_TYPE_ALL_ALERTS <> Some (Z.shiftl 1 i)).
Proof.
  split; [| split].
  - intros c Hc. each_category c Hc; eexists; split; reflexivity.
  - reflexivity.
  - intros i Hi Heq. injection Heq as Heq.
    pose proof (shiftl_one_odd_iff i Hi) as Hodd.
    rewrite <- Heq in Hodd.
    change (Z.odd 1023) with true in Hodd.
    symmetry in Hodd. apply Z.eqb_eq in Hodd. subst i.
    discriminate Heq.
Qed.

Lemma mask_roundtrip_and_all_witness :
  exists mask,
    getCategoryMaskFromId 7 = Some mask /\
    getCategoryMaskFromId (getCategoryIdFromMask mask) = Some (Z.shiftl 1 7).
Proof.
  apply (proj1 mask_roundtrip_and_all 7). lia.
Defined.

(** C5 -- While a peer is connected, each of the six configuration functions
    returns [false] and leaves the whole object, hence the four bitmasks and
    every alert counter, as it was. *)
Theorem mutators_rejected_while_connected (s : ANS) (mask category : Z) :
  _connected s = true ->
  setSupportedNewAlertsCategory mask s = Done false s /\
  addSupportedNewAlertsCategory category s = Done false s /\
  removeSupportedNewAlertsCategory category s = Done false s /\
  setSupportedUnreadAlertsCategory mask s = Done false s /\
  addSupportedUnreadAlertsCategory category s = Done false s /\
  removeSupportedUnreadAlertsCategory category s = Done false s.
Proof.
  intros Hc.
  unfold setSupportedNewAlertsCategory, addSupportedNewAlertsCategory,
    removeSupportedNewAlertsCategory, setSupportedUnreadAlertsCategory,
    addSupportedUnreadAlertsCategory, removeSupportedUnreadAlertsCategory,
    bind, get.
  rewrite Hc. repeat split.
Qed.

Lemma mutators_rejected_while_connected_witness :
  setSupportedNewAlertsCategory 3 connected_state = Done false connected_state /\
  addSupportedNewAlertsCategory 2 connected_state = Done false connected_state /\
  removeSupportedNewAlertsCategory 2 connected_state
  = Done false connected_state /\
  setSupportedUnreadAlertsCategory 3 connected_state
  = Done false connected_state /\
  addSupportedUnreadAlertsCategory 2 connected_state
  = Done false connected_state /\
  removeSupportedUnreadAlertsCategory 2 connected_state
  = Done false connected_state.
Proof.
  apply (mutators_rejected_while_connected connected_state 3 2).
  reflexivity.
Defined.

(** *** Stepping through the monad *)

Lemma bind_done {A B} (m : M A) (k : A -> M B) (s s' : ANS) (a : A) :
  m s = Done a s' -> bind m k s = k a s'.
Proof. intros H. unfold bind. rewrite H. reflexivity. Qed.

Lemma bind_fault {A B} (m : M A) (k : A -> M B) (s : ANS) (f : fault) :
  m s = Fault f -> bind m k s = Fault f.
Proof. intros H. unfold bind. rewrite H. reflexivity. Qed.

Lemma bind_get {B} (k : ANS -> M B) (s : ANS) : bind get k s = k s s.
Proof. reflexivity. Qed.

Lemma bind_modify {B} (f : ANS -> ANS) (k : unit -> M B) (s : ANS) :
  bind (modify f) k s = k tt (f s).
Proof. reflexivity. Qed.

(** Where the shift is defined the mask is the shifted bit, cut to 16
    bits. *)
Lemma getCategoryMaskFromId_defined (category : Z) :
  0 <= category < 32 \/ category = ANS_TYPE_ALL_ALERTS ->
  getCategoryMaskFromId category = Some (category_bits category).
Proof.
  intros H. unfold category_bits, getCategoryMaskFromId, shift_defined.
  destruct (negb (category =? 255)) eqn:Hall; [| reflexivity].
  apply negb_true_iff, Z.eqb_neq in Hall.
  replace ((0 <=? category) && (category <? 32)) with true by lia.
  reflexivity.
Qed.

Lemma getCategoryMaskFromId_undefined (category : Z) :
  32 <= category < 255 -> getCategoryMaskFromId category = None.
Proof.
  intros H. unfold getCategoryMaskFromId, shift_defined.
  replace (category =? 255) with false by lia.
  replace (category <? 32) with false by lia.
  rewrite andb_false_r. reflexivity.
Qed.

Lemma category_bits_eq (category : Z) :
  category_bits category
  = if negb (category =? ANS_TYPE_ALL_ALERTS)
    then u16 (Z.shiftl 1 category)
    else ANS_TYPE_MASK_ALL_ALERTS.
Proof.
  unfold category_bits, getCategoryMaskFromId, shift_defined.
  destruct (negb (category =? 255)); [| reflexivity].
  destruct (0 <=? category) eqn:Hlow; simpl.
  - destruct (category <? 32) eqn:Hhigh; [reflexivity |].
    apply Z.leb_le in Hlow. apply Z.ltb_ge in Hhigh.
    unfold u16. rewrite Z.shiftl_1_l.
    replace category with (16 + (category - 16)) by lia.
    rewrite Z.pow_add_r, Z.mul_comm by lia. symmetry. apply Z.mod_mul. lia.
  - apply Z.leb_gt in Hlow.
    rewrite Z.shiftl_1_l, Z.pow_neg_r by lia. reflexivity.
Qed.

Lemma mask_from_id_defined (category : Z) (s : ANS) :
  0 <= category < 32 \/ category = ANS_TYPE_ALL_ALERTS ->
  mask_from_id category s = Done (category_bits category) s.
Proof.
  intros H. unfold mask_from_id.
  rewrite (getCategoryMaskFromId_defined category H). reflexivity.
Qed.

Lemma bind_mask_from_id {B} (category : Z) (k : Z -> M B) (s : ANS) :
  0 <= category < 32 \/ category = ANS_TYPE_ALL_ALERTS ->
  bind (mask_from_id category) k s = k (category_bits category) s.
Proof.
  intros H. unfold bind. rewrite (mask_from_id_defined category s H).
  reflexivity.
Qed.

Lemma getCategoryMaskFromId_some (category mask : Z) :
  getCategoryMaskFromId category = Some mask ->
  (0 <= category < 32 \/ category = ANS_TYPE_ALL_ALERTS) /\
  category_bits category = mask.
Proof.
  intros H. split; [| unfold category_bits; rewrite H; reflexivity].
  unfold getCategoryMaskFromId, shift_defined in H.
  destruct (category =? 255) eqn:Hall; [right; lia |].
  destruct ((0 <=? category) && (category <? 32)) eqn:Hd; [| discriminate].
  left. lia.
Qed.

Lemma bind_mask_from_id_undefined {B} (category : Z) (k : Z -> M B) (s : ANS) :
  getCategoryMaskFromId category = None ->
  bind (mask_from_id category) k s = Fault (UndefinedShift category).
Proof.
  intros H. unfold bind, mask_from_id. rewrite H. reflexivity.
Qed.

Lemma in_bounds_true (i : Z) : 0 <= i < 10 -> in_bounds i = true.
Proof. intros H. unfold in_bounds. lia. Qed.

Lemma in_bounds_false (i : Z) : 10 <= i -> in_bounds i = false.
Proof. intros H. unfold in_bounds. lia. Qed.

Lemma array_ok_elements (s : ANS) :
  array_ok s ->
  exists a0 a1 a2 a3 a4 a5 a6 a7 a8 a9,
    _alert_status s = [a0; a1; a2; a3; a4; a5; a6; a7; a8; a9].
Proof.
  unfold array_ok. destruct (_alert_status s) as [| a0 l]; [discriminate |].
  do 9 (destruct l as [| ? l]; [discriminate |]).
  destruct l; [| discriminate]. intros _. repeat eexists.
Qed.

(** Names the ten elements of the array of a well-formed object. *)
Ltac open_array s H :=
  let E := fresh "E" in
  destruct (array_ok_elements s H) as (?a & ?a & ?a & ?a & ?a & ?a & ?a & ?a
                                        & ?a & ?a & E).

Lemma store_count_done (s : ANS) (i v : Z) :
  array_ok s -> 0 <= i < 10 ->
  store_count i v s
  = Done tt (set_alert_status
               (alter (with_count v) (Z.to_nat i) (_alert_status s)) s).
Proof.
  intros Hs Hi. open_array s Hs.
  unfold store_count, bind, alert_status_at, alert_status_store.
  rewrite (in_bounds_true i Hi), E.
  each_category i Hi; simpl; rewrite E; reflexivity.
Qed.

Lemma store_category_done (s : ANS) (i v : Z) :
  array_ok s -> 0 <= i < 10 ->
  store_category i v s
  = Done tt (set_alert_status
               (alter (with_category v) (Z.to_nat i) (_alert_status s)) s).
Proof.
  intros Hs Hi. open_array s Hs.
  unfold store_category, bind, alert_status_at, alert_status_store.
  rewrite (in_bounds_true i Hi), E.
  each_category i Hi; simpl; rewrite E; reflexivity.
Qed.

Lemma load_count_done (s : ANS) (i : Z) :
  array_ok s -> 0 <= i < 10 ->
  load_count i s = Done (nth (Z.to_nat i) (counts s) 0) s.
Proof.
  intros Hs Hi. open_array s Hs.
  unfold load_count, bind, alert_status_at, counts.
  rewrite (in_bounds_true i Hi), E.
  each_category i Hi; reflexivity.
Qed.

Lemma store_category_fault (s : ANS) (i v : Z) :
  10 <= i -> store_category i v s = Fault (OutOfBounds i).
Proof.
  intros Hi. unfold store_category, bind, alert_status_at.
  rewrite (in_bounds_false i Hi). reflexivity.
Qed.

Lemma clear_all_counts_done (s : ANS) :
  array_ok s ->
  clear_all_counts s
  = Done tt (set_alert_status (map (with_count 0) (_alert_status s)) s).
Proof.
  intros Hs. open_array s Hs.
  destruct s; simpl in E; subst. reflexivity.
Qed.

Lemma counts_all_cleared (l : list alert_status_t) :
  map as_count (map (with_count 0) l) = replicate (length l) 0.
Proof. induction l as [| a l IH]; simpl; [| rewrite IH]; reflexivity. Qed.

(** *** Every reachable object is well formed *)

Lemma u16_range (x : Z) : 0 <= u16 x < 2 ^ 16.
Proof. unfold u16. apply Z.mod_pos_bound. lia. Qed.

Section Preservation.

Variable P : ANS -> Prop.

Lemma preserves_ret {A} (a : A) : preserves P (ret a).
Proof. intros s a' s' HP H. injection H as _ <-. exact HP. Qed.

Lemma preserves_get : preserves P get.
Proof. intros s a s' HP H. injection H as _ <-. exact HP. Qed.

Lemma preserves_modify (f : ANS -> ANS) :
  (forall s, P s -> P (f s)) -> preserves P (modify f).
Proof. intros Hf s a s' HP H. injection H as _ <-. apply Hf, HP. Qed.

Lemma preserves_mask_from_id (category : Z) :
  preserves P (mask_from_id category).
Proof.
  intros s a s' HP H. unfold mask_from_id in H.
  destruct (getCategoryMaskFromId category); [| discriminate].
  injection H as _ <-. exact HP.
Qed.

Lemma preserves_bind {A B} (m : M A) (k : A -> M B) :
  preserves P m -> (forall a, preserves P (k a)) -> preserves P (bind m k).
Proof.
  intros Hm Hk s b s' HP H. unfold bind in H.
  destruct (m s) as [a s1 | f] eqn:Em; [| discriminate].
  exact (Hk a s1 b s' (Hm s a s1 HP Em) H).
Qed.

Lemma preserves_for_each {A} (xs : list A) (body : A -> M unit) :
  (forall x, preserves P (body x)) -> preserves P (for_each xs body).
Proof.
  intros Hbody. induction xs as [| x xs IH]; simpl.
  - apply preserves_ret.
  - apply preserves_bind; [apply Hbody | intros _; exact IH].
Qed.

Lemma preserves_dispatch_loop (n : nat) (index : Z) (body : M unit) :
  preserves P body -> preserves P (dispatch_loop n index body).
Proof.
  intros Hbody. induction n as [| n IH]; simpl.
  - apply preserves_ret.
  - destruct (index =? _); [exact Hbody | exact IH].
Qed.

End Preservation.

Lemma well_formed_alert_status (s : ANS) (l : list alert_status_t) :
  well_formed s -> length l = length (_alert_status s) ->
  well_formed (set_alert_status l s).
Proof.
  intros [Ha Hm] Hl. split; [| exact Hm].
  unfold array_ok in *. simpl. congruence.
Qed.

Lemma preserves_alert_status_at (i : Z) :
  preserves well_formed (alert_status_at i).
Proof.
  intros s a s' HP H. unfold alert_status_at in H.
  destruct (in_bounds i); [| discriminate].
  destruct (_ !! _); [| discriminate].
  injection H as _ <-. exact HP.
Qed.

Lemma preserves_alert_status_store (i : Z) (a : alert_status_t) :
  preserves well_formed (alert_status_store i a).
Proof.
  intros s u s' HP H. unfold alert_status_store in H.
  destruct (in_bounds i); [| discriminate].
  injection H as _ <-. apply well_formed_alert_status; [exact HP |].
  apply length_insert.
Qed.

(** Assignments that keep an object well formed. *)
Lemma well_formed_assign (s : ANS) :
  well_formed s ->
  (forall b, well_formed (set_connected b s)) /\
  (forall n, well_formed (set_button_press_count n s)) /\
  (forall c, well_formed (set_control_point c s)) /\
  (forall w, well_formed (log_write w s)) /\
  (forall m, 0 <= m < 2 ^ 16 -> well_formed (set_supported_new m s)) /\
  (forall m, 0 <= m < 2 ^ 16 -> well_formed (set_supported_unread m s)) /\
  (forall m, 0 <= m < 2 ^ 16 -> well_formed (set_enabled_new m s)) /\
  (forall m, 0 <= m < 2 ^ 16 -> well_formed (set_enabled_unread m s)).
Proof.
  intros [Ha (H1 & H2 & H3 & H4)].
  repeat split; simpl; try assumption; lia.
Qed.

Create HintDb preserves discriminated.

(** Breaks a preservation goal down along the structure of the code, using
    the facts already recorded for the functions it calls. *)
Ltac preserve :=
  repeat first
    [ solve [auto with preserves nocore]
    | apply preserves_ret
    | apply preserves_get
    | apply preserves_mask_from_id
    | apply preserves_alert_status_at
    | apply preserves_alert_status_store
    | apply preserves_bind; [| intro]
    | apply preserves_for_each; intro
    | apply preserves_modify;
        let s := fresh "s" in let H := fresh "H" in
        intros s H;
        destruct (well_formed_assign s H)
          as (?Hc & ?Hb & ?Hp & ?Hw & ?Hsn & ?Hsu & ?Hen & ?Heu);
        solve [ eauto using u16_range ]
    | match goal with
      | |- preserves _ (if ?b then _ else _) => destruct b
      | |- preserves _ (match ?x with _ => _ end) => destruct x
      end ].

Lemma preserves_store_count (i v : Z) : preserves well_formed (store_count i v).
Proof. unfold store_count. preserve. Qed.

Lemma preserves_store_category (i v : Z) :
  preserves well_formed (store_category i v).
Proof. unfold store_category. preserve. Qed.

Lemma preserves_load_count (i : Z) : preserves well_formed (load_count i).
Proof. unfold load_count. preserve. Qed.

#[local] Hint Resolve preserves_store_count preserves_store_category
  preserves_load_count : preserves.

Lemma preserves_clearAlertsOfCategory (category : Z) :
  preserves well_formed (clearAlertsOfCategory category).
Proof. unfold clearAlertsOfCategory, clear_all_counts. preserve. Qed.

#[local] Hint Resolve preserves_clearAlertsOfCategory : preserves.

Lemma preserves_onConnected : preserves well_formed onConnected.
Proof. unfold onConnected. preserve. Qed.

Lemma preserves_onDisconnected : preserves well_formed onDisconnected.
Proof. unfold onDisconnected. preserve. Qed.

Lemma preserves_addNewAlertToCategory (category : Z) :
  preserves well_formed (addNewAlertToCategory category).
Proof. unfold addNewAlertToCategory, setCharacteristicValue. preserve. Qed.

#[local] Hint Resolve preserves_addNewAlertToCategory : preserves.

Lemma preserves_buttonPressedHandler : preserves well_formed buttonPressedHandler.
Proof. unfold buttonPressedHandler. preserve. Qed.

Lemma preserves_setSupported (mask : Z) :
  0 <= mask < 2 ^ 16 ->
  preserves well_formed (setSupportedNewAlertsCategory mask) /\
  preserves well_formed (setSupportedUnreadAlertsCategory mask).
Proof.
  intros Hmask.
  unfold setSupportedNewAlertsCategory, setSupportedUnreadAlertsCategory,
    clear_supported, setCharacteristicValue.
  split; preserve.
Qed.

Lemma preserves_add_remove_supported (category : Z) :
  preserves well_formed (addSupportedNewAlertsCategory category) /\
  preserves well_formed (removeSupportedNewAlertsCategory category) /\
  preserves well_formed (addSupportedUnreadAlertsCategory category) /\
  preserves well_formed (removeSupportedUnreadAlertsCategory category).
Proof.
  unfold addSupportedNewAlertsCategory, removeSupportedNewAlertsCategory,
    addSupportedUnreadAlertsCategory, removeSupportedUnreadAlertsCategory,
    setCharacteristicValue.
  split; [| split; [| split]]; preserve.
Qed.

Lemma preserves_onDataWrittenHandler (characteristic : Z) (data : list Z) :
  preserves well_formed (onDataWrittenHandler characteristic data).
Proof.
  unfold onDataWrittenHandler. preserve.
  apply preserves_dispatch_loop.
  unfold control_point_written, command_switch, notify_all_new,
    setCharacteristicValue.
  preserve.
Qed.

Lemma constructor_well_formed (p0 p1 p2 p3 p4 : Z) (s : ANS) :
  constructor p0 p1 p2 p3 p4 = Done tt s -> well_formed s.
Proof.
  intros H. vm_compute in H. injection H as <-.
  split; [reflexivity |]. repeat split; simpl; lia.
Qed.

(** Every object the program can hold is well formed: the hypotheses
    [array_ok] and [masks_ok] of the properties above and below hold of
    it. *)
Lemma reachable_well_formed (s : ANS) : reachable s -> well_formed s.
Proof.
  induction 1 as [p0 p1 p2 p3 p4 s Hc
                 | s s' _ IH Hr | s s' _ IH Hr
                 | s chr data s' _ IH Hr | s s' _ IH Hr
                 | s c r s' _ IH Hr
                 | s m r s' _ IH Hm Hr | s c r s' _ IH Hr | s c r s' _ IH Hr
                 | s m r s' _ IH Hm Hr | s c r s' _ IH Hr | s c r s' _ IH Hr].
  - exact (constructor_well_formed _ _ _ _ _ s Hc).
  - exact (preserves_onConnected _ _ _ IH Hr).
  - exact (preserves_onDisconnected _ _ _ IH Hr).
  - exact (preserves_onDataWrittenHandler _ _ _ _ _ IH Hr).
  - exact (preserves_buttonPressedHandler _ _ _ IH Hr).
  - exact (preserves_addNewAlertToCategory _ _ _ _ IH Hr).
  - exact (proj1 (preserves_setSupported m Hm) _ _ _ IH Hr).
  - exact (proj1 (preserves_add_remove_supported c) _ _ _ IH Hr).
  - exact (proj1 (proj2 (preserves_add_remove_supported c)) _ _ _ IH Hr).
  - exact (proj2 (preserves_setSupported m Hm) _ _ _ IH Hr).
  - exact (proj1 (proj2 (proj2 (preserves_add_remove_supported c)))
             _ _ _ IH Hr).
  - exact (proj2 (proj2 (proj2 (preserves_add_remove_supported c)))
             _ _ _ IH Hr).
Qed.

(** The concrete objects of the examples are reachable. *)
Lemma constructed_reachable : reachable constructed.
Proof. apply (reach_constructed 100 101 102 103 104). reflexivity. Qed.

Lemma connected_state_reachable : reachable connected_state.
Proof.
  eapply reach_connected; [exact constructed_reachable | reflexivity].
Qed.

Lemma simple_alert_enabled_reachable : reachable simple_alert_enabled.
Proof.
  eapply (reach_written _ 104 [0; 0]);
    [exact connected_state_reachable | reflexivity].
Qed.

Lemma unread_only_enabled_reachable : reachable unread_only_enabled.
Proof.
  eapply (reach_written _ 104 [1; 0]);
    [exact connected_state_reachable | reflexivity].
Qed.

(** One more call from a reachable object; the result is computed. *)
Tactic Notation "then_call" hyp(H) uconstr(step) :=
  eapply step in H; [| vm_compute; reflexivity].

Lemma enabled_then_desupported_reachable (s : ANS) :
  enabled_then_desupported = Done tt s -> reachable s.
Proof.
  intros H. injection H as <-.
  pose proof simple_alert_enabled_reachable as R.
  then_call R reach_disconnected.
  then_call R (reach_remove_new _ 0).
  then_call R reach_connected.
  exact R.
Qed.

Lemma scenario_A_reachable : reachable scenario_A.
Proof.
  pose proof constructed_reachable as R.
  then_call R (reach_add_new _ 2).
  then_call R reach_connected.
  then_call R (reach_written _ 104 [0; 0]).
  then_call R (reach_written _ 104 [0; 2]).
  then_call R reach_button.
  do 2 (then_call R (reach_alert _ 0)).
  do 5 (then_call R (reach_alert _ 2)).
  exact R.
Qed.

(** *** The written characteristic *)

Lemma find_characteristic_nonempty (its : list Z) (c index : Z) :
  find_characteristic its c index <> -1 -> its <> [].
Proof. destruct its; [intros H; exfalso; apply H; reflexivity | discriminate]. Qed.

Lemma dispatch_loop_control_point (n : nat) (body : M unit) :
  n <> 0%nat ->
  dispatch_loop n _alert_notification_control_point_index body = body.
Proof. destruct n; [congruence | reflexivity]. Qed.

Lemma dispatch_loop_cases (n : nat) (index : Z) (body : M unit) (s : ANS) :
  dispatch_loop n index body s = body s \/
  dispatch_loop n index body s = Done tt s.
Proof.
  induction n as [| n IH]; simpl.
  - right. reflexivity.
  - destruct (index =? _alert_notification_control_point_index);
      [left; reflexivity | exact IH].
Qed.

Lemma handler_on_control_point (s : ANS) (characteristic : Z) (data : list Z) :
  is_control_point s characteristic ->
  onDataWrittenHandler characteristic data s = control_point_written data s.
Proof.
  unfold is_control_point, onDataWrittenHandler, bind, get. intros H.
  rewrite H. simpl.
  rewrite dispatch_loop_control_point; [reflexivity |].
  intros Hlen. apply length_zero_iff_nil in Hlen.
  rewrite Hlen in H. discriminate H.
Qed.

Lemma handler_cases (s : ANS) (characteristic : Z) (data : list Z) :
  onDataWrittenHandler characteristic data s = control_point_written data s \/
  onDataWrittenHandler characteristic data s = Done tt s.
Proof.
  unfold onDataWrittenHandler, bind, get.
  destruct (_ =? -1); [right; reflexivity | apply dispatch_loop_cases].
Qed.

(** C7 -- A written buffer whose length is neither 1 nor 2, the empty
    buffer included, leaves the whole object as it was (bitmasks, counters,
    latched control point) and adds no write to the GATT server. *)
Theorem malformed_length_ignored (s : ANS) (characteristic : Z) (data : list Z) :
  length data <> 1%nat -> length data <> 2%nat ->
  onDataWrittenHandler characteristic data s = Done tt s.
Proof.
  intros H1 H2.
  assert (Hbody : control_point_written data s = Done tt s).
  { unfold control_point_written.
    destruct ((Z.of_nat (length data) <? 1) || (Z.of_nat (length data) >? 2))
      eqn:Hsize; [reflexivity |].
    apply orb_false_iff in Hsize. destruct Hsize as [Hlo Hhi].
    rewrite Z.gtb_ltb in Hhi.
    apply Z.ltb_ge in Hlo. apply Z.ltb_ge in Hhi. lia. }
  destruct (handler_cases s characteristic data) as [E | E];
    rewrite E; [exact Hbody | reflexivity].
Qed.

Lemma malformed_length_ignored_witness :
  onDataWrittenHandler 104 [] constructed = Done tt constructed /\
  onDataWrittenHandler 104 [4; 255; 0] constructed = Done tt constructed.
Proof.
  split; apply malformed_length_ignored; simpl; lia.
Defined.

(** C8 -- A one-byte buffer written to the control point sets the counter
    of each of the ten categories to 0, whatever the byte and the previous
    counters, adds no write to the GATT server and leaves the four
    bitmasks as they were. *)
Theorem one_byte_clears_all_counts (s : ANS) (characteristic byte : Z) :
  array_ok s -> is_control_point s characteristic ->
  exists s',
    onDataWrittenHandler characteristic [byte] s = Done tt s' /\
    counts s' = replicate 10 0 /\
    gatt_server_writes s' = gatt_server_writes s /\
    masks s' = masks s.
Proof.
  intros Hs Hc. rewrite (handler_on_control_point s _ _ Hc).
  change (control_point_written [byte] s) with (clear_all_counts s).
  rewrite (clear_all_counts_done s Hs).
  eexists. split; [reflexivity |]. split; [| split; reflexivity].
  unfold counts. simpl. rewrite counts_all_cleared, Hs. reflexivity.
Qed.

Lemma one_byte_clears_all_counts_witness :
  counts with_pending_alerts = [3; 0; 5; 0; 0; 0; 0; 0; 0; 255] /\
  exists s',
    onDataWrittenHandler 104 [7] with_pending_alerts = Done tt s' /\
    counts s' = replicate 10 0 /\
    gatt_server_writes s' = gatt_server_writes with_pending_alerts /\
    masks s' = masks with_pending_alerts.
Proof.
  split; [reflexivity |].
  apply (one_byte_clears_all_counts with_pending_alerts 104 7); reflexivity.
Defined.

(** C6 -- From every prior state, [onConnected] sets the connection flag and
    [onDisconnected] clears it, both set the counter of every category to
    0, and neither changes any of the four supported/enabled bitmasks. *)
Theorem connection_transitions_reset_counts (s : ANS) :
  array_ok s ->
  (exists s',
     onConnected s = Done tt s' /\
     _connected s' = true /\
     counts s' = replicate 10 0 /\
     masks s' = masks s) /\
  (exists s',
     onDisconnected s = Done tt s' /\
     _connected s' = false /\
     counts s' = replicate 10 0 /\
     masks s' = masks s).
Proof.
  intros Hs. split.
  - unfold onConnected.
    change (clearAlertsOfCategory 255) with clear_all_counts.
    rewrite (bind_done _ _ _ _ _ (clear_all_counts_done s Hs)).
    eexists. split; [reflexivity |].
    split; [reflexivity |]. split; [| reflexivity].
    unfold counts. simpl. rewrite counts_all_cleared, Hs. reflexivity.
  - unfold onDisconnected.
    change (clearAlertsOfCategory 255) with clear_all_counts.
    unfold bind at 1, modify.
    rewrite (clear_all_counts_done (set_connected false s) Hs).
    eexists. split; [reflexivity |].
    split; [reflexivity |]. split; [| reflexivity].
    unfold counts. simpl. rewrite counts_all_cleared, Hs. reflexivity.
Qed.

Lemma connection_transitions_reset_counts_witness :
  (exists s',
     onConnected with_pending_alerts = Done tt s' /\
     _connected s' = true /\
     counts s' = replicate 10 0 /\
     masks s' = masks with_pending_alerts) /\
  (exists s',
     onDisconnected with_pending_alerts = Done tt s' /\
     _connected s' = false /\
     counts s' = replicate 10 0 /\
     masks s' = masks with_pending_alerts).
Proof.
  apply connection_transitions_reset_counts. reflexivity.
Defined.

(** *** Bit-level facts about the 16-bit masks *)

Lemma u16_bits (x i : Z) : Z.testbit (u16 x) i = (i <? 16) && Z.testbit x i.
Proof. unfold u16. apply Z.testbit_mod_pow2. lia. Qed.

Lemma high_bits_clear (e i : Z) :
  0 <= e < 2 ^ 16 -> 16 <= i -> Z.testbit e i = false.
Proof.
  intros He Hi. rewrite <- (Z.mod_small e (2 ^ 16)) by exact He.
  apply Z.mod_pow2_bits_high. lia.
Qed.

Lemma u16_land_l (e x : Z) :
  0 <= e < 2 ^ 16 -> u16 (Z.land e x) = Z.land e x.
Proof.
  intros He. apply Z.bits_inj'. intros n Hn.
  rewrite u16_bits, Z.land_spec.
  destruct (Z.ltb_spec n 16) as [Hlt | Hge]; [reflexivity |].
  rewrite (high_bits_clear e n He Hge). reflexivity.
Qed.

Lemma u16_lor (e m : Z) :
  0 <= e < 2 ^ 16 -> 0 <= m < 2 ^ 16 -> u16 (Z.lor e m) = Z.lor e m.
Proof.
  intros He Hm. apply Z.bits_inj'. intros n Hn.
  rewrite u16_bits, Z.lor_spec.
  destruct (Z.ltb_spec n 16) as [Hlt | Hge]; [reflexivity |].
  rewrite (high_bits_clear e n He Hge), (high_bits_clear m n Hm Hge).
  reflexivity.
Qed.

Lemma land_single_bit (x c : Z) :
  0 <= c -> Z.land x (Z.shiftl 1 c) = if Z.testbit x c then 2 ^ c else 0.
Proof.
  intros Hc. rewrite Z.shiftl_1_l. apply Z.bits_inj'. intros n Hn.
  rewrite Z.land_spec, Z.pow2_bits_eqb by exact Hc.
  destruct (Z.eqb_spec c n) as [-> | Hne].
  - destruct (Z.testbit x n) eqn:Hx; simpl.
    + rewrite Z.pow2_bits_true by exact Hn. reflexivity.
    + rewrite Z.bits_0. reflexivity.
  - rewrite andb_false_r.
    destruct (Z.testbit x c).
    + rewrite Z.pow2_bits_false by exact Hne. reflexivity.
    + rewrite Z.bits_0. reflexivity.
Qed.

Lemma truthy_single_bit (x c : Z) :
  0 <= c -> truthy (Z.land x (Z.shiftl 1 c)) = Z.testbit x c.
Proof.
  intros Hc. rewrite (land_single_bit x c Hc). unfold truthy.
  destruct (Z.testbit x c); [| reflexivity].
  destruct (Z.eqb_spec (2 ^ c) 0) as [H0 | _]; [| reflexivity].
  pose proof (Z.pow_pos_nonneg 2 c ltac:(lia) Hc). lia.
Qed.

Lemma mask_of_concrete (c : Z) :
  0 <= c < 10 -> category_bits c = Z.shiftl 1 c.
Proof. intros Hc. each_category c Hc; reflexivity. Qed.

Lemma mask_of_concrete_range (c : Z) :
  0 <= c < 10 -> 0 <= category_bits c < 2 ^ 16.
Proof. intros Hc. each_category c Hc; vm_compute; split; congruence. Qed.

(** For a concrete category the two tests of the code read one bit. *)
Lemma is_supported_bit (a : axis) (c : Z) (s : ANS) :
  0 <= c < 10 -> is_supported a c s = Z.testbit (supported_mask a s) c.
Proof.
  intros Hc. unfold is_supported. rewrite (mask_of_concrete c Hc).
  apply truthy_single_bit. lia.
Qed.

Lemma is_enabled_bit (a : axis) (c : Z) (s : ANS) :
  0 <= c < 10 -> is_enabled a c s = Z.testbit (enabled_mask a s) c.
Proof.
  intros Hc. unfold is_enabled. rewrite (mask_of_concrete c Hc).
  apply truthy_single_bit. lia.
Qed.

(** *** Two-byte commands on a concrete category *)

Lemma control_point_written_concrete (s : ANS) (command category : Z) :
  array_ok s -> 0 <= category < 10 ->
  control_point_written [command; category] s
  = command_switch command category (category_bits category)
      (latched command category s).
Proof.
  intros Hs Hc. unfold control_point_written.
  change (nth 1 [command; category] 0) with category.
  change (nth 0 [command; category] 0) with command.
  change (Z.of_nat (length [command; category])) with 2.
  cbv iota beta zeta delta [Z.ltb Z.gtb Z.eqb Z.compare Pos.compare
                            Pos.compare_cont Pos.eqb orb].
  rewrite (bind_done _ _ _ _ _ (store_category_done s category category Hs Hc)).
  rewrite bind_modify, bind_get.
  change (cp_category (_control_point (set_control_point _ _))) with category.
  rewrite bind_mask_from_id by lia. reflexivity.
Qed.

Lemma map_alter_invariant {A B} (f : A -> B) (g : A -> A) (l : list A) (n : nat) :
  (forall x, f (g x) = f x) -> map f (alter g n l) = map f l.
Proof.
  intros Hfg. revert n.
  induction l as [| a l IH]; intros [| n]; simpl; try reflexivity.
  - rewrite Hfg. reflexivity.
  - f_equal. apply IH.
Qed.

Lemma counts_latched (command category : Z) (s : ANS) :
  counts (latched command category s) = counts s.
Proof.
  unfold counts, latched. simpl.
  apply map_alter_invariant. reflexivity.
Qed.

Lemma enabled_mask_set_enabled (a : axis) (m : Z) (s : ANS) :
  enabled_mask a (set_enabled a m s) = m.
Proof. destruct a; reflexivity. Qed.

(** The disable and the enable commands, as the [switch] runs them. *)
Lemma disable_switch (s : ANS) (a : axis) (c : Z) :
  command_switch (disable_command a) c (category_bits c) s
  = Done tt
      (if is_supported a c s
       then set_enabled a
              (u16 (Z.land (enabled_mask a s)
                           (Z.lnot (category_bits c)))) s
       else s).
Proof.
  destruct a; unfold command_switch, bind, get, is_supported; simpl;
    match goal with |- context [truthy ?x] => destruct (truthy x) end;
    reflexivity.
Qed.

Lemma enable_switch (s : ANS) (a : axis) (c : Z) :
  command_switch (enable_command a) c (category_bits c) s
  = Done tt
      (if is_supported a c s
       then set_enabled a
              (u16 (Z.lor (enabled_mask a s) (category_bits c))) s
       else s).
Proof.
  destruct a; unfold command_switch, bind, get, is_supported; simpl;
    match goal with |- context [truthy ?x] => destruct (truthy x) end;
    reflexivity.
Qed.

Lemma is_supported_latched (a : axis) (c command category : Z) (s : ANS) :
  is_supported a c (latched command category s) = is_supported a c s.
Proof. destruct a; reflexivity. Qed.

Lemma enabled_mask_latched (a : axis) (command category : Z) (s : ANS) :
  enabled_mask a (latched command category s) = enabled_mask a s.
Proof. destruct a; reflexivity. Qed.

Lemma enabled_mask_ok (a : axis) (s : ANS) :
  masks_ok s -> 0 <= enabled_mask a s < 2 ^ 16.
Proof. intros (_ & _ & Hn & Hu). destruct a; assumption. Qed.

Lemma writes_set_enabled (a : axis) (m : Z) (s : ANS) :
  gatt_server_writes (set_enabled a m s) = gatt_server_writes s.
Proof. destruct a; reflexivity. Qed.

(** C9 -- For a concrete category [c] and either axis, the disable command
    (2 for new alerts, 3 for unread status) written to the control point
    acts only when [c] is supported on that axis: then it clears the bit of
    [c] in the enabled mask of the axis and keeps every other bit; when [c]
    is not supported the enabled mask stays as it was.  In both cases no
    write reaches the GATT server. *)
Theorem disable_gated_on_supported
  (s : ANS) (characteristic : Z) (a : axis) (c : Z) :
  array_ok s -> masks_ok s -> is_control_point s characteristic ->
  0 <= c < 10 ->
  exists s',
    onDataWrittenHandler characteristic [disable_command a; c] s = Done tt s' /\
    gatt_server_writes s' = gatt_server_writes s /\
    (is_supported a c s = true ->
       enabled_mask a s' = Z.land (enabled_mask a s) (Z.lnot (Z.shiftl 1 c)) /\
       Z.testbit (enabled_mask a s') c = false /\
       (forall i, i <> c ->
          Z.testbit (enabled_mask a s') i = Z.testbit (enabled_mask a s) i)) /\
    (is_supported a c s = false -> enabled_mask a s' = enabled_mask a s).
Proof.
  intros Hs Hm Hcp Hc.
  rewrite (handler_on_control_point s _ _ Hcp).
  rewrite (control_point_written_concrete s _ c Hs Hc).
  rewrite disable_switch, is_supported_latched, enabled_mask_latched.
  eexists. split; [reflexivity |].
  pose proof (enabled_mask_ok a s Hm) as He.
  destruct (is_supported a c s).
  - rewrite writes_set_enabled, enabled_mask_set_enabled.
    split; [reflexivity |]. split; [| discriminate]. intros _.
    rewrite (mask_of_concrete c Hc), (u16_land_l _ _ He), Z.shiftl_1_l.
    split; [reflexivity |]. split.
    + rewrite Z.land_spec, Z.lnot_spec, Z.pow2_bits_true by lia.
      apply andb_false_r.
    + intros i Hi.
      destruct (Z.lt_ge_cases i 0) as [Hneg | Hpos].
      * rewrite !Z.testbit_neg_r by exact Hneg. reflexivity.
      * rewrite Z.land_spec, Z.lnot_spec by exact Hpos.
        rewrite Z.pow2_bits_false by congruence. apply andb_true_r.
  - rewrite enabled_mask_latched.
    split; [reflexivity |]. split; [discriminate |]. reflexivity.
Qed.

Lemma disable_gated_on_supported_witness :
  (exists s',
     onDataWrittenHandler 104 [disable_command NEW; 0] simple_alert_enabled
     = Done tt s' /\
     gatt_server_writes s' = gatt_server_writes simple_alert_enabled /\
     (is_supported NEW 0 simple_alert_enabled = true ->
        enabled_mask NEW s'
        = Z.land (enabled_mask NEW simple_alert_enabled)
                 (Z.lnot (Z.shiftl 1 0)) /\
        Z.testbit (enabled_mask NEW s') 0 = false /\
        (forall i, i <> 0 ->
           Z.testbit (enabled_mask NEW s') i
           = Z.testbit (enabled_mask NEW simple_alert_enabled) i)) /\
     (is_supported NEW 0 simple_alert_enabled = false ->
        enabled_mask NEW s' = enabled_mask NEW simple_alert_enabled)) /\
  is_supported NEW 0 simple_alert_enabled = true /\
  is_enabled NEW 0 simple_alert_enabled = true.
Proof.
  split; [| split; reflexivity].
  apply disable_gated_on_supported.
  - reflexivity.
  - vm_compute. repeat split; congruence.
  - reflexivity.
  - lia.
Defined.

(** Scenario B: disabling new alerts for category 1, which the constructed
    service does not support, changes no enabled mask and writes nothing. *)
Example scenario_B :
  exists s',
    onDataWrittenHandler 104 [2; 1] simple_alert_enabled = Done tt s' /\
    is_supported NEW 1 simple_alert_enabled = false /\
    masks s' = masks simple_alert_enabled /\
    gatt_server_writes s' = gatt_server_writes simple_alert_enabled.
Proof.
  eexists. split; [vm_compute; reflexivity |].
  split; [| split]; reflexivity.
Qed.

(** *** Enabling *)

(** C4, as stated, fails: in the reachable state obtained by enabling
    category 0 and then removing it from the supported categories, it is
    not the case that after the enable command category 0 is enabled if and
    only if it was supported: it is not supported, and it is enabled. *)
Lemma enable_answers_supported_fails :
  exists s,
    enabled_then_desupported = Done tt s /\
    reachable s /\
    is_control_point s 104 /\
    is_supported NEW 0 s = false /\
    ~ (exists s',
         onDataWrittenHandler 104 [enable_command NEW; 0] s = Done tt s' /\
         (is_enabled NEW 0 s' = true <-> is_supported NEW 0 s = true)).
Proof.
  eexists. split; [reflexivity |].
  split; [apply enabled_then_desupported_reachable; reflexivity |].
  split; [reflexivity |]. split; [reflexivity |].
  intros (s' & Hrun & Hiff).
  vm_compute in Hrun. injection Hrun as <-.
  destruct Hiff as [Hiff _].
  assert (Hfalse : false = true) by (apply Hiff; vm_compute; reflexivity).
  discriminate Hfalse.
Qed.

(** C4 (amended) -- For a concrete category [c] and either axis, after the
    enable command (0 for new alerts, 1 for unread status) is written to the
    control point, [c] is enabled on the axis exactly when it was supported
    on the axis at the time of the command or was enabled already.  The
    handler records the command and the category in [_control_point] in
    every case.  When [c] is not supported, the four bitmasks, every
    counter, the connection flag and the button count are as before and
    nothing is written to the GATT server. *)
Theorem enable_gated_on_supported
  (s : ANS) (characteristic : Z) (a : axis) (c : Z) :
  array_ok s -> masks_ok s -> is_control_point s characteristic ->
  0 <= c < 10 ->
  exists s',
    onDataWrittenHandler characteristic [enable_command a; c] s = Done tt s' /\
    _control_point s' = mk_control_point (enable_command a) c /\
    (is_enabled a c s' = true <->
     is_supported a c s = true \/ is_enabled a c s = true) /\
    (is_supported a c s = false ->
       masks s' = masks s /\
       counts s' = counts s /\
       _connected s' = _connected s /\
       _button_press_count s' = _button_press_count s /\
       gatt_server_writes s' = gatt_server_writes s).
Proof.
  intros Hs Hm Hcp Hc.
  rewrite (handler_on_control_point s _ _ Hcp).
  rewrite (control_point_written_concrete s _ c Hs Hc).
  rewrite enable_switch, is_supported_latched, enabled_mask_latched.
  eexists. split; [reflexivity |].
  split; [destruct (is_supported a c s), a; reflexivity |].
  pose proof (enabled_mask_ok a s Hm) as He.
  destruct (is_supported a c s).
  - split; [| discriminate].
    rewrite (is_enabled_bit a c _ Hc), enabled_mask_set_enabled.
    rewrite (u16_lor _ _ He (mask_of_concrete_range c Hc)).
    rewrite (mask_of_concrete c Hc), Z.shiftl_1_l.
    rewrite Z.lor_spec, Z.pow2_bits_true by lia.
    rewrite orb_true_r. split; [left |]; reflexivity.
  - split.
    + replace (is_enabled a c (latched (enable_command a) c s))
        with (is_enabled a c s) by (destruct a; reflexivity).
      split; [right; assumption | intros [Hf | Hen]; [discriminate | exact Hen]].
    + intros _. rewrite counts_latched. repeat split.
Qed.

Lemma enable_gated_on_supported_witness :
  exists s',
    onDataWrittenHandler 104 [enable_command UNREAD; 0] connected_state
    = Done tt s' /\
    _control_point s' = mk_control_point (enable_command UNREAD) 0 /\
    (is_enabled UNREAD 0 s' = true <->
     is_supported UNREAD 0 connected_state = true \/
     is_enabled UNREAD 0 connected_state = true) /\
    (is_supported UNREAD 0 connected_state = false ->
       masks s' = masks connected_state /\
       counts s' = counts connected_state /\
       _connected s' = _connected connected_state /\
       _button_press_count s' = _button_press_count connected_state /\
       gatt_server_writes s' = gatt_server_writes connected_state).
Proof.
  apply enable_gated_on_supported.
  - reflexivity.
  - vm_compute. repeat split; congruence.
  - reflexivity.
  - lia.
Defined.

(** *** Local alert ingestion *)

(** C2, as stated, fails: in a reachable state with category 0 supported,
    enabled for unread status and not enabled for new alerts,
    [addNewAlertToCategory] counts the alert and returns without writing
    anything, so no unread-status notification is among its writes. *)
Lemma unread_push_independent_fails :
  reachable unread_only_enabled /\
  is_supported NEW 0 unread_only_enabled = true /\
  is_enabled NEW 0 unread_only_enabled = false /\
  is_enabled UNREAD 0 unread_only_enabled = true /\
  (exists s',
     addNewAlertToCategory 0 unread_only_enabled = Done false s' /\
     counts s' = [1; 0; 0; 0; 0; 0; 0; 0; 0; 0] /\
     new_writes unread_only_enabled s' = []) /\
  ~ (exists r s' n,
       addNewAlertToCategory 0 unread_only_enabled = Done r s' /\
       In (mk_gatt_write _unread_alert_status_index 1 n)
          (new_writes unread_only_enabled s')).
Proof.
  split; [exact unread_only_enabled_reachable |].
  split; [reflexivity |]. split; [reflexivity |]. split; [reflexivity |].
  split.
  - eexists. split; [vm_compute; reflexivity |]. split; reflexivity.
  - intros (r & s' & n & Hrun & Hin).
    vm_compute in Hrun. injection Hrun as <- <-.
    vm_compute in Hin. exact Hin.
Qed.

Lemma counts_store (l : list alert_status_t) (i : nat) (v : Z) :
  map as_count (alter (with_count v) i l) = <[i := v]> (map as_count l).
Proof.
  revert i. induction l as [| a l IH]; intros [| i]; simpl; try reflexivity.
  f_equal. apply IH.
Qed.

Lemma nth_insert_same (l : list Z) (i : nat) (v : Z) :
  (i < length l)%nat -> nth i (<[i := v]> l) 0 = v.
Proof.
  revert i. induction l as [| a l IH]; intros [| i] Hi; simpl in *;
    try lia.
  apply IH. lia.
Qed.

(** C2 (amended) -- For a concrete category [c] supported for new alerts,
    [addNewAlertToCategory] adds 1 to the counter of [c], modulo 256, and
    changes no other counter and no bitmask.  The new count is written to
    the new-alert characteristic exactly when [c] is enabled for new
    alerts, and to the unread-status characteristic exactly when [c] is
    enabled on both axes; the function returns [true] in that last case
    only. *)
Theorem raise_alert_gating (s : ANS) (c : Z) :
  array_ok s -> 0 <= c < 10 -> is_supported NEW c s = true ->
  exists r s',
    addNewAlertToCategory c s = Done r s' /\
    counts s'
    = <[Z.to_nat c := u8 (nth (Z.to_nat c) (counts s) 0 + 1)]> (counts s) /\
    masks s' = masks s /\
    gatt_server_writes s'
    = gatt_server_writes s ++
      (if is_enabled NEW c s then
         mk_gatt_write _new_alert_index 1
           (u8 (nth (Z.to_nat c) (counts s) 0 + 1))
         :: (if is_enabled UNREAD c s then
               [mk_gatt_write _unread_alert_status_index 1
                  (u8 (nth (Z.to_nat c) (counts s) 0 + 1))]
             else [])
       else []) /\
    r = is_enabled NEW c s && is_enabled UNREAD c s.
Proof.
  intros Hs Hc Hsup.
  set (n := u8 (nth (Z.to_nat c) (counts s) 0 + 1)).
  set (s1 := set_alert_status
               (alter (with_count n) (Z.to_nat c) (_alert_status s)) s).
  assert (Hs1 : array_ok s1).
  { unfold array_ok, s1. simpl. rewrite length_alter. exact Hs. }
  assert (Hcounts : counts s1 = <[Z.to_nat c := n]> (counts s)).
  { unfold counts, s1. simpl. apply counts_store. }
  assert (Hload : load_count c s1 = Done n s1).
  { rewrite (load_count_done s1 c Hs1 Hc), Hcounts.
    rewrite nth_insert_same; [reflexivity |].
    unfold counts. rewrite length_map, Hs. lia. }
  assert (Hlog : forall w, load_count c (log_write w s1)
                           = Done n (log_write w s1)).
  { intros w. rewrite (load_count_done (log_write w s1) c Hs1 Hc).
    change (counts (log_write w s1)) with (counts s1).
    rewrite Hcounts, nth_insert_same; [reflexivity |].
    unfold counts. rewrite length_map, Hs. lia. }
  unfold is_supported in Hsup. simpl in Hsup. rewrite Z.land_comm in Hsup.
  unfold addNewAlertToCategory.
  rewrite bind_mask_from_id by lia. rewrite bind_get, Hsup.
  change (negb true) with false. cbv iota.
  rewrite (bind_done _ _ _ _ _ (load_count_done s c Hs Hc)).
  rewrite (bind_done _ _ _ _ _ (store_count_done s c _ Hs Hc)).
  fold n. fold s1. rewrite bind_get.
  replace (truthy (Z.land (category_bits c)
                          (_enabled_new_alert_category s1)))
    with (is_enabled NEW c s)
    by (unfold is_enabled; simpl; rewrite Z.land_comm; reflexivity).
  destruct (is_enabled NEW c s);
    [change (negb true) with false | change (negb false) with true];
    cbv iota.
  - rewrite (bind_done _ _ _ _ _ Hload).
    unfold setCharacteristicValue. rewrite bind_modify, bind_get.
    replace (truthy (Z.land (category_bits c) _))
      with (is_enabled UNREAD c s)
      by (unfold is_enabled; simpl; rewrite Z.land_comm; reflexivity).
    destruct (is_enabled UNREAD c s);
      [change (negb true) with false | change (negb false) with true];
      cbv iota.
    + rewrite (bind_done _ _ _ _ _ (Hlog _)), bind_modify.
      eexists _, _. split; [reflexivity |].
      split; [exact Hcounts |]. split; [reflexivity |].
      split; [| reflexivity]. simpl. rewrite <- app_assoc. reflexivity.
    + eexists _, _. split; [reflexivity |].
      split; [exact Hcounts |]. repeat split.
  - eexists _, _. split; [reflexivity |].
    split; [exact Hcounts |]. split; [reflexivity |].
    split; [| reflexivity]. simpl. rewrite app_nil_r. reflexivity.
Qed.

(** Scenario D: category 0 supported and enabled for new alerts only. *)
Lemma raise_alert_gating_witness :
  exists r s',
    addNewAlertToCategory 0 simple_alert_enabled = Done r s' /\
    counts s' = [1; 0; 0; 0; 0; 0; 0; 0; 0; 0] /\
    masks s' = masks simple_alert_enabled /\
    gatt_server_writes s'
    = gatt_server_writes simple_alert_enabled
      ++ [mk_gatt_write _new_alert_index 1 1] /\
    r = false.
Proof.
  apply (raise_alert_gating simple_alert_enabled 0).
  - reflexivity.
  - lia.
  - reflexivity.
Defined.

(** *** Category bytes beyond the array *)

(** C3 -- The handler does not keep its accesses to [_alert_status] within
    [0, 10): for every two-byte buffer written to the control point whose
    category byte is 10 or more (0xFF included), whatever the command, the
    assignment [_alert_status[category].fields.category = category] is made
    at index [category], outside the array. *)
Theorem category_write_out_of_bounds
  (s : ANS) (characteristic command category : Z) :
  is_control_point s characteristic -> 10 <= category ->
  onDataWrittenHandler characteristic [command; category] s
  = Fault (OutOfBounds category).
Proof.
  intros Hcp Hc. rewrite (handler_on_control_point s _ _ Hcp).
  unfold control_point_written.
  change (nth 1 [command; category] 0) with category.
  change (Z.of_nat (length [command; category])) with 2.
  cbv iota beta zeta delta [Z.ltb Z.gtb Z.eqb Z.compare Pos.compare
                            Pos.compare_cont Pos.eqb orb].
  apply bind_fault. apply store_category_fault. exact Hc.
Qed.

Lemma category_write_out_of_bounds_witness :
  onDataWrittenHandler 104 [ANS_ENABLE_NEW_INCOMING_ALERT_NOTIFICATION;
                            ANS_TYPE_ALL_ALERTS] connected_state
  = Fault (OutOfBounds 255) /\
  onDataWrittenHandler 104 [ANS_NOTIFY_UNREAD_CATEGORY_STATUS_IMMEDIATELY; 10]
    connected_state
  = Fault (OutOfBounds 10).
Proof.
  split; apply category_write_out_of_bounds; solve [reflexivity | lia].
Defined.

(** *** Notifying every enabled category *)

(** Whatever the state, every write of the loop for the ALL sentinel
    carries [_button_press_count] on four bytes. *)
Lemma notify_all_new_writes (s : ANS) :
  exists s',
    notify_all_new s = Done tt s' /\
    Forall (fun w => w = mk_gatt_write _new_alert_index 4 (_button_press_count s))
           (new_writes s s') /\
    counts s' = counts s /\ masks s' = masks s.
Proof.
  unfold notify_all_new.
  assert (Hloop : forall (xs : list Z) (s0 : ANS),
    exists s',
      for_each xs (fun i =>
        s1 <- get ;;
        if truthy (Z.land (_enabled_new_alert_category s1) (u16 (Z.shiftl 1 i)))
        then setCharacteristicValue _new_alert_index 4 (_button_press_count s1)
        else ret tt) s0 = Done tt s' /\
      (exists ws,
         gatt_server_writes s' = gatt_server_writes s0 ++ ws /\
         Forall (fun w => w = mk_gatt_write _new_alert_index 4
                                (_button_press_count s0)) ws) /\
      _button_press_count s' = _button_press_count s0 /\
      counts s' = counts s0 /\ masks s' = masks s0).
  { induction xs as [| x xs IH]; intros s0.
    - exists s0. split; [reflexivity |]. split; [| repeat split].
      exists []. rewrite app_nil_r. split; [reflexivity | constructor].
    - simpl for_each. unfold bind at 1. rewrite bind_get.
      destruct (truthy _).
      + unfold setCharacteristicValue, modify. cbv iota.
        destruct (IH (log_write
                        (mk_gatt_write _new_alert_index 4
                           (_button_press_count s0)) s0))
          as (s' & Hrun & (ws & Hws & Hall) & Hb & Hc & Hm).
        exists s'. split; [exact Hrun |]. split; [| repeat split; assumption].
        eexists (_ :: ws). split.
        * rewrite Hws. simpl. rewrite <- app_assoc. reflexivity.
        * constructor; [reflexivity | exact Hall].
      + unfold ret. cbv iota. apply IH. }
  destruct (Hloop (range 11) s) as (s' & Hrun & (ws & Hws & Hall) & _ & Hc & Hm).
  exists s'. split; [exact Hrun |]. split; [| split; assumption].
  unfold new_writes. rewrite Hws, drop_app_length. exact Hall.
Qed.

(** C1 -- At Scenario A (new alerts enabled for categories 0 and 2, counters
    3 and 5) the buffer [4, 0xFF] does not produce the two notifications
    (0, 3) and (2, 5): the handler first assigns
    [_alert_status[0xFF].fields.category], outside the array; and the
    [switch] on its own, run on the same state, writes the button count,
    here 1, on four bytes for each enabled category instead of the
    counters 3 and 5 on one byte each. *)
Theorem notify_all_new_scenario_A :
  reachable scenario_A /\
  _enabled_new_alert_category scenario_A = 5 /\
  counts scenario_A = [3; 0; 5; 0; 0; 0; 0; 0; 0; 0] /\
  _button_press_count scenario_A = 1 /\
  is_control_point scenario_A 104 /\
  onDataWrittenHandler 104 [ANS_NOTIFY_NEW_INCOMING_ALERT_IMMEDIATELY;
                            ANS_TYPE_ALL_ALERTS] scenario_A
  = Fault (OutOfBounds 255) /\
  exists mask s',
    getCategoryMaskFromId ANS_TYPE_ALL_ALERTS = Some mask /\
    command_switch ANS_NOTIFY_NEW_INCOMING_ALERT_IMMEDIATELY ANS_TYPE_ALL_ALERTS
      mask scenario_A = Done tt s' /\
    new_writes scenario_A s'
    = [mk_gatt_write _new_alert_index 4 1; mk_gatt_write _new_alert_index 4 1].
Proof.
  split; [exact scenario_A_reachable |].
  do 4 (split; [reflexivity |]).
  split; [vm_compute; reflexivity |].
  eexists _, _. split; [reflexivity |]. split; vm_compute; reflexivity.
Qed.

(** ** Further properties of the service *)

(** *** The conversions *)

Lemma scan_bit (mask ii : Z) :
  0 <= ii ->
  negb (Z.land mask (Z.shiftl 1 ii) =? 0) = Z.testbit mask ii.
Proof. intros H. exact (truthy_single_bit mask ii H). Qed.

(** Closes the side conditions of a leaf of the scan: the bound on the
    position, the bit found there, and the clear bits below it. *)
Ltac low_bits :=
  first
    [ lia
    | assumption
    | let j := fresh "j" in
      let Hj := fresh "Hj" in
      let Hj10 := fresh "Hj10" in
      intros j Hj; assert (Hj10 : 0 <= j < 10) by lia;
      each_category j Hj10; solve [assumption | lia] ].

(** X1 -- [getCategoryIdFromMask] returns the position of the lowest bit set
    among bits 0 to 9 of the mask, and 0 when none of them is set: the
    answer 0 does not tell an empty mask from the mask of category 0. *)
Theorem getCategoryIdFromMask_lowest_bit (mask : Z) :
  0 <= getCategoryIdFromMask mask < 10 /\
  (forall c, 0 <= c < 10 -> Z.testbit mask c = true ->
     Z.testbit mask (getCategoryIdFromMask mask) = true /\
     getCategoryIdFromMask mask <= c) /\
  ((forall c, 0 <= c < 10 -> Z.testbit mask c = false) ->
   getCategoryIdFromMask mask = 0).
Proof.
  unfold getCategoryIdFromMask.
  change (range 10) with [0; 1; 2; 3; 4; 5; 6; 7; 8; 9]. unfold scan_mask.
  rewrite !scan_bit by lia.
  assert (Hleaf : forall k,
            0 <= k < 10 -> Z.testbit mask k = true ->
            (forall j, 0 <= j < k -> Z.testbit mask j = false) ->
            0 <= k < 10 /\
            (forall c, 0 <= c < 10 -> Z.testbit mask c = true ->
               Z.testbit mask k = true /\ k <= c) /\
            ((forall c, 0 <= c < 10 -> Z.testbit mask c = false) -> k = 0)).
  { intros k Hk Hbit Hlow. split; [exact Hk |]. split.
    - intros c Hc Hc'. split; [exact Hbit |].
      destruct (Z.le_gt_cases k c) as [Hle | Hgt]; [exact Hle |].
      rewrite Hlow in Hc' by lia. discriminate.
    - intros Hnone. rewrite Hnone in Hbit by exact Hk. discriminate. }
  destruct (Z.testbit mask 0) eqn:B0; cbv iota; [apply Hleaf; low_bits |].
  destruct (Z.testbit mask 1) eqn:B1; cbv iota; [apply Hleaf; low_bits |].
  destruct (Z.testbit mask 2) eqn:B2; cbv iota; [apply Hleaf; low_bits |].
  destruct (Z.testbit mask 3) eqn:B3; cbv iota; [apply Hleaf; low_bits |].
  destruct (Z.testbit mask 4) eqn:B4; cbv iota; [apply Hleaf; low_bits |].
  destruct (Z.testbit mask 5) eqn:B5; cbv iota; [apply Hleaf; low_bits |].
  destruct (Z.testbit mask 6) eqn:B6; cbv iota; [apply Hleaf; low_bits |].
  destruct (Z.testbit mask 7) eqn:B7; cbv iota; [apply Hleaf; low_bits |].
  destruct (Z.testbit mask 8) eqn:B8; cbv iota; [apply Hleaf; low_bits |].
  destruct (Z.testbit mask 9) eqn:B9; cbv iota; [apply Hleaf; low_bits |].
  split; [lia |]. split; [| reflexivity].
  intros c Hc Hbit. each_category c Hc; congruence.
Qed.

Lemma getCategoryIdFromMask_lowest_bit_witness :
  Z.testbit 40 (getCategoryIdFromMask 40) = true /\
  getCategoryIdFromMask 40 <= 5.
Proof.
  apply (proj1 (proj2 (getCategoryIdFromMask_lowest_bit 40)) 5);
    [lia | reflexivity].
Defined.

(** *** Clearing counters *)

Lemma clear_concrete (c : Z) :
  0 <= c < 10 -> clearAlertsOfCategory c = store_count c 0.
Proof. intros Hc. each_category c Hc; reflexivity. Qed.

Lemma clear_other (c : Z) :
  ~ 0 <= c < 10 -> c <> 255 -> clearAlertsOfCategory c = ret tt.
Proof.
  intros Hout Hall. unfold clearAlertsOfCategory.
  destruct c as [| p | p]; [exfalso; lia | | reflexivity].
  do 8 (try (destruct p as [p | p |]; try reflexivity; try (exfalso; lia))).
Qed.

Lemma in_bounds_spec (i : Z) : in_bounds i = true <-> 0 <= i < 10.
Proof. unfold in_bounds. lia. Qed.

(** X2 -- [clearAlertsOfCategory] returns for every argument and never
    leaves the array: a concrete category has its own counter set to 0,
    the ALL sentinel sets the ten counters to 0, and any other value
    (10 to 254) changes nothing.  Bitmasks, connection flag and GATT
    writes are never affected. *)
Theorem clearAlertsOfCategory_effect (s : ANS) (category : Z) :
  array_ok s ->
  exists s',
    clearAlertsOfCategory category s = Done tt s' /\
    counts s'
    = (if category =? 255 then replicate 10 0
       else if in_bounds category
            then <[Z.to_nat category := 0]> (counts s)
            else counts s) /\
    masks s' = masks s /\
    gatt_server_writes s' = gatt_server_writes s /\
    _connected s' = _connected s.
Proof.
  intros Hs.
  destruct (Z.eqb_spec category 255) as [-> | Hne].
  - change (clearAlertsOfCategory 255) with clear_all_counts.
    rewrite (clear_all_counts_done s Hs).
    eexists. split; [reflexivity |]. split; [| repeat split].
    unfold counts. simpl. rewrite counts_all_cleared, Hs. reflexivity.
  - destruct (in_bounds category) eqn:Hin.
    + apply in_bounds_spec in Hin.
      rewrite (clear_concrete category Hin), (store_count_done s _ _ Hs Hin).
      eexists. split; [reflexivity |]. split; [| repeat split].
      unfold counts. simpl. apply counts_store.
    + rewrite clear_other; [| | exact Hne].
      * eexists. split; [reflexivity |]. repeat split.
      * intros Hc. apply in_bounds_spec in Hc. congruence.
Qed.

Lemma clearAlertsOfCategory_effect_witness :
  exists s',
    clearAlertsOfCategory 2 with_pending_alerts = Done tt s' /\
    counts s' = [3; 0; 0; 0; 0; 0; 0; 0; 0; 255] /\
    masks s' = masks with_pending_alerts /\
    gatt_server_writes s' = gatt_server_writes with_pending_alerts /\
    _connected s' = _connected with_pending_alerts.
Proof.
  apply (clearAlertsOfCategory_effect with_pending_alerts 2). reflexivity.
Defined.

(** *** Configuring the supported categories *)

Lemma clear_supported_loop (mask : Z) (iis : list Z) (s : ANS) :
  array_ok s -> Forall (fun ii => 0 <= ii < 10) iis ->
  for_each iis (fun ii =>
    if negb (Z.land mask (Z.shiftl 1 ii) =? 0)
    then clearAlertsOfCategory ii
    else ret tt) s
  = Done tt (set_alert_status (cleared_where mask iis (_alert_status s)) s).
Proof.
  intros Hs Hall. revert s Hs.
  induction Hall as [| ii iis Hii _ IH]; intros s Hs.
  - destruct s; reflexivity.
  - simpl for_each. rewrite scan_bit by lia.
    simpl cleared_where.
    destruct (Z.testbit mask ii).
    + rewrite (clear_concrete ii Hii).
      rewrite (bind_done _ _ _ _ _ (store_count_done s ii 0 Hs Hii)).
      rewrite IH; [reflexivity |].
      unfold array_ok. simpl. rewrite length_alter. exact Hs.
    + unfold bind, ret. apply IH. exact Hs.
Qed.

Lemma range_10_in_bounds : Forall (fun ii => 0 <= ii < 10) (range 10).
Proof. repeat constructor; simpl; lia. Qed.

Lemma clear_supported_done (mask : Z) (s : ANS) :
  array_ok s ->
  clear_supported mask s
  = Done tt (set_alert_status
               (cleared_where mask (range 10) (_alert_status s)) s).
Proof.
  intros Hs. apply clear_supported_loop; [exact Hs | exact range_10_in_bounds].
Qed.

Lemma cleared_where_length (mask : Z) (iis : list Z) (l : list alert_status_t) :
  length (cleared_where mask iis l) = length l.
Proof.
  revert l. induction iis as [| ii iis IH]; intros l; [reflexivity |].
  simpl. rewrite IH.
  destruct (Z.testbit mask ii); [apply length_alter | reflexivity].
Qed.

Lemma nth_alter_count (l : list alert_status_t) (i j : nat) (v : Z) :
  (j < length l)%nat ->
  nth i (map as_count (alter (with_count v) j l)) 0
  = if Nat.eqb i j then v else nth i (map as_count l) 0.
Proof.
  revert i j. induction l as [| a l IH]; intros i j Hj; simpl in Hj; [lia |].
  destruct j as [| j], i as [| i]; simpl; try reflexivity.
  apply IH. lia.
Qed.

Lemma cleared_where_counts (mask : Z) (iis : list Z) (l : list alert_status_t)
  (i : Z) :
  Forall (fun ii => 0 <= ii < Z.of_nat (length l)) iis -> 0 <= i ->
  nth (Z.to_nat i) (map as_count (cleared_where mask iis l)) 0
  = if existsb (fun ii => Z.testbit mask ii && (ii =? i)) iis then 0
    else nth (Z.to_nat i) (map as_count l) 0.
Proof.
  intros Hall Hi. revert l Hall.
  induction iis as [| ii iis IH]; intros l Hall; [reflexivity |].
  inversion Hall as [| ? ? Hii Hrest]; subst.
  simpl cleared_where. simpl existsb.
  destruct (Z.testbit mask ii); simpl andb.
  - rewrite IH by (rewrite length_alter; exact Hrest).
    rewrite nth_alter_count by lia.
    destruct (Z.eqb_spec ii i) as [-> | Hne].
    + rewrite Nat.eqb_refl. simpl. destruct (existsb _ iis); reflexivity.
    + destruct (Nat.eqb_spec (Z.to_nat i) (Z.to_nat ii)) as [He | _];
        [exfalso; lia | reflexivity].
  - apply IH. exact Hrest.
Qed.

Lemma range_10_bit (mask i : Z) :
  0 <= i < 10 ->
  existsb (fun ii => Z.testbit mask ii && (ii =? i)) (range 10)
  = Z.testbit mask i.
Proof.
  intros Hi. change (range 10) with [0; 1; 2; 3; 4; 5; 6; 7; 8; 9].
  each_category i Hi; simpl;
    rewrite ?andb_false_r, ?andb_true_r, ?orb_false_r; reflexivity.
Qed.

Lemma supported_mask_set_supported (a : axis) (m : Z) (s : ANS) :
  supported_mask a (set_supported a m s) = m.
Proof. destruct a; reflexivity. Qed.

(** The exact result of setting the supported categories while no peer is
    connected. *)
Lemma setSupported_done (a : axis) (mask : Z) (s : ANS) :
  array_ok s -> _connected s = false ->
  setSupported a mask s
  = Done true
      (log_write (mk_gatt_write (supported_index a) 2 mask)
         (set_alert_status (cleared_where mask (range 10) (_alert_status s))
            (set_supported a mask s))).
Proof.
  intros Hs Hc.
  destruct a; unfold setSupported, setSupportedNewAlertsCategory,
    setSupportedUnreadAlertsCategory;
    rewrite bind_get, Hc, bind_modify.
  - rewrite (bind_done _ _ _ _ _
               (clear_supported_done mask (set_supported_new mask s) Hs)).
    reflexivity.
  - rewrite (bind_done _ _ _ _ _
               (clear_supported_done mask (set_supported_unread mask s) Hs)).
    reflexivity.
Qed.

(** X3 -- While no peer is connected, [setSupportedNewAlertsCategory] and
    [setSupportedUnreadAlertsCategory] return [true], replace the supported
    mask of their axis by the argument, set to 0 the counter of every
    category whose bit is set in the argument and keep the other counters,
    leave the other three masks as they were, and write the new mask on
    two bytes to the axis' "supported categories" characteristic. *)
Theorem setSupported_effect (a : axis) (mask : Z) (s : ANS) :
  array_ok s -> _connected s = false ->
  exists s',
    setSupported a mask s = Done true s' /\
    supported_mask a s' = mask /\
    supported_mask (other_axis a) s' = supported_mask (other_axis a) s /\
    (forall b, enabled_mask b s' = enabled_mask b s) /\
    (forall i, 0 <= i < 10 ->
       nth (Z.to_nat i) (counts s') 0
       = if Z.testbit mask i then 0 else nth (Z.to_nat i) (counts s) 0) /\
    new_writes s s' = [mk_gatt_write (supported_index a) 2 mask] /\
    _connected s' = false.
Proof.
  intros Hs Hc. rewrite (setSupported_done a mask s Hs Hc).
  eexists. split; [reflexivity |].
  split; [destruct a; reflexivity |].
  split; [destruct a; reflexivity |].
  split; [intros b; destruct a, b; reflexivity |].
  split; [| split].
  - intros i Hi. unfold counts.
    change (_alert_status (log_write _ _))
      with (cleared_where mask (range 10) (_alert_status s)).
    rewrite cleared_where_counts, range_10_bit by
      (first [exact Hi | lia | rewrite Hs; exact range_10_in_bounds]).
    reflexivity.
  - unfold new_writes.
    change (gatt_server_writes (log_write ?w ?x))
      with (gatt_server_writes x ++ [w]).
    replace (gatt_server_writes (set_alert_status _ _))
      with (gatt_server_writes s) by (destruct a; reflexivity).
    apply drop_app_length.
  - destruct a; exact Hc.
Qed.

Lemma setSupported_effect_witness :
  exists s',
    setSupported NEW 5 constructed = Done true s' /\
    supported_mask NEW s' = 5 /\
    supported_mask UNREAD s' = supported_mask UNREAD constructed /\
    (forall b, enabled_mask b s' = enabled_mask b constructed) /\
    (forall i, 0 <= i < 10 ->
       nth (Z.to_nat i) (counts s') 0
       = if Z.testbit 5 i then 0 else nth (Z.to_nat i) (counts constructed) 0) /\
    new_writes constructed s' = [mk_gatt_write 0 2 5] /\
    _connected s' = false.
Proof.
  apply (setSupported_effect NEW 5 constructed); reflexivity.
Defined.

Lemma clearAlertsOfCategory_done (s : ANS) (category : Z) :
  array_ok s ->
  clearAlertsOfCategory category s
  = Done tt (set_alert_status (clear_category category (_alert_status s)) s).
Proof.
  intros Hs. unfold clear_category.
  destruct (Z.eqb_spec category 255) as [-> | Hne].
  - exact (clear_all_counts_done s Hs).
  - destruct (in_bounds category) eqn:Hin.
    + apply in_bounds_spec in Hin.
      rewrite (clear_concrete category Hin).
      exact (store_count_done s _ _ Hs Hin).
    + rewrite clear_other; [destruct s; reflexivity | | exact Hne].
      intros Hc. apply in_bounds_spec in Hc. congruence.
Qed.

Lemma clear_category_length (category : Z) (l : list alert_status_t) :
  length (clear_category category l) = length l.
Proof.
  unfold clear_category. destruct (category =? 255); [apply length_map |].
  destruct (in_bounds category); [apply length_alter | reflexivity].
Qed.

Lemma clear_category_counts (category : Z) (l : list alert_status_t) :
  map as_count (clear_category category l)
  = (if category =? 255 then replicate (length l) 0
     else if in_bounds category
          then <[Z.to_nat category := 0]> (map as_count l)
          else map as_count l).
Proof.
  unfold clear_category. destruct (category =? 255).
  - apply counts_all_cleared.
  - destruct (in_bounds category); [apply counts_store | reflexivity].
Qed.

Lemma mask_range (category : Z) : 0 <= category_bits category < 2 ^ 16.
Proof.
  rewrite category_bits_eq. destruct (negb _); [apply u16_range | lia].
Qed.

Lemma supported_mask_ok (a : axis) (s : ANS) :
  masks_ok s -> 0 <= supported_mask a s < 2 ^ 16.
Proof. intros (Hn & Hu & _ & _). destruct a; assumption. Qed.

Lemma bind_clearAlertsOfCategory {B} (category : Z) (k : unit -> M B) (s : ANS) :
  array_ok s ->
  bind (clearAlertsOfCategory category) k s
  = k tt (set_alert_status (clear_category category (_alert_status s)) s).
Proof.
  intros Hs. apply bind_done. exact (clearAlertsOfCategory_done s category Hs).
Qed.

(** The exact results of adding and of removing a supported category while
    no peer is connected. *)
Lemma addSupported_done (a : axis) (category : Z) (s : ANS) :
  array_ok s -> _connected s = false ->
  0 <= category < 32 \/ category = ANS_TYPE_ALL_ALERTS ->
  addSupported a category s
  = Done true
      (let m := u16 (Z.lor (supported_mask a s)
                           (category_bits category)) in
       log_write (mk_gatt_write (supported_index a) 2 m)
         (set_alert_status (clear_category category (_alert_status s))
            (set_supported a m s))).
Proof.
  intros Hs Hc Hd.
  destruct a; unfold addSupported, addSupportedNewAlertsCategory,
    addSupportedUnreadAlertsCategory, setCharacteristicValue;
    rewrite bind_get, Hc; cbv zeta;
    rewrite bind_mask_from_id by exact Hd; rewrite bind_modify.
  - rewrite bind_get, bind_modify, bind_clearAlertsOfCategory by exact Hs.
    reflexivity.
  - rewrite bind_clearAlertsOfCategory by exact Hs. reflexivity.
Qed.

Lemma removeSupported_done (a : axis) (category : Z) (s : ANS) :
  array_ok s -> _connected s = false ->
  0 <= category < 32 \/ category = ANS_TYPE_ALL_ALERTS ->
  removeSupported a category s
  = Done true
      (let m := u16 (Z.land (supported_mask a s)
                            (Z.lnot (category_bits category))) in
       log_write (mk_gatt_write (supported_index a) 2 m)
         (set_alert_status (clear_category category (_alert_status s))
            (set_supported a m s))).
Proof.
  intros Hs Hc Hd.
  destruct a; unfold removeSupported, removeSupportedNewAlertsCategory,
    removeSupportedUnreadAlertsCategory, setCharacteristicValue;
    rewrite bind_get, Hc; cbv zeta; rewrite bind_mask_from_id by exact Hd;
    rewrite bind_modify, bind_get, bind_modify;
    rewrite bind_clearAlertsOfCategory by exact Hs;
    reflexivity.
Qed.

(** Where the shift is not defined, adding or removing the category is
    undefined as soon as no peer is connected. *)
Lemma add_remove_undefined (a : axis) (category : Z) (s : ANS) :
  _connected s = false -> getCategoryMaskFromId category = None ->
  addSupported a category s = Fault (UndefinedShift category) /\
  removeSupported a category s = Fault (UndefinedShift category).
Proof.
  intros Hc Hnone.
  split; destruct a;
    unfold addSupported, addSupportedNewAlertsCategory,
      addSupportedUnreadAlertsCategory, removeSupported,
      removeSupportedNewAlertsCategory, removeSupportedUnreadAlertsCategory;
    rewrite bind_get, Hc; cbv iota;
    apply bind_mask_from_id_undefined; exact Hnone.
Qed.

Lemma all_mask_bit (c : Z) : 0 <= c < 10 -> Z.testbit 1023 c = true.
Proof. intros Hc. each_category c Hc; reflexivity. Qed.

(** X4 -- While no peer is connected and for a category whose mask
    [getCategoryMaskFromId] defines (0 to 31, or ALL),
    [addSupportedNewAlertsCategory] and [addSupportedUnreadAlertsCategory]
    return [true], OR that mask into the supported mask of their axis,
    clear the counter of the category (every counter for the ALL
    sentinel), leave the other three masks as they were and write the new
    supported mask on two bytes.  Afterwards a concrete category is
    supported, and after ALL every concrete category is.  For a category
    from 32 to 254 the call shifts by more than the width of [int]. *)
Theorem addSupported_effect (a : axis) (category : Z) (s : ANS) :
  array_ok s -> masks_ok s -> _connected s = false ->
  (forall mask,
  getCategoryMaskFromId category = Some mask ->
  exists s',
    addSupported a category s = Done true s' /\
    supported_mask a s'
    = Z.lor (supported_mask a s) mask /\
    supported_mask (other_axis a) s' = supported_mask (other_axis a) s /\
    (forall b, enabled_mask b s' = enabled_mask b s) /\
    counts s'
    = (if category =? 255 then replicate 10 0
       else if in_bounds category
            then <[Z.to_nat category := 0]> (counts s)
            else counts s) /\
    new_writes s s'
    = [mk_gatt_write (supported_index a) 2 (supported_mask a s')] /\
    (0 <= category < 10 -> is_supported a category s' = true) /\
    (category = 255 -> forall c, 0 <= c < 10 -> is_supported a c s' = true))
  /\
  (getCategoryMaskFromId category = None ->
   addSupported a category s = Fault (UndefinedShift category)).
Proof.
  intros Hs Hm Hc.
  split; [| intros Hnone; exact (proj1 (add_remove_undefined a category s Hc Hnone))].
  intros mask Hmask.
  destruct (getCategoryMaskFromId_some category mask Hmask) as [Hd Hbits].
  subst mask.
  rewrite (addSupported_done a category s Hs Hc Hd). cbv zeta.
  rewrite (u16_lor _ _ (supported_mask_ok a s Hm) (mask_range category)).
  set (m := Z.lor (supported_mask a s) (category_bits category)).
  eexists. split; [reflexivity |].
  assert (Hsup : supported_mask a
                   (log_write (mk_gatt_write (supported_index a) 2 m)
                      (set_alert_status
                         (clear_category category (_alert_status s))
                         (set_supported a m s))) = m)
    by (destruct a; reflexivity).
  rewrite Hsup.
  split; [reflexivity |].
  split; [destruct a; reflexivity |].
  split; [intros b; destruct a, b; reflexivity |].
  split; [| split; [| split]].
  - unfold counts.
    change (_alert_status (log_write _ _))
      with (clear_category category (_alert_status s)).
    rewrite clear_category_counts, Hs. reflexivity.
  - unfold new_writes.
    change (gatt_server_writes (log_write ?w ?x))
      with (gatt_server_writes x ++ [w]).
    replace (gatt_server_writes (set_alert_status _ _))
      with (gatt_server_writes s) by (destruct a; reflexivity).
    apply drop_app_length.
  - intros Hcat. rewrite (is_supported_bit a category _ Hcat), Hsup.
    unfold m. rewrite (mask_of_concrete category Hcat), Z.shiftl_1_l.
    rewrite Z.lor_spec, Z.pow2_bits_true by lia. apply orb_true_r.
  - intros -> c Hcat. rewrite (is_supported_bit a c _ Hcat), Hsup.
    unfold m. change (category_bits 255) with 1023.
    rewrite Z.lor_spec, (all_mask_bit c Hcat). apply orb_true_r.
Qed.

Lemma addSupported_effect_witness :
  exists s',
    addSupported NEW 255 constructed = Done true s' /\
    supported_mask NEW s' = 1023 /\
    supported_mask UNREAD s' = 1 /\
    (forall b, enabled_mask b s' = enabled_mask b constructed) /\
    counts s' = replicate 10 0 /\
    new_writes constructed s' = [mk_gatt_write 0 2 (supported_mask NEW s')] /\
    (0 <= 255 < 10 -> is_supported NEW 255 s' = true) /\
    (255 = 255 -> forall c, 0 <= c < 10 -> is_supported NEW c s' = true).
Proof.
  apply (proj1 (addSupported_effect NEW 255 constructed
                  ltac:(reflexivity)
                  ltac:(vm_compute; repeat split; congruence)
                  ltac:(reflexivity)) 1023).
  reflexivity.
Defined.

(** X5 -- While no peer is connected and for a category whose mask
    [getCategoryMaskFromId] defines (0 to 31, or ALL),
    [removeSupportedNewAlertsCategory] and
    [removeSupportedUnreadAlertsCategory] return [true], clear the bits of
    that mask from the supported mask of their axis, clear the counter of
    the category (every counter for ALL) and write the new supported mask
    on two bytes.  They never touch an enabled mask: a category that was
    enabled stays enabled after it is no longer supported.  For a category
    from 32 to 254 the call shifts by more than the width of [int]. *)
Theorem removeSupported_effect (a : axis) (category : Z) (s : ANS) :
  array_ok s -> masks_ok s -> _connected s = false ->
  (forall mask,
  getCategoryMaskFromId category = Some mask ->
  exists s',
    removeSupported a category s = Done true s' /\
    supported_mask a s'
    = Z.land (supported_mask a s) (Z.lnot mask) /\
    supported_mask (other_axis a) s' = supported_mask (other_axis a) s /\
    (forall b c, is_enabled b c s' = is_enabled b c s) /\
    counts s'
    = (if category =? 255 then replicate 10 0
       else if in_bounds category
            then <[Z.to_nat category := 0]> (counts s)
            else counts s) /\
    new_writes s s'
    = [mk_gatt_write (supported_index a) 2 (supported_mask a s')] /\
    (0 <= category < 10 -> is_supported a category s' = false) /\
    (category = 255 -> forall c, 0 <= c < 10 -> is_supported a c s' = false))
  /\
  (getCategoryMaskFromId category = None ->
   removeSupported a category s = Fault (UndefinedShift category)).
Proof.
  intros Hs Hm Hc.
  split; [| intros Hnone; exact (proj2 (add_remove_undefined a category s Hc Hnone))].
  intros mask Hmask.
  destruct (getCategoryMaskFromId_some category mask Hmask) as [Hd Hbits].
  subst mask.
  rewrite (removeSupported_done a category s Hs Hc Hd). cbv zeta.
  rewrite (u16_land_l _ _ (supported_mask_ok a s Hm)).
  set (m := Z.land (supported_mask a s)
                   (Z.lnot (category_bits category))).
  eexists. split; [reflexivity |].
  assert (Hsup : supported_mask a
                   (log_write (mk_gatt_write (supported_index a) 2 m)
                      (set_alert_status
                         (clear_category category (_alert_status s))
                         (set_supported a m s))) = m)
    by (destruct a; reflexivity).
  rewrite Hsup.
  split; [reflexivity |].
  split; [destruct a; reflexivity |].
  split; [intros b c; destruct a, b; reflexivity |].
  split; [| split; [| split]].
  - unfold counts.
    change (_alert_status (log_write _ _))
      with (clear_category category (_alert_status s)).
    rewrite clear_category_counts, Hs. reflexivity.
  - unfold new_writes.
    change (gatt_server_writes (log_write ?w ?x))
      with (gatt_server_writes x ++ [w]).
    replace (gatt_server_writes (set_alert_status _ _))
      with (gatt_server_writes s) by (destruct a; reflexivity).
    apply drop_app_length.
  - intros Hcat. rewrite (is_supported_bit a category _ Hcat), Hsup.
    unfold m. rewrite (mask_of_concrete category Hcat), Z.shiftl_1_l.
    rewrite Z.land_spec, Z.lnot_spec, Z.pow2_bits_true by lia.
    apply andb_false_r.
  - intros -> c Hcat. rewrite (is_supported_bit a c _ Hcat), Hsup.
    unfold m. change (category_bits 255) with 1023.
    rewrite Z.land_spec, Z.lnot_spec, (all_mask_bit c Hcat) by lia.
    apply andb_false_r.
Qed.

Lemma removeSupported_effect_witness :
  exists s',
    removeSupported NEW 0 (set_connected false simple_alert_enabled)
    = Done true s' /\
    supported_mask NEW s' = 0 /\
    supported_mask UNREAD s' = 1 /\
    (forall b c,
       is_enabled b c s'
       = is_enabled b c (set_connected false simple_alert_enabled)) /\
    counts s' = replicate 10 0 /\
    new_writes (set_connected false simple_alert_enabled) s'
    = [mk_gatt_write 0 2 (supported_mask NEW s')] /\
    (0 <= 0 < 10 -> is_supported NEW 0 s' = false) /\
    (0 = 255 -> forall c, 0 <= c < 10 -> is_supported NEW c s' = false).
Proof.
  apply (proj1 (removeSupported_effect NEW 0
                  (set_connected false simple_alert_enabled)
                  ltac:(reflexivity)
                  ltac:(vm_compute; repeat split; congruence)
                  ltac:(reflexivity)) 1).
  reflexivity.
Defined.

Lemma land_lor_lnot (x m : Z) :
  Z.land (Z.lor x m) (Z.lnot m) = Z.land x (Z.lnot m).
Proof.
  apply Z.bits_inj'. intros n Hn.
  rewrite !Z.land_spec, Z.lor_spec, Z.lnot_spec by exact Hn.
  destruct (Z.testbit x n), (Z.testbit m n); reflexivity.
Qed.

Lemma land_lnot_disjoint (x m : Z) :
  Z.land x m = 0 -> Z.land x (Z.lnot m) = x.
Proof.
  intros H. apply Z.bits_inj'. intros n Hn.
  assert (Hb : Z.testbit (Z.land x m) n = false)
    by (rewrite H; apply Z.bits_0).
  rewrite Z.land_spec in Hb.
  rewrite Z.land_spec, Z.lnot_spec by exact Hn.
  destruct (Z.testbit x n), (Z.testbit m n); try reflexivity; discriminate.
Qed.

Lemma truthy_false (x : Z) : truthy x = false -> x = 0.
Proof.
  unfold truthy. intros H. apply negb_false_iff in H.
  apply Z.eqb_eq. exact H.
Qed.

(** X6 -- Adding a category to the supported categories of an axis and then
    removing it, while no peer is connected and for a category whose mask
    [getCategoryMaskFromId] defines (0 to 31, or ALL), leaves exactly the
    supported bits that were there before outside that mask; when the
    category was not supported before, the supported mask is back to what
    it was.  Both calls return [true] and each writes the supported mask
    once. *)
Theorem add_then_remove_supported (a : axis) (category mask : Z) (s : ANS) :
  array_ok s -> masks_ok s -> _connected s = false ->
  getCategoryMaskFromId category = Some mask ->
  exists s1 s2,
    addSupported a category s = Done true s1 /\
    removeSupported a category s1 = Done true s2 /\
    supported_mask a s2
    = Z.land (supported_mask a s) (Z.lnot mask) /\
    (is_supported a category s = false ->
     supported_mask a s2 = supported_mask a s) /\
    length (new_writes s s2) = 2%nat.
Proof.
  intros Hs Hm Hc Hsome.
  destruct (getCategoryMaskFromId_some category mask Hsome) as [Hd Hbits].
  subst mask.
  rewrite (addSupported_done a category s Hs Hc Hd). cbv zeta.
  eexists _, _. split; [reflexivity |].
  rewrite removeSupported_done;
    [| unfold array_ok; destruct a; simpl; rewrite clear_category_length;
       exact Hs
     | destruct a; exact Hc
     | exact Hd].
  cbv zeta. split; [reflexivity |].
  match goal with
  | |- context [set_supported a ?m (log_write _ _)] =>
      assert (Hmask : m = Z.land (supported_mask a s)
                                 (Z.lnot (category_bits category)))
  end.
  { replace (supported_mask a (log_write _ _))
      with (u16 (Z.lor (supported_mask a s) (category_bits category)))
      by (destruct a; reflexivity).
    rewrite (u16_land_l _ _ (u16_range _)).
    rewrite (u16_lor _ _ (supported_mask_ok a s Hm) (mask_range category)).
    apply land_lor_lnot. }
  rewrite Hmask.
  assert (Hsup : forall w l x m,
            supported_mask a (log_write w (set_alert_status l
                                             (set_supported a m x))) = m)
    by (intros; destruct a; reflexivity).
  rewrite Hsup.
  split; [reflexivity |]. split.
  - intros Hno. apply land_lnot_disjoint.
    apply truthy_false. exact Hno.
  - unfold new_writes. destruct a; simpl;
      rewrite <- app_assoc, drop_app_length; reflexivity.
Qed.

Lemma add_then_remove_supported_witness :
  exists s1 s2,
    addSupported UNREAD 4 constructed = Done true s1 /\
    removeSupported UNREAD 4 s1 = Done true s2 /\
    supported_mask UNREAD s2 = 1 /\
    (is_supported UNREAD 4 constructed = false ->
     supported_mask UNREAD s2 = supported_mask UNREAD constructed) /\
    length (new_writes constructed s2) = 2%nat.
Proof.
  apply (add_then_remove_supported UNREAD 4 16 constructed).
  - reflexivity.
  - vm_compute. repeat split; congruence.
  - reflexivity.
  - reflexivity.
Defined.

(** *** What each entry point leaves alone *)

Lemma preserves_alert_status_at_any (P : ANS -> Prop) (i : Z) :
  preserves P (alert_status_at i).
Proof.
  intros s a s' HP H. unfold alert_status_at in H.
  destruct (in_bounds i); [| discriminate].
  destruct (_ !! _); [| discriminate].
  injection H as _ <-. exact HP.
Qed.

Lemma preserves_alert_status_store_any (P : ANS -> Prop) (i : Z)
  (a : alert_status_t) :
  (forall s l, P s -> P (set_alert_status l s)) ->
  preserves P (alert_status_store i a).
Proof.
  intros HP s u s' Hs H. unfold alert_status_store in H.
  destruct (in_bounds i); [| discriminate].
  injection H as _ <-. apply HP. exact Hs.
Qed.

(** Breaks down a preservation goal for a property that reads only fields
    the code at hand does not assign; [field_goal] closes the obligation
    left by each assignment. *)
Ltac frame_with field_goal :=
  repeat first
    [ apply preserves_ret
    | apply preserves_get
    | apply preserves_mask_from_id
    | apply preserves_alert_status_at_any
    | apply preserves_alert_status_store_any; solve [field_goal]
    | apply preserves_modify; solve [field_goal]
    | apply preserves_bind; [| intro]
    | apply preserves_for_each; intro
    | apply preserves_dispatch_loop
    | match goal with
      | |- preserves _ (if ?b then _ else _) => destruct b
      | |- preserves _ (match ?x with _ => _ end) => destruct x
      end
    | progress cbv zeta ].

Ltac same_field := intros; simpl; assumption.

Lemma preserves_subscriptions_clear (e : Z * Z) (category : Z) :
  preserves (fun s => subscriptions s = e) (clearAlertsOfCategory category).
Proof.
  unfold clearAlertsOfCategory, clear_all_counts, store_count.
  frame_with same_field.
Qed.

Lemma preserves_subscriptions_alert (e : Z * Z) (category : Z) :
  preserves (fun s => subscriptions s = e) (addNewAlertToCategory category).
Proof.
  unfold addNewAlertToCategory, setCharacteristicValue, store_count,
    load_count.
  frame_with same_field.
Qed.

(** X7 -- The enabled masks are changed by control-point commands only:
    connection, disconnection, a new alert, a button press and the six
    configuration functions all leave both enabled masks as they found
    them, so what one peer has enabled is still enabled for the next
    peer. *)
Theorem subscriptions_outlive_connection (e : Z * Z) :
  preserves (fun s => subscriptions s = e) onConnected /\
  preserves (fun s => subscriptions s = e) onDisconnected /\
  preserves (fun s => subscriptions s = e) buttonPressedHandler /\
  (forall category,
     preserves (fun s => subscriptions s = e)
       (addNewAlertToCategory category)) /\
  (forall a mask,
     preserves (fun s => subscriptions s = e) (setSupported a mask)) /\
  (forall a category,
     preserves (fun s => subscriptions s = e) (addSupported a category)) /\
  (forall a category,
     preserves (fun s => subscriptions s = e) (removeSupported a category)).
Proof.
  pose proof (preserves_subscriptions_clear e) as Hclear.
  pose proof (preserves_subscriptions_alert e) as Halert.
  repeat match goal with |- _ /\ _ => split end.
  - unfold onConnected. frame_with same_field.
  - unfold onDisconnected. frame_with same_field.
  - unfold buttonPressedHandler. frame_with same_field; try apply Halert.
  - exact Halert.
  - intros a mask.
    destruct a; unfold setSupported, setSupportedNewAlertsCategory,
      setSupportedUnreadAlertsCategory, clear_supported,
      setCharacteristicValue;
      frame_with same_field; try apply Hclear.
  - intros a category.
    destruct a; unfold addSupported, addSupportedNewAlertsCategory,
      addSupportedUnreadAlertsCategory, setCharacteristicValue;
      frame_with same_field; try apply Hclear.
  - intros a category.
    destruct a; unfold removeSupported, removeSupportedNewAlertsCategory,
      removeSupportedUnreadAlertsCategory, setCharacteristicValue;
      frame_with same_field; try apply Hclear.
Qed.

Lemma subscriptions_outlive_connection_witness :
  exists s',
    onDisconnected simple_alert_enabled = Done tt s' /\
    subscriptions s' = (1, 0).
Proof.
  eexists. split; [vm_compute; reflexivity |].
  eapply (proj1 (proj2 (subscriptions_outlive_connection (1, 0)))
            simple_alert_enabled tt);
    [reflexivity | vm_compute; reflexivity].
Defined.

Lemma counts_insert_same_count (l : list alert_status_t) (i : nat)
  (a : alert_status_t) (v : Z) :
  l !! i = Some a ->
  map as_count (<[i := mk_alert_status v (as_count a)]> l) = map as_count l.
Proof.
  revert i. induction l as [| x l IH]; intros [| i] H; simpl in *;
    try discriminate.
  - injection H as ->. reflexivity.
  - f_equal. apply IH. exact H.
Qed.

Lemma preserves_counts_store_category (cs : list Z) (i v : Z) :
  preserves (fun s => counts s = cs) (store_category i v).
Proof.
  intros s u s' HP H. unfold store_category, bind, alert_status_at in H.
  destruct (in_bounds i) eqn:Hin; [| discriminate].
  destruct (_alert_status s !! Z.to_nat i) as [a |] eqn:Ha; [| discriminate].
  unfold alert_status_store in H. rewrite Hin in H.
  injection H as _ <-. unfold counts in *. simpl.
  rewrite (counts_insert_same_count _ _ a v Ha). exact HP.
Qed.

(** X8 -- Whatever is written and to whichever characteristic, the
    data-written handler, when it returns, has changed neither supported
    mask, nor the connection flag, nor the button count, nor the list of
    characteristics; and a two-byte write changes no alert counter. *)
Theorem handler_frame (characteristic : Z) (data : list Z) (s s' : ANS) :
  onDataWrittenHandler characteristic data s = Done tt s' ->
  configuration s' = configuration s /\
  (length data = 2%nat -> counts s' = counts s).
Proof.
  intros Hrun. split.
  - assert (Hp : preserves (fun x => configuration x = configuration s)
                   (onDataWrittenHandler characteristic data)).
    { unfold onDataWrittenHandler, control_point_written, command_switch,
        notify_all_new, setCharacteristicValue, store_category, store_count,
        load_count.
      frame_with same_field. }
    exact (Hp s tt s' eq_refl Hrun).
  - intros Hlen.
    destruct data as [| command [| category [| ? ?]]]; try discriminate.
    assert (Hp : preserves (fun x => counts x = counts s)
                   (onDataWrittenHandler characteristic [command; category])).
    { unfold onDataWrittenHandler. apply preserves_bind; [apply preserves_get |].
      intros x. destruct (_ =? -1); [apply preserves_ret |].
      apply preserves_dispatch_loop.
      unfold control_point_written.
      change (nth 1 [command; category] 0) with category.
      change (nth 0 [command; category] 0) with command.
      change (Z.of_nat (length [command; category])) with 2.
      cbv iota beta zeta delta [Z.ltb Z.gtb Z.eqb Z.compare Pos.compare
                                Pos.compare_cont Pos.eqb orb].
      apply preserves_bind; [apply preserves_counts_store_category |].
      intros _.
      unfold command_switch, notify_all_new, setCharacteristicValue,
        load_count.
      frame_with same_field. }
    exact (Hp s tt s' eq_refl Hrun).
Qed.

Lemma handler_frame_witness :
  exists s',
    onDataWrittenHandler 104 [0; 0] with_pending_alerts = Done tt s' /\
    configuration s' = configuration with_pending_alerts /\
    (length [0; 0] = 2%nat -> counts s' = counts with_pending_alerts).
Proof.
  eexists. split; [vm_compute; reflexivity |].
  apply (handler_frame 104 [0; 0] with_pending_alerts).
  vm_compute. reflexivity.
Defined.

Lemma dispatch_loop_elsewhere (n : nat) (index : Z) (body : M unit) :
  index <> _alert_notification_control_point_index ->
  dispatch_loop n index body = ret tt.
Proof.
  intros Hne. induction n as [| n IH]; simpl; [reflexivity |].
  destruct (Z.eqb_spec index _alert_notification_control_point_index);
    [contradiction | exact IH].
Qed.

(** X9 -- A write to any characteristic other than the one stored at the
    control-point position (the four other characteristics of the service,
    or a characteristic of another service) is ignored whatever its
    content: the object is unchanged, and no category byte is looked at. *)
Theorem write_elsewhere_ignored (s : ANS) (characteristic : Z) (data : list Z) :
  ~ is_control_point s characteristic ->
  onDataWrittenHandler characteristic data s = Done tt s.
Proof.
  intros Hne. unfold onDataWrittenHandler. rewrite bind_get. cbv zeta.
  destruct (_ =? -1); [reflexivity |].
  rewrite dispatch_loop_elsewhere; [reflexivity | exact Hne].
Qed.

Lemma write_elsewhere_ignored_witness :
  onDataWrittenHandler 103 [4; 255] scenario_A = Done tt scenario_A /\
  onDataWrittenHandler 7 [0] scenario_A = Done tt scenario_A.
Proof.
  split; apply write_elsewhere_ignored; vm_compute; congruence.
Defined.

(** *** The remaining commands *)

Lemma array_ok_latched (command category : Z) (s : ANS) :
  array_ok s -> array_ok (latched command category s).
Proof.
  unfold array_ok, latched. simpl. rewrite length_alter. trivial.
Qed.

Lemma notify_switch (s : ANS) (a : axis) (c : Z) :
  array_ok s -> 0 <= c < 10 ->
  command_switch (notify_command a) c (category_bits c) s
  = Done tt
      (if is_enabled a c s
       then log_write
              (mk_gatt_write (notify_index a) 1
                 (nth (Z.to_nat c) (counts s) 0)) s
       else s).
Proof.
  intros Hs Hc. unfold command_switch. rewrite bind_get.
  assert (H255 : (c =? 255) = false) by lia.
  destruct a; unfold notify_command, is_enabled, enabled_mask; cbv iota;
    rewrite ?H255;
    (destruct (truthy _); [| reflexivity]);
    rewrite (bind_done _ _ _ _ _ (load_count_done s c Hs Hc));
    reflexivity.
Qed.

(** X10 -- For a concrete category, the two "notify immediately" commands
    (4 for new alerts, 5 for unread status) written to the control point
    write the category's own counter, on one byte, to the characteristic of
    their axis when the category is enabled on that axis, and write nothing
    otherwise; they change no bitmask and no counter. *)
Theorem notify_concrete_category
  (s : ANS) (characteristic : Z) (a : axis) (c : Z) :
  array_ok s -> is_control_point s characteristic -> 0 <= c < 10 ->
  exists s',
    onDataWrittenHandler characteristic [notify_command a; c] s = Done tt s' /\
    masks s' = masks s /\
    counts s' = counts s /\
    new_writes s s'
    = (if is_enabled a c s
       then [mk_gatt_write (notify_index a) 1 (nth (Z.to_nat c) (counts s) 0)]
       else []).
Proof.
  intros Hs Hcp Hc.
  rewrite (handler_on_control_point s _ _ Hcp).
  rewrite (control_point_written_concrete s _ c Hs Hc).
  rewrite (notify_switch _ a c (array_ok_latched _ c s Hs) Hc).
  rewrite counts_latched.
  replace (is_enabled a c (latched (notify_command a) c s))
    with (is_enabled a c s) by (destruct a; reflexivity).
  eexists. split; [reflexivity |].
  destruct (is_enabled a c s).
  - split; [reflexivity |]. split; [apply counts_latched |].
    unfold new_writes. simpl. apply drop_app_length.
  - split; [reflexivity |]. split; [apply counts_latched |].
    unfold new_writes. simpl. rewrite drop_all. reflexivity.
Qed.

Lemma notify_concrete_category_witness :
  exists s',
    onDataWrittenHandler 104 [notify_command NEW; 2] scenario_A = Done tt s' /\
    masks s' = masks scenario_A /\
    counts s' = counts scenario_A /\
    new_writes scenario_A s' = [mk_gatt_write 3 1 5].
Proof.
  apply (notify_concrete_category scenario_A 104 NEW 2);
    [reflexivity | reflexivity | lia].
Defined.

Lemma unknown_switch (command category categoryMask : Z) (s : ANS) :
  6 <= command ->
  command_switch command category categoryMask s = Done tt s.
Proof.
  intros Hcmd. unfold command_switch. rewrite bind_get.
  destruct command as [| p | p]; [lia | | lia].
  do 3 (try (destruct p as [p | p |]; try reflexivity; try lia)).
Qed.

(** X11 -- A two-byte write whose command byte is not one of the six
    commands (6 or more) and whose category is concrete only records the
    two bytes in [_control_point]: bitmasks, counters and connection flag
    are unchanged and nothing is written to the GATT server. *)
Theorem unknown_command_ignored
  (s : ANS) (characteristic command c : Z) :
  array_ok s -> is_control_point s characteristic -> 0 <= c < 10 ->
  6 <= command ->
  exists s',
    onDataWrittenHandler characteristic [command; c] s = Done tt s' /\
    _control_point s' = mk_control_point command c /\
    masks s' = masks s /\
    counts s' = counts s /\
    _connected s' = _connected s /\
    gatt_server_writes s' = gatt_server_writes s.
Proof.
  intros Hs Hcp Hc Hcmd.
  rewrite (handler_on_control_point s _ _ Hcp).
  rewrite (control_point_written_concrete s _ c Hs Hc).
  rewrite (unknown_switch _ _ _ _ Hcmd).
  eexists. split; [reflexivity |].
  split; [reflexivity |]. split; [reflexivity |].
  split; [apply counts_latched |]. split; reflexivity.
Qed.

Lemma unknown_command_ignored_witness :
  exists s',
    onDataWrittenHandler 104 [200; 9] scenario_A = Done tt s' /\
    _control_point s' = mk_control_point 200 9 /\
    masks s' = masks scenario_A /\
    counts s' = counts scenario_A /\
    _connected s' = _connected scenario_A /\
    gatt_server_writes s' = gatt_server_writes scenario_A.
Proof.
  apply (unknown_command_ignored scenario_A 104 200 9);
    [reflexivity | reflexivity | lia | lia].
Defined.

(** *** Repeating and combining enable and disable *)

Lemma handler_enable_done (s : ANS) (characteristic : Z) (a : axis) (c : Z) :
  array_ok s -> is_control_point s characteristic -> 0 <= c < 10 ->
  onDataWrittenHandler characteristic [enable_command a; c] s
  = Done tt
      (if is_supported a c s
       then set_enabled a
              (u16 (Z.lor (enabled_mask a s) (category_bits c)))
              (latched (enable_command a) c s)
       else latched (enable_command a) c s).
Proof.
  intros Hs Hcp Hc.
  rewrite (handler_on_control_point s _ _ Hcp).
  rewrite (control_point_written_concrete s _ c Hs Hc).
  rewrite enable_switch, is_supported_latched, enabled_mask_latched.
  reflexivity.
Qed.

Lemma handler_disable_done (s : ANS) (characteristic : Z) (a : axis) (c : Z) :
  array_ok s -> is_control_point s characteristic -> 0 <= c < 10 ->
  onDataWrittenHandler characteristic [disable_command a; c] s
  = Done tt
      (if is_supported a c s
       then set_enabled a
              (u16 (Z.land (enabled_mask a s)
                           (Z.lnot (category_bits c))))
              (latched (disable_command a) c s)
       else latched (disable_command a) c s).
Proof.
  intros Hs Hcp Hc.
  rewrite (handler_on_control_point s _ _ Hcp).
  rewrite (control_point_written_concrete s _ c Hs Hc).
  rewrite disable_switch, is_supported_latched, enabled_mask_latched.
  reflexivity.
Qed.

Lemma alter_with_category_twice (v : Z) (i : nat) (l : list alert_status_t) :
  alter (with_category v) i (alter (with_category v) i l)
  = alter (with_category v) i l.
Proof.
  revert i. induction l as [| x l IH]; intros [| i]; simpl; try reflexivity.
  f_equal. apply IH.
Qed.

Lemma latched_twice (command c : Z) (s : ANS) :
  latched command c (latched command c s) = latched command c s.
Proof.
  unfold latched. destruct s. unfold set_control_point, set_alert_status.
  simpl. rewrite alter_with_category_twice. reflexivity.
Qed.

Lemma latched_set_enabled (a : axis) (m command c : Z) (s : ANS) :
  latched command c (set_enabled a m s) = set_enabled a m (latched command c s).
Proof. destruct a; reflexivity. Qed.

Lemma set_enabled_twice (a : axis) (m m' : Z) (s : ANS) :
  set_enabled a m (set_enabled a m' s) = set_enabled a m s.
Proof. destruct a; reflexivity. Qed.

Lemma is_supported_set_enabled (a b : axis) (c m : Z) (s : ANS) :
  is_supported a c (set_enabled b m s) = is_supported a c s.
Proof. destruct a, b; reflexivity. Qed.

Lemma array_ok_set_enabled (a : axis) (m : Z) (s : ANS) :
  array_ok s -> array_ok (set_enabled a m s).
Proof. destruct a; trivial. Qed.

Lemma control_point_set_enabled (a : axis) (m chr : Z) (s : ANS) :
  is_control_point s chr -> is_control_point (set_enabled a m s) chr.
Proof. destruct a; trivial. Qed.

Lemma control_point_latched (command c chr : Z) (s : ANS) :
  is_control_point s chr -> is_control_point (latched command c s) chr.
Proof. trivial. Qed.

(** X12 -- Enable and disable commands are idempotent: for a concrete
    category, writing the same enable (0, 1) or disable (2, 3) command a
    second time returns the object exactly as the first write left it,
    whether or not the category is supported. *)
Theorem enable_disable_idempotent
  (s : ANS) (characteristic : Z) (a : axis) (c command : Z) :
  array_ok s -> masks_ok s -> is_control_point s characteristic ->
  0 <= c < 10 ->
  command = enable_command a \/ command = disable_command a ->
  exists s1,
    onDataWrittenHandler characteristic [command; c] s = Done tt s1 /\
    onDataWrittenHandler characteristic [command; c] s1 = Done tt s1.
Proof.
  intros Hs Hm Hcp Hc [-> | ->].
  - rewrite (handler_enable_done s _ a c Hs Hcp Hc).
    eexists. split; [reflexivity |].
    destruct (is_supported a c s) eqn:Hsup.
    + rewrite handler_enable_done;
        [| apply array_ok_set_enabled, array_ok_latched, Hs
         | apply control_point_set_enabled, control_point_latched, Hcp
         | exact Hc].
      rewrite is_supported_set_enabled, is_supported_latched, Hsup.
      rewrite enabled_mask_set_enabled, latched_set_enabled, latched_twice,
        set_enabled_twice.
      do 2 f_equal.
      rewrite (u16_lor _ _ (enabled_mask_ok a s Hm) (mask_range c)).
      rewrite <- Z.lor_assoc, Z.lor_diag.
      apply u16_lor; [apply enabled_mask_ok, Hm | apply mask_range].
    + rewrite handler_enable_done;
        [| apply array_ok_latched, Hs | apply control_point_latched, Hcp
         | exact Hc].
      rewrite is_supported_latched, Hsup, latched_twice. reflexivity.
  - rewrite (handler_disable_done s _ a c Hs Hcp Hc).
    eexists. split; [reflexivity |].
    destruct (is_supported a c s) eqn:Hsup.
    + rewrite handler_disable_done;
        [| apply array_ok_set_enabled, array_ok_latched, Hs
         | apply control_point_set_enabled, control_point_latched, Hcp
         | exact Hc].
      rewrite is_supported_set_enabled, is_supported_latched, Hsup.
      rewrite enabled_mask_set_enabled, latched_set_enabled, latched_twice,
        set_enabled_twice.
      do 2 f_equal.
      rewrite (u16_land_l _ _ (enabled_mask_ok a s Hm)).
      rewrite <- Z.land_assoc, Z.land_diag.
      apply u16_land_l. apply enabled_mask_ok, Hm.
    + rewrite handler_disable_done;
        [| apply array_ok_latched, Hs | apply control_point_latched, Hcp
         | exact Hc].
      rewrite is_supported_latched, Hsup, latched_twice. reflexivity.
Qed.

Lemma enable_disable_idempotent_witness :
  exists s1,
    onDataWrittenHandler 104 [1; 0] connected_state = Done tt s1 /\
    onDataWrittenHandler 104 [1; 0] s1 = Done tt s1.
Proof.
  apply (enable_disable_idempotent connected_state 104 UNREAD 0 1).
  - reflexivity.
  - vm_compute. repeat split; congruence.
  - reflexivity.
  - lia.
  - left. reflexivity.
Defined.

Lemma lor_land_lnot (x m : Z) :
  Z.lor (Z.land x (Z.lnot m)) m = Z.lor x m.
Proof.
  apply Z.bits_inj'. intros n Hn.
  rewrite !Z.lor_spec, Z.land_spec, Z.lnot_spec by exact Hn.
  destruct (Z.testbit x n), (Z.testbit m n); reflexivity.
Qed.

(** X13 -- For a concrete category supported on an axis, the last of an
    enable and a disable command wins and the other categories are not
    disturbed: enable then disable leaves the enabled mask as it was with
    the category's bit cleared; disable then enable leaves it as it was
    with the bit set. *)
Theorem last_command_wins (s : ANS) (characteristic : Z) (a : axis) (c : Z) :
  array_ok s -> masks_ok s -> is_control_point s characteristic ->
  0 <= c < 10 -> is_supported a c s = true ->
  (exists s1 s2,
     onDataWrittenHandler characteristic [enable_command a; c] s = Done tt s1 /\
     onDataWrittenHandler characteristic [disable_command a; c] s1
     = Done tt s2 /\
     enabled_mask a s2
     = Z.land (enabled_mask a s) (Z.lnot (Z.shiftl 1 c)) /\
     is_enabled a c s2 = false) /\
  (exists s1 s2,
     onDataWrittenHandler characteristic [disable_command a; c] s = Done tt s1 /\
     onDataWrittenHandler characteristic [enable_command a; c] s1
     = Done tt s2 /\
     enabled_mask a s2 = Z.lor (enabled_mask a s) (Z.shiftl 1 c) /\
     is_enabled a c s2 = true).
Proof.
  intros Hs Hm Hcp Hc Hsup.
  pose proof (enabled_mask_ok a s Hm) as He.
  split.
  - rewrite (handler_enable_done s _ a c Hs Hcp Hc), Hsup.
    eexists _, _. split; [reflexivity |].
    rewrite handler_disable_done;
      [| apply array_ok_set_enabled, array_ok_latched, Hs
       | apply control_point_set_enabled, control_point_latched, Hcp
       | exact Hc].
    rewrite is_supported_set_enabled, is_supported_latched, Hsup.
    split; [reflexivity |].
    rewrite (is_enabled_bit a c _ Hc), !enabled_mask_set_enabled.
    rewrite (u16_land_l _ _ (u16_range _)), (u16_lor _ _ He (mask_range c)).
    rewrite land_lor_lnot, (mask_of_concrete c Hc).
    split; [reflexivity |].
    rewrite Z.shiftl_1_l, Z.land_spec, Z.lnot_spec, Z.pow2_bits_true by lia.
    apply andb_false_r.
  - rewrite (handler_disable_done s _ a c Hs Hcp Hc), Hsup.
    eexists _, _. split; [reflexivity |].
    rewrite handler_enable_done;
      [| apply array_ok_set_enabled, array_ok_latched, Hs
       | apply control_point_set_enabled, control_point_latched, Hcp
       | exact Hc].
    rewrite is_supported_set_enabled, is_supported_latched, Hsup.
    split; [reflexivity |].
    rewrite (is_enabled_bit a c _ Hc), !enabled_mask_set_enabled.
    rewrite (u16_lor _ _ (u16_range _) (mask_range c)), (u16_land_l _ _ He).
    rewrite lor_land_lnot, (mask_of_concrete c Hc).
    split; [reflexivity |].
    rewrite Z.shiftl_1_l, Z.lor_spec, Z.pow2_bits_true by lia.
    apply orb_true_r.
Qed.

Lemma last_command_wins_witness :
  (exists s1 s2,
     onDataWrittenHandler 104 [enable_command NEW; 2] scenario_A = Done tt s1 /\
     onDataWrittenHandler 104 [disable_command NEW; 2] s1 = Done tt s2 /\
     enabled_mask NEW s2 = 1 /\
     is_enabled NEW 2 s2 = false) /\
  (exists s1 s2,
     onDataWrittenHandler 104 [disable_command NEW; 2] scenario_A
     = Done tt s1 /\
     onDataWrittenHandler 104 [enable_command NEW; 2] s1 = Done tt s2 /\
     enabled_mask NEW s2 = 5 /\
     is_enabled NEW 2 s2 = true).
Proof.
  apply (last_command_wins scenario_A 104 NEW 2).
  - reflexivity.
  - vm_compute. repeat split; congruence.
  - reflexivity.
  - lia.
  - reflexivity.
Defined.

(** *** What holds of every reachable object *)

Lemma land_range (n e y : Z) :
  0 <= n -> 0 <= e < 2 ^ n -> 0 <= Z.land e y < 2 ^ n.
Proof.
  intros Hn He.
  assert (H : Z.land e y = Z.land e y mod 2 ^ n).
  { rewrite <- (Z.mod_small e (2 ^ n)) at 1 by exact He.
    rewrite <- !Z.land_ones by exact Hn.
    rewrite <- !Z.land_assoc. f_equal. apply Z.land_comm. }
  rewrite H. apply Z.mod_pos_bound. apply Z.pow_pos_nonneg; lia.
Qed.

Lemma lor_range (n x y : Z) :
  0 <= n -> 0 <= x < 2 ^ n -> 0 <= y < 2 ^ n -> 0 <= Z.lor x y < 2 ^ n.
Proof.
  intros Hn Hx Hy.
  assert (H : Z.lor x y = Z.lor x y mod 2 ^ n).
  { rewrite <- (Z.mod_small x (2 ^ n)) at 1 by exact Hx.
    rewrite <- (Z.mod_small y (2 ^ n)) at 1 by exact Hy.
    rewrite <- !Z.land_ones by exact Hn.
    symmetry. apply Z.land_lor_distr_l. }
  rewrite H. apply Z.mod_pos_bound. apply Z.pow_pos_nonneg; lia.
Qed.

Lemma u8_range (x : Z) : 0 <= u8 x < 2 ^ 8.
Proof. unfold u8. apply Z.mod_pos_bound. lia. Qed.

Lemma u32_range (x : Z) : 0 <= u32 x < 2 ^ 32.
Proof. unfold u32. apply Z.mod_pos_bound. lia. Qed.

Lemma concrete_mask_low (c : Z) :
  0 <= c < 10 -> 0 <= category_bits c < 2 ^ 10.
Proof. intros Hc. each_category c Hc; vm_compute; split; congruence. Qed.

Lemma consistent_array_ok (s : ANS) : consistent s -> array_ok s.
Proof.
  intros (Ht & _). unfold array_ok.
  rewrite <- (length_map as_category), Ht. reflexivity.
Qed.

Lemma categories_insert_same (l : list alert_status_t) (i : nat)
  (a : alert_status_t) (v : Z) :
  l !! i = Some a ->
  map as_category (<[i := mk_alert_status (as_category a) v]> l)
  = map as_category l.
Proof.
  revert i. induction l as [| x l IH]; intros [| i] H; simpl in *;
    try discriminate.
  - injection H as ->. reflexivity.
  - f_equal. apply IH. exact H.
Qed.

Lemma counts_insert (l : list alert_status_t) (i : nat) (c v : Z) :
  map as_count (<[i := mk_alert_status c v]> l) = <[i := v]> (map as_count l).
Proof.
  revert i. induction l as [| x l IH]; intros [| i]; simpl; try reflexivity.
  f_equal. apply IH.
Qed.

Lemma preserves_consistent_store_count (i v : Z) :
  0 <= v < 2 ^ 8 -> preserves consistent (store_count i v).
Proof.
  intros Hv s u s' (Ht & Hn & Hrest) H.
  unfold store_count, bind, alert_status_at in H.
  destruct (in_bounds i) eqn:Hin; [| discriminate].
  destruct (_alert_status s !! Z.to_nat i) as [a |] eqn:Ha; [| discriminate].
  unfold alert_status_store in H. rewrite Hin in H. injection H as _ <-.
  split; [| split; [| exact Hrest]].
  - simpl. rewrite (categories_insert_same _ _ a v Ha). exact Ht.
  - unfold counts. simpl. rewrite counts_insert.
    apply Forall_insert; [exact Hn | exact Hv].
Qed.

Lemma preserves_consistent_load_count (i : Z) :
  preserves consistent (load_count i).
Proof.
  unfold load_count. apply preserves_bind;
    [apply preserves_alert_status_at_any | intros a; apply preserves_ret].
Qed.

(** Assignments that keep an object consistent. *)
Lemma consistent_assign (s : ANS) :
  consistent s ->
  (forall b, consistent (set_connected b s)) /\
  (forall c, consistent (set_control_point c s)) /\
  (forall w, consistent (log_write w s)) /\
  (forall m, consistent (set_supported_new m s)) /\
  (forall m, consistent (set_supported_unread m s)) /\
  (forall n, 0 <= n < 2 ^ 32 -> consistent (set_button_press_count n s)) /\
  (forall m, 0 <= m < 2 ^ 10 -> consistent (set_enabled_new m s)) /\
  (forall m, 0 <= m < 2 ^ 10 -> consistent (set_enabled_unread m s)).
Proof.
  intros (Ht & Hn & He & Hu & Hb & Hc).
  repeat split; simpl; try assumption; lia.
Qed.

Create HintDb consistent discriminated.

#[local] Hint Resolve preserves_consistent_load_count u8_range u32_range
  : consistent.

#[local] Hint Extern 1 (preserves consistent (store_count _ _)) =>
  apply preserves_consistent_store_count; first [apply u8_range | lia]
  : consistent.

(** Breaks down a goal that a member function keeps an object consistent. *)
Ltac keep_consistent :=
  repeat first
    [ solve [auto with consistent nocore]
    | apply preserves_ret
    | apply preserves_get
    | apply preserves_mask_from_id
    | apply preserves_bind; [| intro]
    | apply preserves_for_each; intro
    | apply preserves_modify;
        let s := fresh "s" in let H := fresh "H" in
        intros s H;
        destruct (consistent_assign s H)
          as (?Hc & ?Hp & ?Hw & ?Hsn & ?Hsu & ?Hb & ?Hen & ?Heu);
        solve [ eauto using u32_range | apply Hb; lia ]
    | match goal with
      | |- preserves _ (if ?b then _ else _) => destruct b
      | |- preserves _ (match ?x with _ => _ end) => destruct x
      end
    | progress cbv zeta ].

Lemma preserves_consistent_clear (category : Z) :
  preserves consistent (clearAlertsOfCategory category).
Proof. unfold clearAlertsOfCategory, clear_all_counts. keep_consistent. Qed.

#[local] Hint Resolve preserves_consistent_clear : consistent.

Lemma preserves_consistent_alert (category : Z) :
  preserves consistent (addNewAlertToCategory category).
Proof. unfold addNewAlertToCategory, setCharacteristicValue. keep_consistent. Qed.

#[local] Hint Resolve preserves_consistent_alert : consistent.

Lemma preserves_consistent_connection :
  preserves consistent onConnected /\ preserves consistent onDisconnected /\
  preserves consistent buttonPressedHandler.
Proof.
  unfold onConnected, onDisconnected, buttonPressedHandler.
  split; [| split]; keep_consistent.
Qed.

Lemma preserves_consistent_configure (a : axis) (x : Z) :
  preserves consistent (setSupported a x) /\
  preserves consistent (addSupported a x) /\
  preserves consistent (removeSupported a x).
Proof.
  destruct a;
    unfold setSupported, addSupported, removeSupported,
      setSupportedNewAlertsCategory, setSupportedUnreadAlertsCategory,
      addSupportedNewAlertsCategory, addSupportedUnreadAlertsCategory,
      removeSupportedNewAlertsCategory, removeSupportedUnreadAlertsCategory,
      clear_supported, setCharacteristicValue;
    (split; [| split]); keep_consistent.
Qed.

Lemma tags_latched (command c : Z) (s : ANS) :
  0 <= c < 10 ->
  map as_category (_alert_status s) = range 10 ->
  map as_category (_alert_status (latched command c s)) = range 10.
Proof.
  intros Hc Ht.
  pose proof (f_equal length Ht) as Hlen. rewrite length_map in Hlen.
  open_array s Hlen. unfold latched. simpl _alert_status. rewrite E in *.
  change (range 10) with [0; 1; 2; 3; 4; 5; 6; 7; 8; 9] in *.
  simpl in Ht. injection Ht as H0 H1 H2 H3 H4 H5 H6 H7 H8 H9.
  each_category c Hc; simpl; congruence.
Qed.

Lemma consistent_latched (command c : Z) (s : ANS) :
  0 <= c < 10 -> consistent s -> consistent (latched command c s).
Proof.
  intros Hc (Ht & Hn & Hrest).
  split; [exact (tags_latched command c s Hc Ht) |].
  split; [rewrite counts_latched; exact Hn | exact Hrest].
Qed.

Lemma consistent_set_enabled (a : axis) (m : Z) (s : ANS) :
  consistent s -> 0 <= m < 2 ^ 10 -> consistent (set_enabled a m s).
Proof.
  intros H Hm. destruct (consistent_assign s H) as (_ & _ & _ & _ & _ & _ & Hn & Hu).
  destruct a; [apply Hn | apply Hu]; exact Hm.
Qed.

Lemma consistent_enabled_low (a : axis) (s : ANS) :
  consistent s -> 0 <= enabled_mask a s < 2 ^ 10.
Proof. intros (_ & _ & Hn & Hu & _). destruct a; assumption. Qed.

Lemma low_is_u16 (x : Z) : 0 <= x < 2 ^ 10 -> 0 <= x < 2 ^ 16.
Proof. lia. Qed.

Lemma consistent_after_enable (a : axis) (c : Z) (s : ANS) :
  consistent s -> 0 <= c < 10 ->
  consistent
    (if is_supported a c s
     then set_enabled a
            (u16 (Z.lor (enabled_mask a s) (category_bits c))) s
     else s).
Proof.
  intros Hs Hc. pose proof (concrete_mask_low c Hc) as Hmask.
  pose proof (consistent_enabled_low a s Hs) as He.
  destruct (is_supported a c s); [| exact Hs].
  apply consistent_set_enabled; [exact Hs |].
  rewrite u16_lor by (apply low_is_u16; assumption).
  apply lor_range; [lia | exact He | exact Hmask].
Qed.

Lemma consistent_after_disable (a : axis) (c : Z) (s : ANS) :
  consistent s -> 0 <= c < 10 ->
  consistent
    (if is_supported a c s
     then set_enabled a
            (u16 (Z.land (enabled_mask a s)
                         (Z.lnot (category_bits c)))) s
     else s).
Proof.
  intros Hs Hc. pose proof (consistent_enabled_low a s Hs) as He.
  destruct (is_supported a c s); [| exact Hs].
  apply consistent_set_enabled; [exact Hs |].
  rewrite u16_land_l by (apply low_is_u16; assumption).
  apply land_range; [lia | exact He].
Qed.

Lemma consistent_after_notify (a : axis) (c : Z) (s : ANS) :
  consistent s ->
  consistent
    (if is_enabled a c s
     then log_write
            (mk_gatt_write (notify_index a) 1 (nth (Z.to_nat c) (counts s) 0))
            s
     else s).
Proof.
  intros Hs. destruct (is_enabled a c s); [| exact Hs].
  destruct (consistent_assign s Hs) as (_ & _ & Hw & _). apply Hw.
Qed.

(** The [switch], on a concrete category, keeps an object consistent. *)
Lemma preserves_consistent_switch (command c : Z) :
  0 <= c < 10 ->
  preserves consistent (command_switch command c (category_bits c)).
Proof.
  intros Hc s u s' Hs Hrun.
  pose proof (consistent_array_ok s Hs) as Ha.
  assert (Hcases : command = enable_command NEW \/ command = enable_command UNREAD
                   \/ command = disable_command NEW
                   \/ command = disable_command UNREAD
                   \/ command = notify_command NEW
                   \/ command = notify_command UNREAD
                   \/ 6 <= command \/ command < 0)
    by (unfold enable_command, disable_command, notify_command; lia).
  destruct Hcases as [-> | [-> | [-> | [-> | [-> | [-> | [Hc6 | Hneg]]]]]]].
  - rewrite enable_switch in Hrun. injection Hrun as _ <-.
    exact (consistent_after_enable NEW c s Hs Hc).
  - rewrite enable_switch in Hrun. injection Hrun as _ <-.
    exact (consistent_after_enable UNREAD c s Hs Hc).
  - rewrite disable_switch in Hrun. injection Hrun as _ <-.
    exact (consistent_after_disable NEW c s Hs Hc).
  - rewrite disable_switch in Hrun. injection Hrun as _ <-.
    exact (consistent_after_disable UNREAD c s Hs Hc).
  - rewrite (notify_switch _ _ c Ha Hc) in Hrun. injection Hrun as _ <-.
    exact (consistent_after_notify NEW c s Hs).
  - rewrite (notify_switch _ _ c Ha Hc) in Hrun. injection Hrun as _ <-.
    exact (consistent_after_notify UNREAD c s Hs).
  - rewrite (unknown_switch _ _ _ _ Hc6) in Hrun. injection Hrun as _ <-.
    exact Hs.
  - destruct command as [| p | p]; try lia.
    unfold command_switch in Hrun. rewrite bind_get in Hrun.
    injection Hrun as _ <-. exact Hs.
Qed.

Lemma preserves_consistent_written (data : list Z) :
  preserves consistent (control_point_written data).
Proof.
  intros s u s' Hs Hrun.
  destruct data as [| b0 [| b1 [| b2 rest]]].
  - injection Hrun as _ <-. exact Hs.
  - assert (Hp : preserves consistent (control_point_written [b0]))
      by (change (control_point_written [b0]) with clear_all_counts;
          unfold clear_all_counts; keep_consistent).
    exact (Hp s u s' Hs Hrun).
  - destruct (in_bounds b1) eqn:Hin.
    + apply in_bounds_spec in Hin.
      rewrite (control_point_written_concrete s b0 b1
                 (consistent_array_ok s Hs) Hin) in Hrun.
      exact (preserves_consistent_switch b0 b1 Hin _ u s'
               (consistent_latched b0 b1 s Hin Hs) Hrun).
    + exfalso. unfold control_point_written in Hrun.
      change (nth 1 [b0; b1] 0) with b1 in Hrun.
      change (Z.of_nat (length [b0; b1])) with 2 in Hrun.
      cbv iota beta zeta delta [Z.ltb Z.gtb Z.eqb Z.compare Pos.compare
                                Pos.compare_cont Pos.eqb orb] in Hrun.
      unfold bind at 1, store_category, bind, alert_status_at in Hrun.
      rewrite Hin in Hrun. discriminate Hrun.
  - assert (Hsame : control_point_written (b0 :: b1 :: b2 :: rest) s
                    = Done tt s).
    { unfold control_point_written.
      replace ((_ <? 1) || (_ >? 2)) with true; [reflexivity |].
      symmetry. apply orb_true_iff. right.
      rewrite Z.gtb_ltb. apply Z.ltb_lt. simpl length. lia. }
    rewrite Hsame in Hrun. injection Hrun as _ <-. exact Hs.
Qed.

Lemma preserves_consistent_handler (characteristic : Z) (data : list Z) :
  preserves consistent (onDataWrittenHandler characteristic data).
Proof.
  unfold onDataWrittenHandler.
  apply preserves_bind; [apply preserves_get | intros x].
  cbv zeta. destruct (_ =? -1); [apply preserves_ret |].
  apply preserves_dispatch_loop, preserves_consistent_written.
Qed.

Lemma constructor_consistent (p0 p1 p2 p3 p4 : Z) (s : ANS) :
  constructor p0 p1 p2 p3 p4 = Done tt s -> consistent s.
Proof.
  intros H. vm_compute in H. injection H as <-.
  split; [reflexivity |]. split; [repeat constructor; simpl; lia |].
  repeat split; simpl; lia.
Qed.

(** X14 -- In every object the program reaches without an out-of-bounds
    access, each element of [_alert_status] carries its own index as
    category tag, every counter is a byte value, the two enabled masks only
    have bits of the ten concrete categories, the button count fits 32
    bits and the service has its five characteristics. *)
Theorem reachable_consistent (s : ANS) : reachable s -> consistent s.
Proof.
  induction 1 as [p0 p1 p2 p3 p4 s Hc
                 | s s' _ IH Hr | s s' _ IH Hr
                 | s chr data s' _ IH Hr | s s' _ IH Hr
                 | s c r s' _ IH Hr
                 | s m r s' _ IH Hm Hr | s c r s' _ IH Hr | s c r s' _ IH Hr
                 | s m r s' _ IH Hm Hr | s c r s' _ IH Hr | s c r s' _ IH Hr].
  - exact (constructor_consistent _ _ _ _ _ s Hc).
  - exact (proj1 preserves_consistent_connection _ _ _ IH Hr).
  - exact (proj1 (proj2 preserves_consistent_connection) _ _ _ IH Hr).
  - exact (preserves_consistent_handler _ _ _ _ _ IH Hr).
  - exact (proj2 (proj2 preserves_consistent_connection) _ _ _ IH Hr).
  - exact (preserves_consistent_alert _ _ _ _ IH Hr).
  - exact (proj1 (preserves_consistent_configure NEW m) _ _ _ IH Hr).
  - exact (proj1 (proj2 (preserves_consistent_configure NEW c)) _ _ _ IH Hr).
  - exact (proj2 (proj2 (preserves_consistent_configure NEW c)) _ _ _ IH Hr).
  - exact (proj1 (preserves_consistent_configure UNREAD m) _ _ _ IH Hr).
  - exact (proj1 (proj2 (preserves_consistent_configure UNREAD c)) _ _ _ IH Hr).
  - exact (proj2 (proj2 (preserves_consistent_configure UNREAD c)) _ _ _ IH Hr).
Qed.

Lemma reachable_consistent_witness : consistent scenario_A.
Proof.
  apply reachable_consistent. exact scenario_A_reachable.
Defined.

(** *** Raising alerts *)

(** X15 -- For a category whose mask [getCategoryMaskFromId] defines (0 to
    31, or ALL), [addNewAlertToCategory] returns [false] and leaves the
    object untouched when the mask shares no bit with the supported mask
    for new alerts; when it shares one and the category is not a concrete
    category (the ALL sentinel as soon as one concrete category is
    supported, for instance) the call indexes [_alert_status] with that
    value, outside the array.  For a category from 32 to 254 the call
    starts by shifting by more than the width of [int]. *)
Theorem alert_on_other_categories (s : ANS) (category : Z) :
  (forall mask,
     getCategoryMaskFromId category = Some mask ->
     (truthy (Z.land mask (_supported_new_alert_category s)) = false ->
      addNewAlertToCategory category s = Done false s) /\
     (truthy (Z.land mask (_supported_new_alert_category s)) = true ->
      ~ 0 <= category < 10 ->
      addNewAlertToCategory category s = Fault (OutOfBounds category))) /\
  (getCategoryMaskFromId category = None ->
   addNewAlertToCategory category s = Fault (UndefinedShift category)).
Proof.
  split.
  - intros mask Hmask.
    destruct (getCategoryMaskFromId_some category mask Hmask) as [Hd Hbits].
    subst mask. split; intros Hsup.
    + unfold addNewAlertToCategory.
      rewrite bind_mask_from_id by exact Hd. rewrite bind_get, Hsup.
      reflexivity.
    + intros Hout. unfold addNewAlertToCategory.
      rewrite bind_mask_from_id by exact Hd.
      rewrite bind_get, Hsup. change (negb true) with false. cbv iota.
      apply bind_fault. unfold load_count. apply bind_fault.
      unfold alert_status_at.
      replace (in_bounds category) with false; [reflexivity |].
      symmetry. apply not_true_is_false. intros Hin.
      apply in_bounds_spec in Hin. contradiction.
  - intros Hnone. unfold addNewAlertToCategory.
    apply bind_mask_from_id_undefined. exact Hnone.
Qed.

Lemma alert_on_other_categories_witness :
  addNewAlertToCategory 1 connected_state = Done false connected_state /\
  addNewAlertToCategory 255 connected_state = Fault (OutOfBounds 255) /\
  addNewAlertToCategory 33 connected_state = Fault (UndefinedShift 33).
Proof.
  split; [| split].
  - apply (proj1 (proj1 (alert_on_other_categories connected_state 1) 2
                    eq_refl)).
    reflexivity.
  - apply (proj2 (proj1 (alert_on_other_categories connected_state 255) 1023
                    eq_refl));
      [reflexivity | lia].
  - apply (proj2 (alert_on_other_categories connected_state 33)).
    reflexivity.
Defined.

(** One alert on a supported concrete category: it returns, counts the
    alert, and keeps the configuration, the subscriptions and the shape of
    the array. *)
Lemma alert_run (s : ANS) (c : Z) :
  array_ok s -> 0 <= c < 10 -> is_supported NEW c s = true ->
  exists r s',
    addNewAlertToCategory c s = Done r s' /\
    counts s'
    = <[Z.to_nat c := u8 (nth (Z.to_nat c) (counts s) 0 + 1)]> (counts s) /\
    configuration s' = configuration s /\
    subscriptions s' = subscriptions s /\
    array_ok s' /\
    (is_enabled NEW c s = false ->
     gatt_server_writes s' = gatt_server_writes s).
Proof.
  intros Hs Hc Hsup.
  set (n := u8 (nth (Z.to_nat c) (counts s) 0 + 1)).
  set (s1 := set_alert_status
               (alter (with_count n) (Z.to_nat c) (_alert_status s)) s).
  assert (Hs1 : array_ok s1)
    by (unfold array_ok, s1; simpl; rewrite length_alter; exact Hs).
  assert (Hcounts : counts s1 = <[Z.to_nat c := n]> (counts s))
    by (unfold counts, s1; simpl; apply counts_store).
  assert (Hload : load_count c s1 = Done n s1).
  { rewrite (load_count_done s1 c Hs1 Hc), Hcounts.
    rewrite nth_insert_same; [reflexivity |].
    unfold counts. rewrite length_map, Hs. lia. }
  assert (Hlog : forall w, load_count c (log_write w s1)
                           = Done n (log_write w s1)).
  { intros w. rewrite (load_count_done (log_write w s1) c Hs1 Hc).
    change (counts (log_write w s1)) with (counts s1).
    rewrite Hcounts, nth_insert_same; [reflexivity |].
    unfold counts. rewrite length_map, Hs. lia. }
  unfold is_supported in Hsup. simpl in Hsup. rewrite Z.land_comm in Hsup.
  unfold addNewAlertToCategory.
  rewrite bind_mask_from_id by lia. rewrite bind_get, Hsup.
  change (negb true) with false. cbv iota.
  rewrite (bind_done _ _ _ _ _ (load_count_done s c Hs Hc)).
  rewrite (bind_done _ _ _ _ _ (store_count_done s c _ Hs Hc)).
  fold n. fold s1. rewrite bind_get.
  replace (truthy (Z.land (category_bits c)
                          (_enabled_new_alert_category s1)))
    with (is_enabled NEW c s)
    by (unfold is_enabled; simpl; rewrite Z.land_comm; reflexivity).
  destruct (is_enabled NEW c s);
    [change (negb true) with false | change (negb false) with true];
    cbv iota.
  - rewrite (bind_done _ _ _ _ _ Hload).
    unfold setCharacteristicValue. rewrite bind_modify, bind_get.
    destruct (negb _).
    + eexists _, _. split; [reflexivity |].
      split; [exact Hcounts |]. repeat split; [exact Hs1 | discriminate].
    + rewrite (bind_done _ _ _ _ _ (Hlog _)), bind_modify.
      eexists _, _. split; [reflexivity |].
      split; [exact Hcounts |]. repeat split; [exact Hs1 | discriminate].
  - eexists _, _. split; [reflexivity |].
    split; [exact Hcounts |]. repeat split. exact Hs1.
Qed.

Lemma nth_insert_other (l : list Z) (i j : nat) (v : Z) :
  i <> j -> nth j (<[i := v]> l) 0 = nth j l 0.
Proof.
  revert i j. induction l as [| a l IH]; intros [| i] [| j] Hne; simpl;
    try reflexivity; try congruence.
  apply IH. congruence.
Qed.

(** X16 -- [n] alerts raised one after the other on a supported concrete
    category all return and leave its counter at its old value plus [n],
    modulo 256 (the counter is a byte and wraps silently); the other
    counters, the supported masks and the enabled masks are as before. *)
Theorem alerts_accumulate_mod_256 (n : nat) (s : ANS) (c : Z) :
  array_ok s -> 0 <= c < 10 -> is_supported NEW c s = true ->
  0 <= nth (Z.to_nat c) (counts s) 0 < 2 ^ 8 ->
  exists s',
    raise_alerts n c s = Done tt s' /\
    nth (Z.to_nat c) (counts s') 0
    = (nth (Z.to_nat c) (counts s) 0 + Z.of_nat n) mod 2 ^ 8 /\
    (forall j, j <> Z.to_nat c -> nth j (counts s') 0 = nth j (counts s) 0) /\
    configuration s' = configuration s /\
    subscriptions s' = subscriptions s.
Proof.
  revert s. induction n as [| n IH]; intros s Hs Hc Hsup Hbyte.
  - exists s. split; [reflexivity |]. split; [| repeat split].
    rewrite Z.add_0_r, Z.mod_small by exact Hbyte. reflexivity.
  - destruct (alert_run s c Hs Hc Hsup)
      as (r & s1 & Hrun & Hcounts & Hconf & Hsub & Hs1 & _).
    assert (Hlen : (Z.to_nat c < length (counts s))%nat)
      by (unfold counts; rewrite length_map, Hs; lia).
    assert (Hsup1 : is_supported NEW c s1 = true).
    { assert (Hmask : _supported_new_alert_category s1
                      = _supported_new_alert_category s)
        by (unfold configuration in Hconf; congruence).
      unfold is_supported, supported_mask in *. rewrite Hmask. exact Hsup. }
    assert (Hc1 : nth (Z.to_nat c) (counts s1) 0
                  = u8 (nth (Z.to_nat c) (counts s) 0 + 1))
      by (rewrite Hcounts; apply nth_insert_same; exact Hlen).
    destruct (IH s1 Hs1 Hc Hsup1) as (s' & Hrest & Hc' & Hother & Hconf' & Hsub').
    { rewrite Hc1. apply u8_range. }
    exists s'. split.
    + simpl raise_alerts. rewrite (bind_done _ _ _ _ _ Hrun). exact Hrest.
    + split; [| split; [| split; congruence]].
      * rewrite Hc', Hc1. unfold u8.
        rewrite Zplus_mod_idemp_l. f_equal. lia.
      * intros j Hj. rewrite (Hother j Hj), Hcounts.
        apply nth_insert_other. congruence.
Qed.

Lemma alerts_accumulate_mod_256_witness :
  exists s',
    raise_alerts 256 0 simple_alert_enabled = Done tt s' /\
    nth (Z.to_nat 0) (counts s') 0
    = (nth (Z.to_nat 0) (counts simple_alert_enabled) 0 + Z.of_nat 256)
      mod 2 ^ 8 /\
    (forall j, j <> Z.to_nat 0 ->
       nth j (counts s') 0 = nth j (counts simple_alert_enabled) 0) /\
    configuration s' = configuration simple_alert_enabled /\
    subscriptions s' = subscriptions simple_alert_enabled.
Proof.
  apply (alerts_accumulate_mod_256 256 simple_alert_enabled 0).
  - reflexivity.
  - lia.
  - reflexivity.
  - vm_compute. split; congruence.
Defined.

(** X17 -- A button press always returns and always advances
    [_button_press_count] by one modulo 2^32, whether or not the simple
    alert category is supported.  The simple-alert counter advances (modulo
    256) exactly when the category is supported for new alerts; no other
    counter and no mask changes, and nothing is written to the server unless
    the category is both supported and enabled. *)
Theorem button_press_effect (s : ANS) :
  array_ok s ->
  exists s',
    buttonPressedHandler s = Done tt s' /\
    _button_press_count s' = u32 (_button_press_count s + 1) /\
    counts s'
    = (if is_supported NEW ANS_TYPE_SIMPLE_ALERT s
       then <[0%nat := u8 (nth 0 (counts s) 0 + 1)]> (counts s)
       else counts s) /\
    masks s' = masks s /\
    (is_supported NEW ANS_TYPE_SIMPLE_ALERT s
     && is_enabled NEW ANS_TYPE_SIMPLE_ALERT s = false ->
     gatt_server_writes s' = gatt_server_writes s).
Proof.
  intros Hs. unfold buttonPressedHandler. rewrite bind_get, bind_modify.
  set (s0 := set_button_press_count (u32 (_button_press_count s + 1)) s).
  change (is_supported NEW 0 s) with (is_supported NEW 0 s0).
  change (is_enabled NEW 0 s) with (is_enabled NEW 0 s0).
  change (counts s) with (counts s0).
  change (masks s) with (masks s0).
  change (gatt_server_writes s) with (gatt_server_writes s0).
  change (u32 (_button_press_count s + 1)) with (_button_press_count s0).
  assert (Hs0 : array_ok s0) by exact Hs. clearbody s0. clear s Hs.
  destruct (is_supported NEW 0 s0) eqn:Hsup.
  - destruct (alert_run s0 0 Hs0 ltac:(lia) Hsup)
      as (r & s' & Hrun & Hcounts & Hconf & Hsub & _ & Hquiet).
    exists s'. rewrite (bind_done _ _ _ _ _ Hrun).
    unfold configuration, subscriptions in *.
    split; [reflexivity |]. split; [congruence |].
    split; [exact Hcounts |]. split; [unfold masks; congruence |].
    intros Hen. apply Hquiet. exact Hen.
  - assert (Hrun : addNewAlertToCategory 0 s0 = Done false s0).
    { unfold is_supported, supported_mask in Hsup.
      rewrite Z.land_comm in Hsup.
      unfold addNewAlertToCategory.
      rewrite bind_mask_from_id by lia. rewrite bind_get, Hsup.
      reflexivity. }
    exists s0. rewrite (bind_done _ _ _ _ _ Hrun). repeat split.
Qed.

Lemma button_press_effect_witness :
  exists s',
    buttonPressedHandler unread_only_enabled = Done tt s' /\
    _button_press_count s'
    = u32 (_button_press_count unread_only_enabled + 1) /\
    counts s'
    = (if is_supported NEW ANS_TYPE_SIMPLE_ALERT unread_only_enabled
       then <[0%nat := u8 (nth 0 (counts unread_only_enabled) 0 + 1)]>
              (counts unread_only_enabled)
       else counts unread_only_enabled) /\
    masks s' = masks unread_only_enabled /\
    (is_supported NEW ANS_TYPE_SIMPLE_ALERT unread_only_enabled
     && is_enabled NEW ANS_TYPE_SIMPLE_ALERT unread_only_enabled = false ->
     gatt_server_writes s' = gatt_server_writes unread_only_enabled).
Proof.
  apply (button_press_effect unread_only_enabled). reflexivity.
Defined.

End CAlertNotificationService.

(** * Properties of the GATT service base class *)
Module CGattService_properties.

Import CGattService.

Lemma and_then_returns {A B : Type} (m : outcome A) (k : A -> outcome B)
  (b : B) :
  and_then m k = Returns b -> exists a, m = Returns a /\ k a = Returns b.
Proof.
  destruct m as [a | f]; simpl; [eauto | discriminate].
Qed.

Lemma assert_returns (b : bool) (u : unit) :
  assert b = Returns u -> b = true.
Proof.
  destruct b; [reflexivity | discriminate].
Qed.

(** What a returning [addCharacteristic] has done. *)
Lemma addCharacteristic_returns
  (user_description attribute characteristic : pointer)
  (s s' : CGattService) (added : bool) :
  addCharacteristic user_description attribute characteristic s
  = Returns (added, s') ->
  (created s = true /\ added = false /\ s' = s) \/
  (created s = false /\ added = true /\
   characteristic <> nullptr /\
   (user_description = nullptr \/ attribute <> nullptr) /\
   s' = mk_CGattService
          (_characteristics_user_descriptions s
           ++ [if user_description =? nullptr then [] else [attribute]])
          (_characteristics s ++ [characteristic]) None).
Proof.
  unfold addCharacteristic, created.
  destruct (_service s) as [service |] eqn:Hservice.
  - intros [= <- <-]. left. auto.
  - intros Hrun. right.
    apply and_then_returns in Hrun as (descriptors & Hdesc & Hrun).
    apply and_then_returns in Hrun as (u & Hchar & Hrun).
    apply assert_returns, negb_true_iff, Z.eqb_neq in Hchar.
    injection Hrun as <- <-.
    destruct (user_description =? nullptr) eqn:Hud; simpl in Hdesc.
    + injection Hdesc as <-. apply Z.eqb_eq in Hud. auto 6.
    + apply and_then_returns in Hdesc as (u' & Hattr & Hdesc).
      apply assert_returns, negb_true_iff, Z.eqb_neq in Hattr.
      injection Hdesc as <-. auto 6.
Qed.

(** What a returning [createService] has done. *)
Lemma createService_returns
  (uuid : Z) (s s' : CGattService) (error : ble_error_t) :
  createService uuid s = Returns (error, s') ->
  created s = false /\
  ((_characteristics s = [] /\ error = BLE_ERROR_INVALID_STATE /\ s' = s) \/
   (_characteristics s <> [] /\ error = BLE_ERROR_NONE /\
    s' = mk_CGattService (_characteristics_user_descriptions s)
           (_characteristics s)
           (Some (mk_GattService uuid (length (_characteristics s)))))).
Proof.
  unfold createService. intros Hrun.
  apply and_then_returns in Hrun as (u & Hassert & Hrun).
  apply assert_returns, negb_true_iff in Hassert. split; [exact Hassert |].
  destruct (_characteristics s) as [| c cs].
  - injection Hrun as <- <-. left. auto.
  - injection Hrun as <- <-. right. split; [discriminate | auto].
Qed.

Lemma two_characteristics_reachable : reachable two_characteristics.
Proof.
  apply (reachable_addCharacteristic 0 0 102
           (mk_CGattService [[501]] [101] None) _ true); [| reflexivity].
  apply (reachable_addCharacteristic 7 501 101 constructor _ true);
    [| reflexivity].
  exact reachable_constructor.
Qed.

Lemma two_characteristics_shape : shape two_characteristics.
Proof.
  unfold shape, two_characteristics. simpl.
  split; [reflexivity |].
  split; [repeat constructor |].
  split; [repeat constructor; discriminate |].
  split; [repeat constructor; discriminate |].
  intros service [=].
Qed.

(** X18 -- In every object built from the constructor by calls of
    [addCharacteristic] and [createService], the vector of user
    descriptions has one entry per characteristic, each entry holds at most
    one attribute, no null address is stored in either vector, and a
    created service counts exactly the characteristics of the vector, of
    which there is at least one. *)
Theorem reachable_shape (s : CGattService) : reachable s -> shape s.
Proof.
  induction 1 as [| ud a c s s' added _ IH Hrun | uuid s s' error _ IH Hrun].
  - unfold shape. simpl.
    split; [reflexivity |]. do 3 (split; [constructor |]). discriminate.
  - apply addCharacteristic_returns in Hrun
      as [(_ & _ & ->) | (Hnew & _ & Hc & Ha & ->)]; [exact IH |].
    destruct IH as (Hlen & Hone & Hattr & Hchar & _).
    unfold shape. simpl. split; [| split; [| split; [| split]]].
    + rewrite !length_app, Hlen. reflexivity.
    + apply Forall_app. split; [exact Hone |].
      constructor; [| constructor].
      destruct (ud =? nullptr); simpl; lia.
    + apply Forall_app. split; [exact Hattr |].
      constructor; [| constructor].
      destruct (ud =? nullptr) eqn:Hud; [constructor |].
      apply Z.eqb_neq in Hud. destruct Ha as [Ha | Ha]; [contradiction |].
      constructor; [exact Ha | constructor].
    + apply Forall_app. split; [exact Hchar |]. constructor; [exact Hc |].
      constructor.
    + discriminate.
  - apply createService_returns in Hrun
      as (_ & [(_ & _ & ->) | (Hsome & _ & ->)]); [exact IH |].
    destruct IH as (Hlen & Hone & Hattr & Hchar & _).
    unfold shape. simpl. do 4 (split; [assumption |]).
    intros service [= <-]. simpl. split; [reflexivity | exact Hsome].
Qed.

Lemma reachable_shape_witness : shape two_characteristics.
Proof.
  apply (reachable_shape two_characteristics).
  exact two_characteristics_reachable.
Defined.

Section Lookups.

Variable getValueHandle : pointer -> Handle_t.
Variable getValuePtr : pointer -> pointer.

Lemma find_value_handle_none
  (value_handle : Handle_t) (characteristics : list pointer) :
  Forall (fun c => c <> nullptr) characteristics ->
  find_value_handle getValueHandle value_handle characteristics = nullptr
  <-> Forall (fun c => getValueHandle c <> value_handle) characteristics.
Proof.
  induction 1 as [| c cs Hc _ IH]; simpl.
  - split; [constructor | reflexivity].
  - destruct (getValueHandle c =? value_handle) eqn:Hvh.
    + apply Z.eqb_eq in Hvh. split; [contradiction |].
      intros Hall. apply Forall_cons in Hall as [Hne _]. contradiction.
    + apply Z.eqb_neq in Hvh. rewrite IH. split.
      * intros Hall. constructor; assumption.
      * intros Hall. apply Forall_cons in Hall as [_ Hall]. exact Hall.
Qed.

Lemma find_value_handle_first
  (value_handle : Handle_t) (characteristics : list pointer) :
  find_value_handle getValueHandle value_handle characteristics <> nullptr ->
  exists before after,
    characteristics
    = before
      ++ find_value_handle getValueHandle value_handle characteristics
      :: after /\
    getValueHandle
      (find_value_handle getValueHandle value_handle characteristics)
    = value_handle /\
    Forall (fun c => getValueHandle c <> value_handle) before.
Proof.
  induction characteristics as [| c cs IH]; simpl; [contradiction |].
  destruct (getValueHandle c =? value_handle) eqn:Hvh.
  - intros _. apply Z.eqb_eq in Hvh. exists [], cs. auto.
  - intros Hfound. apply Z.eqb_neq in Hvh.
    destruct (IH Hfound) as (before & after & Hsplit & Hhandle & Hbefore).
    exists (c :: before), after. simpl. rewrite <- Hsplit.
    split; [reflexivity |]. split; [exact Hhandle |].
    constructor; assumption.
Qed.

(** X19 -- [getCharacteristicWithValueHandle] returns [nullptr] exactly
    when no characteristic of the service has the value handle; otherwise
    it returns a characteristic of the service that has that handle, and
    the first such in creation order. *)
Theorem lookup_returns_first_match
  (value_handle : Handle_t) (s : CGattService) :
  shape s ->
  (getCharacteristicWithValueHandle getValueHandle value_handle s = nullptr
   <-> Forall (fun c => getValueHandle c <> value_handle)
              (_characteristics s)) /\
  (getCharacteristicWithValueHandle getValueHandle value_handle s <> nullptr ->
   exists before after,
     _characteristics s
     = before
       ++ getCharacteristicWithValueHandle getValueHandle value_handle s
       :: after /\
     getValueHandle
       (getCharacteristicWithValueHandle getValueHandle value_handle s)
     = value_handle /\
     Forall (fun c => getValueHandle c <> value_handle) before).
Proof.
  intros (_ & _ & _ & Hchar & _). unfold getCharacteristicWithValueHandle.
  split.
  - apply find_value_handle_none. exact Hchar.
  - apply find_value_handle_first.
Qed.

(** The description search against the characteristic search: the index
    it stops at is the position of the first match. *)
Lemma find_user_description_spec
  (descriptions : list (list pointer)) (value_handle : Handle_t)
  (characteristics : list pointer) (index : nat) :
  Forall (fun c => c <> nullptr) characteristics ->
  (find_value_handle getValueHandle value_handle characteristics = nullptr ->
   find_user_description getValueHandle getValuePtr descriptions
     value_handle characteristics index = Returns nullptr) /\
  (find_value_handle getValueHandle value_handle characteristics <> nullptr ->
   exists j,
     characteristics !! j
     = Some (find_value_handle getValueHandle value_handle characteristics)
     /\
     find_user_description getValueHandle getValuePtr descriptions
       value_handle characteristics index
     = match descriptions !! (index + j)%nat with
       | Some (attribute :: _) => Returns (getValuePtr attribute)
       | _ => Fails OutOfRange
       end).
Proof.
  intros Hall. revert index.
  induction Hall as [| c cs Hc _ IH]; intros index; simpl.
  - split; [reflexivity | contradiction].
  - destruct (getValueHandle c =? value_handle) eqn:Hvh.
    + split; [contradiction |]. intros _. exists 0%nat.
      split; [reflexivity |]. rewrite Nat.add_0_r.
      destruct (descriptions !! index) as [[| attribute rest] |];
        reflexivity.
    + destruct (IH (S index)) as [Hnone Hsome]. split; [exact Hnone |].
      intros Hfound. destruct (Hsome Hfound) as (j & Hj & Hrun).
      exists (S j). split; [exact Hj |].
      rewrite Hrun, Nat.add_succ_r. reflexivity.
Qed.

(** X20 -- [getCharacteristicUserDescription] agrees with
    [getCharacteristicWithValueHandle] on which characteristic is meant:
    it returns [nullptr] when no characteristic has the handle; otherwise
    it looks at the descriptors of the first characteristic with that
    handle, returns the value pointer of its attribute when it was added
    with a description, and throws [std::out_of_range] when it was added
    without one (the header promises [nullptr] for that case). *)
Theorem description_of_first_match
  (value_handle : Handle_t) (s : CGattService) :
  shape s ->
  (getCharacteristicWithValueHandle getValueHandle value_handle s = nullptr ->
   getCharacteristicUserDescription getValueHandle getValuePtr value_handle s
   = Returns nullptr) /\
  (getCharacteristicWithValueHandle getValueHandle value_handle s <> nullptr ->
   exists index descriptors,
     _characteristics s !! index
     = Some (getCharacteristicWithValueHandle getValueHandle value_handle s)
     /\
     _characteristics_user_descriptions s !! index = Some descriptors /\
     getCharacteristicUserDescription getValueHandle getValuePtr
       value_handle s
     = match descriptors with
       | [] => Fails OutOfRange
       | attribute :: _ => Returns (getValuePtr attribute)
       end).
Proof.
  intros (Hlen & _ & _ & Hchar & _).
  unfold getCharacteristicWithValueHandle, getCharacteristicUserDescription.
  destruct (find_user_description_spec
              (_characteristics_user_descriptions s) value_handle
              (_characteristics s) 0 Hchar) as [Hnone Hsome].
  split; [exact Hnone |]. intros Hfound.
  destruct (Hsome Hfound) as (j & Hj & Hrun). simpl in Hrun.
  assert (Hlt : (j < length (_characteristics_user_descriptions s))%nat).
  { rewrite Hlen. apply lookup_lt_is_Some. eauto. }
  apply lookup_lt_is_Some in Hlt as [descriptors Hd].
  exists j, descriptors. rewrite Hrun, Hd.
  split; [exact Hj |]. split; [reflexivity |].
  destruct descriptors; reflexivity.
Qed.

Lemma find_value_handle_app
  (value_handle : Handle_t) (characteristics : list pointer)
  (characteristic : pointer) :
  Forall (fun c => c <> nullptr) characteristics ->
  find_value_handle getValueHandle value_handle
    (characteristics ++ [characteristic])
  = if find_value_handle getValueHandle value_handle characteristics
       =? nullptr
    then (if getValueHandle characteristic =? value_handle
          then characteristic else nullptr)
    else find_value_handle getValueHandle value_handle characteristics.
Proof.
  induction 1 as [| c cs Hc _ IH]; simpl; [reflexivity |].
  destruct (getValueHandle c =? value_handle); [| exact IH].
  apply Z.eqb_neq in Hc. rewrite Hc. reflexivity.
Qed.

Lemma find_user_description_other
  (descriptions : list (list pointer)) (descriptors : list pointer)
  (value_handle : Handle_t) (characteristic : pointer)
  (characteristics : list pointer) (index : nat) :
  (index + length characteristics)%nat = length descriptions ->
  getValueHandle characteristic <> value_handle ->
  find_user_description getValueHandle getValuePtr
    (descriptions ++ [descriptors]) value_handle
    (characteristics ++ [characteristic]) index
  = find_user_description getValueHandle getValuePtr descriptions
      value_handle characteristics index.
Proof.
  intros Hlen Hother. apply Z.eqb_neq in Hother. revert index Hlen.
  induction characteristics as [| c cs IH]; intros index Hlen; simpl.
  - rewrite Hother. reflexivity.
  - destruct (getValueHandle c =? value_handle).
    + rewrite lookup_app_l by (simpl in Hlen; lia). reflexivity.
    + apply IH. simpl in Hlen. lia.
Qed.

Lemma find_user_description_new
  (descriptions : list (list pointer)) (descriptors : list pointer)
  (characteristic : pointer) (characteristics : list pointer) (index : nat) :
  (index + length characteristics)%nat = length descriptions ->
  Forall (fun c => getValueHandle c <> getValueHandle characteristic)
         characteristics ->
  find_user_description getValueHandle getValuePtr
    (descriptions ++ [descriptors]) (getValueHandle characteristic)
    (characteristics ++ [characteristic]) index
  = match descriptors with
    | [] => Fails OutOfRange
    | attribute :: _ => Returns (getValuePtr attribute)
    end.
Proof.
  intros Hlen Hfresh. revert index Hlen.
  induction Hfresh as [| c cs Hc _ IH]; intros index Hlen; simpl.
  - rewrite Z.eqb_refl. simpl in Hlen. rewrite Nat.add_0_r in Hlen.
    subst index. rewrite lookup_app_r, Nat.sub_diag by lia. simpl.
    destruct descriptors; reflexivity.
  - apply Z.eqb_neq in Hc. rewrite Hc. apply IH. simpl in Hlen. lia.
Qed.

(** X21 -- Adding a characteristic and looking it up: on a service that is
    not created yet, [addCharacteristic] with non-null allocations returns
    [true]; if no earlier characteristic has the value handle of the new
    one, the new characteristic is what
    [getCharacteristicWithValueHandle] then returns for that handle, and
    [getCharacteristicUserDescription] returns the value pointer of the
    new attribute, or throws when the characteristic was added with a
    null description.  Both lookups answer as before for every other
    handle. *)
Theorem add_then_lookup
  (user_description attribute characteristic : pointer) (s : CGattService) :
  shape s -> created s = false ->
  characteristic <> nullptr ->
  (user_description <> nullptr -> attribute <> nullptr) ->
  Forall (fun c => getValueHandle c <> getValueHandle characteristic)
         (_characteristics s) ->
  exists s',
    addCharacteristic user_description attribute characteristic s
    = Returns (true, s') /\
    getCharacteristicWithValueHandle getValueHandle
      (getValueHandle characteristic) s' = characteristic /\
    getCharacteristicUserDescription getValueHandle getValuePtr
      (getValueHandle characteristic) s'
    = (if user_description =? nullptr then Fails OutOfRange
       else Returns (getValuePtr attribute)) /\
    (forall value_handle,
       value_handle <> getValueHandle characteristic ->
       getCharacteristicWithValueHandle getValueHandle value_handle s'
       = getCharacteristicWithValueHandle getValueHandle value_handle s /\
       getCharacteristicUserDescription getValueHandle getValuePtr
         value_handle s'
       = getCharacteristicUserDescription getValueHandle getValuePtr
           value_handle s).
Proof.
  intros (Hlen & _ & _ & Hchar & _) Hnew Hc Ha Hfresh.
  unfold created in Hnew.
  destruct (_service s) as [service |] eqn:Hservice; [discriminate |].
  apply Z.eqb_neq in Hc.
  exists (mk_CGattService
            (_characteristics_user_descriptions s
             ++ [if user_description =? nullptr then [] else [attribute]])
            (_characteristics s ++ [characteristic]) None).
  split.
  { unfold addCharacteristic. rewrite Hservice, Hc.
    destruct (user_description =? nullptr) eqn:Hud; [reflexivity |].
    apply Z.eqb_neq in Hud. apply Ha, Z.eqb_neq in Hud. simpl.
    rewrite Hud. reflexivity. }
  unfold getCharacteristicWithValueHandle, getCharacteristicUserDescription.
  simpl. split; [| split].
  - rewrite (find_value_handle_app _ _ _ Hchar), Z.eqb_refl.
    apply (find_value_handle_none (getValueHandle characteristic)) in Hfresh;
      [| exact Hchar].
    rewrite Hfresh. reflexivity.
  - rewrite find_user_description_new by (simpl; auto).
    destruct (user_description =? nullptr); reflexivity.
  - intros value_handle Hother. split.
    + rewrite (find_value_handle_app _ _ _ Hchar).
      replace (getValueHandle characteristic =? value_handle) with false
        by (symmetry; apply Z.eqb_neq; congruence).
      destruct (find_value_handle getValueHandle value_handle
                  (_characteristics s) =? nullptr) eqn:Hfound;
        [apply Z.eqb_eq in Hfound; congruence | reflexivity].
    + apply find_user_description_other; [simpl; auto | congruence].
Qed.

End Lookups.

Lemma add_then_lookup_witness :
  exists s',
    addCharacteristic 7 503 103 two_characteristics = Returns (true, s') /\
    getCharacteristicWithValueHandle example_handle (example_handle 103) s'
    = 103 /\
    getCharacteristicUserDescription example_handle example_value
      (example_handle 103) s'
    = (if 7 =? nullptr then Fails OutOfRange
       else Returns (example_value 503)) /\
    (forall value_handle,
       value_handle <> example_handle 103 ->
       getCharacteristicWithValueHandle example_handle value_handle s'
       = getCharacteristicWithValueHandle example_handle value_handle
           two_characteristics /\
       getCharacteristicUserDescription example_handle example_value
         value_handle s'
       = getCharacteristicUserDescription example_handle example_value
           value_handle two_characteristics).
Proof.
  apply (add_then_lookup example_handle example_value 7 503 103
           two_characteristics).
  - exact two_characteristics_shape.
  - reflexivity.
  - discriminate.
  - discriminate.
  - repeat constructor; discriminate.
Defined.

Lemma lookup_returns_first_match_witness :
  (getCharacteristicWithValueHandle example_handle 112 two_characteristics
   = nullptr
   <-> Forall (fun c => example_handle c <> 112)
              (_characteristics two_characteristics)) /\
  (getCharacteristicWithValueHandle example_handle 112 two_characteristics
   <> nullptr ->
   exists before after,
     _characteristics two_characteristics
     = before
       ++ getCharacteristicWithValueHandle example_handle 112
            two_characteristics
       :: after /\
     example_handle
       (getCharacteristicWithValueHandle example_handle 112
          two_characteristics)
     = 112 /\
     Forall (fun c => example_handle c <> 112) before).
Proof.
  apply (lookup_returns_first_match example_handle 112 two_characteristics).
  exact two_characteristics_shape.
Defined.

Lemma description_of_first_match_witness :
  (getCharacteristicWithValueHandle example_handle 112 two_characteristics
   = nullptr ->
   getCharacteristicUserDescription example_handle example_value 112
     two_characteristics
   = Returns nullptr) /\
  (getCharacteristicWithValueHandle example_handle 112 two_characteristics
   <> nullptr ->
   exists index descriptors,
     _characteristics two_characteristics !! index
     = Some (getCharacteristicWithValueHandle example_handle 112
               two_characteristics)
     /\
     _characteristics_user_descriptions two_characteristics !! index
     = Some descriptors /\
     getCharacteristicUserDescription example_handle example_value 112
       two_characteristics
     = match descriptors with
       | [] => Fails OutOfRange
       | attribute :: _ => Returns (example_value attribute)
       end).
Proof.
  apply (description_of_first_match example_handle example_value 112
           two_characteristics).
  exact two_characteristics_shape.
Defined.

(** X22 -- Creation is final.  Whatever calls of [addCharacteristic] and
    [createService] return afterwards, a created service is the object it
    was when it was created: the vector whose storage the [GattService]
    points into is never extended, every later [addCharacteristic] returns
    [false] and every later [createService] fails its assertion.  Before
    creation the characteristics only grow, by appending. *)
Theorem creation_is_final (s s' : CGattService) :
  evolves s s' ->
  _characteristics s `prefix_of` _characteristics s' /\
  (created s = true ->
   s' = s /\
   (forall user_description attribute characteristic,
      addCharacteristic user_description attribute characteristic s'
      = Returns (false, s')) /\
   (forall uuid, createService uuid s' = Fails AssertionFailed)).
Proof.
  intros Hevolves.
  assert (Hfinal : _characteristics s `prefix_of` _characteristics s' /\
                   (created s = true -> s' = s)).
  { induction Hevolves as [| ud a c s1 s2 added _ IH Hrun
                           | uuid s1 s2 error _ IH Hrun].
    - split; reflexivity.
    - destruct IH as [Hprefix Hsame].
      apply addCharacteristic_returns in Hrun
        as [(_ & _ & ->) | (Hnew & _ & _ & _ & ->)]; [auto |].
      simpl. split.
      + etransitivity; [exact Hprefix |]. apply prefix_app_r. reflexivity.
      + intros Hcreated. rewrite (Hsame Hcreated) in Hnew. congruence.
    - destruct IH as [Hprefix Hsame].
      apply createService_returns in Hrun
        as (Hnew & [(_ & _ & ->) | (_ & _ & ->)]); [auto |].
      simpl. split; [exact Hprefix |].
      intros Hcreated. rewrite (Hsame Hcreated) in Hnew. congruence. }
  destruct Hfinal as [Hprefix Hsame]. split; [exact Hprefix |].
  intros Hcreated. rewrite (Hsame Hcreated).
  split; [reflexivity |].
  unfold created in Hcreated. unfold addCharacteristic, createService, created.
  destruct (_service s); [| discriminate]. split; reflexivity.
Qed.

Lemma creation_is_final_witness :
  created created_service = true /\
  (created_service = created_service /\
   (forall user_description attribute characteristic,
      addCharacteristic user_description attribute characteristic
        created_service
      = Returns (false, created_service)) /\
   (forall uuid, createService uuid created_service = Fails AssertionFailed)).
Proof.
  split; [reflexivity |].
  apply (proj2 (creation_is_final created_service created_service
                  (evolves_addCharacteristic created_service 7 502 102
                     created_service created_service false
                     (evolves_here created_service) eq_refl))).
  reflexivity.
Defined.

End CGattService_properties.

(** * Properties of the Immediate Alert service *)
Module CImmediateAlertService_properties.

Import CGattService CImmediateAlertService.

Lemma constructor_returns
  (description attribute characteristic : pointer)
  (s : CImmediateAlertService) :
  constructor description attribute characteristic = Returns s ->
  s = built description attribute characteristic.
Proof.
  unfold constructor, built, CGattService.constructor, addCharacteristic.
  cbn -[Z.eqb].
  destruct (description =? nullptr); cbn -[Z.eqb].
  - destruct (characteristic =? nullptr); cbn -[Z.eqb]; [discriminate |].
    intros [= <-]. reflexivity.
  - destruct (attribute =? nullptr); cbn -[Z.eqb]; [discriminate |].
    destruct (characteristic =? nullptr); cbn -[Z.eqb]; [discriminate |].
    intros [= <-]. reflexivity.
Qed.

(** X23 -- The constructor of the Immediate Alert service returns exactly
    when the allocations succeed (the characteristic is not null, nor the
    attribute when the description string is not null), and fails an
    assertion otherwise.  The object it returns is a created service with
    one characteristic, the LED written with 1.0 (off), both level members
    at NO_ALERT and nothing written to the GATT server; with a null
    description string the characteristic has no descriptor. *)
Theorem constructor_outcome (description attribute characteristic : pointer) :
  (characteristic <> nullptr ->
   (description <> nullptr -> attribute <> nullptr) ->
   exists s,
     constructor description attribute characteristic = Returns s /\
     created (base s) = true /\
     _characteristics (base s) = [characteristic] /\
     _characteristics_user_descriptions (base s)
     = [if description =? nullptr then [] else [attribute]] /\
     _led s = DUTY_1_0 /\
     _alert_level s = IAS_ALERT_LEVEL_NO_ALERT /\
     _alert_level_value s = IAS_ALERT_LEVEL_NO_ALERT /\
     gatt_server_writes s = []) /\
  (characteristic = nullptr \/
   description <> nullptr /\ attribute = nullptr ->
   constructor description attribute characteristic
   = Fails AssertionFailed).
Proof.
  split.
  - intros Hc Ha. exists (built description attribute characteristic).
    split; [| repeat split].
    apply Z.eqb_neq in Hc.
    unfold constructor, CGattService.constructor, addCharacteristic, built.
    cbn -[Z.eqb].
    destruct (description =? nullptr) eqn:Hd; cbn -[Z.eqb].
    + rewrite Hc. reflexivity.
    + apply Z.eqb_neq in Hd. apply Ha, Z.eqb_neq in Hd.
      rewrite Hd. cbn -[Z.eqb]. rewrite Hc. reflexivity.
  - unfold constructor, CGattService.constructor, addCharacteristic.
    cbn -[Z.eqb].
    intros [-> | [Hd ->]].
    + destruct (description =? nullptr); cbn -[Z.eqb]; [reflexivity |].
      destruct (attribute =? nullptr); reflexivity.
    + apply Z.eqb_neq in Hd. rewrite Hd. reflexivity.
Qed.

Lemma constructor_outcome_witness :
  (exists s,
     constructor 7 501 101 = Returns s /\
     created (base s) = true /\
     _characteristics (base s) = [101] /\
     _characteristics_user_descriptions (base s)
     = [if 7 =? nullptr then [] else [501]] /\
     _led s = DUTY_1_0 /\
     _alert_level s = IAS_ALERT_LEVEL_NO_ALERT /\
     _alert_level_value s = IAS_ALERT_LEVEL_NO_ALERT /\
     gatt_server_writes s = []) /\
  constructor 7 0 101 = Fails AssertionFailed.
Proof.
  split.
  - apply (proj1 (constructor_outcome 7 501 101)); discriminate.
  - apply (proj2 (constructor_outcome 7 0 101)). right.
    split; [discriminate | reflexivity].
Defined.


Lemma led_for_level_frame (level : Z) (s : CImmediateAlertService) :
  base (led_for_level level s) = base s /\
  _alert_level (led_for_level level s) = _alert_level s /\
  _alert_level_value (led_for_level level s) = _alert_level_value s /\
  gatt_server_writes (led_for_level level s) = gatt_server_writes s.
Proof.
  destruct level as [| [p | p |] | p]; try (repeat split; fail);
    destruct p; repeat split.
Qed.

Lemma onDataWrittenHandler_returns
  (getValueHandle : pointer -> Handle_t)
  (characteristic : pointer) (data : list Z) (size : Z)
  (s s' : CImmediateAlertService) :
  onDataWrittenHandler getValueHandle characteristic data size s
  = Returns s' ->
  exists level rest,
    data = level :: rest /\ zero_terminated data = true /\
    s' = led_for_level level s.
Proof.
  unfold onDataWrittenHandler, print_c_string. cbv zeta. intros Hrun.
  apply CGattService_properties.and_then_returns in Hrun as (u & _ & Hrun).
  destruct (zero_terminated data); [| discriminate]. simpl in Hrun.
  destruct data as [| level rest]; [discriminate |].
  injection Hrun as <-. eauto.
Qed.



Lemma write_alert_level_returns
  (getValueHandle : pointer -> Handle_t) (s s' : CImmediateAlertService) :
  write_alert_level getValueHandle s = Returns s' ->
  exists characteristic,
    _characteristics (base s) !! 0%nat = Some characteristic /\
    s' = log_write (mk_gatt_write (getValueHandle characteristic)
                                  (_alert_level_value s)) s.
Proof.
  unfold write_alert_level.
  destruct (_characteristics (base s) !! 0%nat) as [c |]; [| discriminate].
  intros [= <-]. eauto.
Qed.

(** X25 -- In every object the Immediate Alert service reaches,
    [_alert_level_value] equals [_alert_level] and both are NO_ALERT or
    MEDIUM, never HIGH, whatever the peer has written; the service is
    created and has exactly one characteristic. *)
Theorem reachable_levels (s : CImmediateAlertService) :
  reachable s ->
  _alert_level_value s = _alert_level s /\
  (_alert_level s = IAS_ALERT_LEVEL_NO_ALERT \/
   _alert_level s = IAS_ALERT_LEVEL_MEDIUM) /\
  created (base s) = true /\
  length (_characteristics (base s)) = 1%nat.
Proof.
  induction 1 as [d a c s Hrun
                 | h s s' _ IH Hrun
                 | h s s' _ IH Hrun
                 | h c data size s s' _ IH Hrun].
  - apply constructor_returns in Hrun as ->. simpl. auto.
  - apply write_alert_level_returns in Hrun as (c & _ & ->). simpl.
    destruct IH as (_ & _ & Hcreated & Hone). auto.
  - apply write_alert_level_returns in Hrun as (c & _ & ->). simpl.
    destruct IH as (_ & _ & Hcreated & Hone). auto.
  - apply onDataWrittenHandler_returns in Hrun
      as (level & rest & _ & _ & ->).
    destruct (led_for_level_frame level s) as (-> & -> & -> & _).
    exact IH.
Qed.

Lemma immediate_alert_reachable : reachable constructed.
Proof.
  apply (reachable_constructor 7 501 101). reflexivity.
Qed.

Lemma reachable_levels_witness :
  _alert_level_value constructed = _alert_level constructed /\
  (_alert_level constructed = IAS_ALERT_LEVEL_NO_ALERT \/
   _alert_level constructed = IAS_ALERT_LEVEL_MEDIUM) /\
  created (base constructed) = true /\
  length (_characteristics (base constructed)) = 1%nat.
Proof.
  apply (reachable_levels constructed). exact immediate_alert_reachable.
Defined.

(** X26 -- Connection events never touch the LED.  With a characteristic
    at position 0, [onConnected] sets the level to NO_ALERT and
    [onDisconnected] sets it to MEDIUM, each writes that level to the
    value handle of that characteristic, and the LED keeps the duty cycle
    of the last write: after a disconnection the level says MEDIUM
    whatever the LED shows.  Without a characteristic both calls index an
    empty vector. *)
Theorem connection_events_keep_led
  (getValueHandle : pointer -> Handle_t) (s : CImmediateAlertService) :
  (forall characteristic,
     _characteristics (base s) !! 0%nat = Some characteristic ->
     (exists s',
        onConnected getValueHandle s = Returns s' /\
        _led s' = _led s /\
        _alert_level s' = IAS_ALERT_LEVEL_NO_ALERT /\
        gatt_server_writes s'
        = gatt_server_writes s
          ++ [mk_gatt_write (getValueHandle characteristic)
                            IAS_ALERT_LEVEL_NO_ALERT] /\
        base s' = base s) /\
     (exists s',
        onDisconnected getValueHandle s = Returns s' /\
        _led s' = _led s /\
        _alert_level s' = IAS_ALERT_LEVEL_MEDIUM /\
        gatt_server_writes s'
        = gatt_server_writes s
          ++ [mk_gatt_write (getValueHandle characteristic)
                            IAS_ALERT_LEVEL_MEDIUM] /\
        base s' = base s)) /\
  (_characteristics (base s) = [] ->
   onConnected getValueHandle s = Fails NullDereference /\
   onDisconnected getValueHandle s = Fails NullDereference).
Proof.
  split.
  - intros c Hc. split.
    + eexists. split.
      * unfold onConnected, write_alert_level. simpl. rewrite Hc.
        reflexivity.
      * simpl. auto.
    + eexists. split.
      * unfold onDisconnected, write_alert_level. simpl. rewrite Hc.
        reflexivity.
      * simpl. auto.
  - intros Hnone. unfold onConnected, onDisconnected, write_alert_level.
    simpl. rewrite Hnone. auto.
Qed.

Lemma connection_events_keep_led_witness :
  (exists s',
     onConnected example_handle constructed = Returns s' /\
     _led s' = _led constructed /\
     _alert_level s' = IAS_ALERT_LEVEL_NO_ALERT /\
     gatt_server_writes s'
     = gatt_server_writes constructed
       ++ [mk_gatt_write (example_handle 101) IAS_ALERT_LEVEL_NO_ALERT] /\
     base s' = base constructed) /\
  (exists s',
     onDisconnected example_handle constructed = Returns s' /\
     _led s' = _led constructed /\
     _alert_level s' = IAS_ALERT_LEVEL_MEDIUM /\
     gatt_server_writes s'
     = gatt_server_writes constructed
       ++ [mk_gatt_write (example_handle 101) IAS_ALERT_LEVEL_MEDIUM] /\
     base s' = base constructed).
Proof.
  apply (proj1 (connection_events_keep_led example_handle constructed) 101).
  reflexivity.
Defined.

End CImmediateAlertService_properties.

(** * Properties of the GATT server *)
Module CGattServer_properties.

Import CGattService CGattServer.

Section Server.

Context {S : Type} {service_class : Service S}.

Variable getValueHandle : pointer -> Handle_t.
Variable getValuePtr : pointer -> pointer.

Lemma keeps_created_refl (heap : list S) : keeps_created heap heap.
Proof.
  intros i object Hi Hcreated. eauto.
Qed.

Lemma keeps_created_trans (heap1 heap2 heap3 : list S) :
  keeps_created heap1 heap2 -> keeps_created heap2 heap3 ->
  keeps_created heap1 heap3.
Proof.
  intros H12 H23 i object Hi Hcreated.
  destruct (H12 i object Hi Hcreated) as (object' & Hi' & Hcreated').
  exact (H23 i object' Hi' Hcreated').
Qed.

Lemma keeps_created_insert (heap : list S) (i : nat) (object object' : S) :
  heap !! i = Some object ->
  (created (base object) = true -> created (base object') = true) ->
  keeps_created heap (<[i := object']> heap).
Proof.
  intros Hi Hkeep j other Hj Hcreated.
  destruct (decide (j = i)) as [-> | Hne].
  - exists object'. split.
    + apply list_lookup_insert_eq. apply lookup_lt_is_Some. eauto.
    + apply Hkeep. congruence.
  - exists other. split; [| exact Hcreated].
    rewrite list_lookup_insert_ne by congruence. exact Hj.
Qed.

Lemma for_each_service_keeps
  (event : S -> outcome S) (services : list nat) (heap heap' : list S) :
  (forall object object',
     event object = Returns object' ->
     created (base object) = true -> created (base object') = true) ->
  for_each_service event services heap = Returns heap' ->
  keeps_created heap heap'.
Proof.
  intros Hevent. revert heap.
  induction services as [| i rest IH]; intros heap; simpl.
  - intros [= <-]. apply keeps_created_refl.
  - destruct (heap !! i) as [object |] eqn:Hi; [| discriminate].
    destruct (event object) as [object' | f] eqn:Hrun; [| discriminate].
    simpl. intros Hrest.
    eapply keeps_created_trans; [| exact (IH _ Hrest)].
    apply (keeps_created_insert heap i object object' Hi).
    exact (Hevent object object' Hrun).
Qed.

Lemma dispatch_write_keeps
  (value_handle : Handle_t) (data : list Z) (len : Z)
  (services : list nat) (heap heap' : list S) :
  events_keep_created ->
  dispatch_write getValueHandle getValuePtr value_handle data len
    services heap = Returns heap' ->
  keeps_created heap heap'.
Proof.
  intros Hlaw.
  induction services as [| i rest IH]; simpl.
  - intros [= <-]. apply keeps_created_refl.
  - destruct (heap !! i) as [object |] eqn:Hi; [| discriminate].
    destruct (_ =? nullptr); [exact IH |].
    destruct (getCharacteristicUserDescription _ _ _ _) as [d | f];
      [| discriminate].
    simpl. destruct (d =? nullptr); [exact IH |].
    destruct (onDataWrittenHandler _ data len object) as [object' | f]
      eqn:Hrun; [| discriminate].
    simpl. intros [= <-].
    apply (keeps_created_insert heap i object object' Hi).
    intros Hcreated. apply (Hlaw object object' Hcreated). eauto 6.
Qed.

Lemma all_created_keeps (heap heap' : list S) (srv : CGattServer) :
  keeps_created heap heap' -> all_created heap srv -> all_created heap' srv.
Proof.
  intros Hkeep Hall. unfold all_created in *.
  eapply Forall_impl; [exact Hall |].
  intros i (object & Hi & Hcreated). exact (Hkeep i object Hi Hcreated).
Qed.

(** What a returning [addService] has done. *)
Lemma addService_returns
  (service : nat) (heap : list S) (srv srv' : CGattServer) (added : bool) :
  addService service heap srv = Returns (added, srv') ->
  (added = false /\ srv' = srv) \/
  (added = true /\ _started srv = false /\
   (exists object,
      heap !! service = Some object /\ created (base object) = true) /\
   srv' = mk_CGattServer (_services srv ++ [service]) false).
Proof.
  unfold addService. destruct (_started srv) eqn:Hstarted.
  - intros [= <- <-]. auto.
  - destruct (heap !! service) as [object |] eqn:Hservice; [| discriminate].
    destruct (created (base object)) eqn:Hcreated; simpl.
    + intros [= <- <-]. right. eauto 6.
    + intros [= <- <-]. auto.
Qed.

Lemma startServer_returns
  (heap : list S) (srv srv' : CGattServer)
  (registered registered' : list GattService) :
  startServer heap registered srv = Returns (srv', registered') ->
  srv' = srv.
Proof.
  unfold startServer.
  destruct (register_all _ heap registered); simpl; [| discriminate].
  intros [= <- _]. reflexivity.
Qed.

(** X27 -- No operation of the server sets [_started]: it is [false] in
    every server the program reaches, so [addService] never refuses a
    service for that reason, also after [startServer].  And every service
    the server lists is an object of the store that has been created,
    whatever events the services have handled since they were added. *)
Theorem server_never_started
  (heap : list S) (srv : CGattServer) (registered : list GattService) :
  events_keep_created ->
  reachable getValueHandle getValuePtr heap srv registered ->
  _started srv = false /\ all_created heap srv.
Proof.
  intros Hlaw.
  induction 1 as [heap
                 | service heap srv srv' added registered _ IH Hrun
                 | heap srv srv' registered registered' _ IH Hrun
                 | heap heap' srv registered _ IH Hrun
                 | heap heap' srv registered _ IH Hrun
                 | vh data len heap heap' srv registered _ IH Hrun
                 | heap heap' srv registered _ IH Hkeep].
  - split; [reflexivity | constructor].
  - destruct IH as [Hstarted Hall].
    apply addService_returns in Hrun
      as [(_ & ->) | (_ & _ & Hobject & ->)]; [auto |].
    split; [reflexivity |]. unfold all_created. simpl.
    apply Forall_app. split; [exact Hall |]. constructor; [exact Hobject |].
    constructor.
  - apply startServer_returns in Hrun as ->. exact IH.
  - destruct IH as [Hstarted Hall]. split; [exact Hstarted |].
    apply (all_created_keeps heap); [| exact Hall].
    apply (for_each_service_keeps onConnected (_services srv));
      [| exact Hrun].
    intros object object' Hevent Hcreated.
    apply (Hlaw object object' Hcreated). auto.
  - destruct IH as [Hstarted Hall]. split; [exact Hstarted |].
    apply (all_created_keeps heap); [| exact Hall].
    apply (for_each_service_keeps onDisconnected (_services srv));
      [| exact Hrun].
    intros object object' Hevent Hcreated.
    apply (Hlaw object object' Hcreated). auto.
  - destruct IH as [Hstarted Hall]. split; [exact Hstarted |].
    apply (all_created_keeps heap); [| exact Hall].
    exact (dispatch_write_keeps vh data len _ heap heap' Hlaw Hrun).
  - destruct IH as [Hstarted Hall]. split; [exact Hstarted |].
    exact (all_created_keeps heap heap' srv Hkeep Hall).
Qed.

(** The [GattService] objects of the listed services, in list order. *)
Lemma register_all_returns
  (services : list nat) (heap : list S) (registered : list GattService) :
  Forall (fun i => exists object,
            heap !! i = Some object /\ created (base object) = true)
         services ->
  exists added,
    register_all services heap registered = Returns (registered ++ added) /\
    Forall2 (fun i service =>
               exists object,
                 heap !! i = Some object /\
                 _service (base object) = Some service)
            services added.
Proof.
  intros Hall. revert registered.
  induction Hall as [| i rest (object & Hi & Hcreated) _ IH];
    intros registered; simpl.
  - exists []. rewrite app_nil_r. split; [reflexivity | constructor].
  - rewrite Hi. unfold registerService, created in *.
    destruct (_service (base object)) as [service |] eqn:Hservice;
      [| discriminate].
    simpl. destruct (IH (registered ++ [service])) as (added & Hrun & Hall2).
    exists (service :: added). rewrite Hrun, <- app_assoc.
    split; [reflexivity |]. constructor; [eauto | exact Hall2].
Qed.

(** X28 -- When every listed service is a created object, [startServer]
    returns: it registers the [GattService] of each listed service, once
    per listing and in list order, after what was registered before, and
    leaves the server as it was.  [_started] is still [false], so a
    created service passed to [addService] afterwards is accepted and
    listed, although nothing will register it. *)
Theorem start_registers_listed
  (heap : list S) (srv : CGattServer) (registered : list GattService)
  (service : nat) (object : S) :
  _started srv = false -> all_created heap srv ->
  heap !! service = Some object -> created (base object) = true ->
  exists added,
    startServer heap registered srv = Returns (srv, registered ++ added) /\
    Forall2 (fun i registered_service =>
               exists listed,
                 heap !! i = Some listed /\
                 _service (base listed) = Some registered_service)
            (_services srv) added /\
    addService service heap srv
    = Returns (true, mk_CGattServer (_services srv ++ [service]) false).
Proof.
  intros Hstarted Hall Hservice Hcreated.
  destruct (register_all_returns (_services srv) heap registered Hall)
    as (added & Hrun & Hall2).
  exists added. split; [| split; [exact Hall2 |]].
  - unfold startServer. rewrite Hrun. reflexivity.
  - unfold addService. rewrite Hstarted, Hservice, Hcreated. reflexivity.
Qed.

Lemma dispatch_write_skips
  (value_handle : Handle_t) (data : list Z) (len : Z)
  (before rest : list nat) (heap : list S) :
  Forall (fun j => exists other,
            heap !! j = Some other /\
            passed_over getValueHandle getValuePtr value_handle other = true)
         before ->
  dispatch_write getValueHandle getValuePtr value_handle data len
    (before ++ rest) heap
  = dispatch_write getValueHandle getValuePtr value_handle data len
      rest heap.
Proof.
  induction 1 as [| j before (other & Hj & Hskip) _ IH]; simpl;
    [reflexivity |].
  rewrite Hj. unfold passed_over, owns in Hskip.
  destruct (_ =? nullptr); [exact IH |]. simpl in Hskip.
  destruct (getCharacteristicUserDescription _ _ _ _) as [user_desc | f];
    [| discriminate].
  simpl. rewrite Hskip. exact IH.
Qed.

(** X29 -- [onDataWritten] hands the write to one service at most.  The
    search passes over every listed service that has no characteristic
    with the value handle, and also over one that has it but returns a
    null description for it.  The first service that is not passed over
    gets the write: its handler runs with the characteristic found and
    the store changes at that service only, or the failure of the handler
    leaves [onDataWritten]; when the description lookup of that service
    throws, the exception leaves [onDataWritten] and no later service is
    tried.  When every listed service is passed over the store is
    unchanged. *)
Theorem write_goes_to_first_owner
  (value_handle : Handle_t) (data : list Z) (len : Z)
  (heap : list S) (srv : CGattServer) :
  (Forall (fun j => exists other,
             heap !! j = Some other /\
             passed_over getValueHandle getValuePtr value_handle other
             = true)
          (_services srv) ->
   onDataWritten getValueHandle getValuePtr value_handle data len heap srv
   = Returns heap) /\
  (forall before i after object,
     _services srv = before ++ i :: after ->
     Forall (fun j => exists other,
               heap !! j = Some other /\
               passed_over getValueHandle getValuePtr value_handle other
               = true) before ->
     heap !! i = Some object ->
     owns getValueHandle value_handle object = true ->
     (forall user_desc,
        getCharacteristicUserDescription getValueHandle getValuePtr
          value_handle (base object) = Returns user_desc ->
        user_desc <> nullptr ->
        onDataWritten getValueHandle getValuePtr value_handle data len
          heap srv
        = match onDataWrittenHandler
                  (getCharacteristicWithValueHandle getValueHandle
                     value_handle (base object)) data len object with
          | Returns object' => Returns (<[i := object']> heap)
          | Fails f => Fails f
          end) /\
     (forall f,
        getCharacteristicUserDescription getValueHandle getValuePtr
          value_handle (base object) = Fails f ->
        onDataWritten getValueHandle getValuePtr value_handle data len
          heap srv
        = Fails f)).
Proof.
  unfold onDataWritten. split.
  - intros Hnone.
    rewrite <- (app_nil_r (_services srv)).
    rewrite (dispatch_write_skips _ _ _ _ [] heap Hnone). reflexivity.
  - intros before i after object -> Hbefore Hi Howner.
    rewrite (dispatch_write_skips _ _ _ _ (i :: after) heap Hbefore).
    simpl. rewrite Hi. unfold owns in Howner.
    apply negb_true_iff in Howner. rewrite Howner. split.
    + intros user_desc -> Hdesc. simpl.
      apply Z.eqb_neq in Hdesc. rewrite Hdesc.
      destruct (onDataWrittenHandler _ data len object); reflexivity.
    + intros f ->. reflexivity.
Qed.

End Server.

(** The Immediate Alert service never touches its base-class part after
    construction. *)
Lemma immediate_alert_events_keep_base
  (getValueHandle : pointer -> Handle_t)
  (object object' : CImmediateAlertService.CImmediateAlertService) :
  (CImmediateAlertService.onConnected getValueHandle object
   = Returns object' \/
   CImmediateAlertService.onDisconnected getValueHandle object
   = Returns object' \/
   exists characteristic data len,
     CImmediateAlertService.onDataWrittenHandler getValueHandle
       characteristic data len object
     = Returns object') ->
  CImmediateAlertService.base object' = CImmediateAlertService.base object.
Proof.
  intros [Hrun | [Hrun | (c & data & len & Hrun)]].
  - apply CImmediateAlertService_properties.write_alert_level_returns
      in Hrun as (c & _ & ->).
    reflexivity.
  - apply CImmediateAlertService_properties.write_alert_level_returns
      in Hrun as (c & _ & ->).
    reflexivity.
  - apply CImmediateAlertService_properties.onDataWrittenHandler_returns
      in Hrun as (level & rest & _ & _ & ->).
    apply CImmediateAlertService_properties.led_for_level_frame.
Qed.

Lemma immediate_alert_events_keep_created
  (getValueHandle : pointer -> Handle_t) :
  events_keep_created (service_class := immediate_alert_service getValueHandle).
Proof.
  intros object object' Hcreated Hevent. simpl in *.
  rewrite (immediate_alert_events_keep_base getValueHandle object object');
    [exact Hcreated | exact Hevent].
Qed.

Lemma alert_server_reachable :
  reachable (service_class := immediate_alert_service example_handle)
    example_handle example_value
    [CImmediateAlertService.constructed] alert_server [].
Proof.
  apply (reachable_addService example_handle example_value 0
           [CImmediateAlertService.constructed] constructor _ true);
    [apply reachable_constructor | reflexivity].
Qed.

Lemma server_never_started_witness :
  _started alert_server = false /\
  all_created (service_class := immediate_alert_service example_handle)
    [CImmediateAlertService.constructed] alert_server.
Proof.
  apply (server_never_started
           (service_class := immediate_alert_service example_handle)
           example_handle example_value
           [CImmediateAlertService.constructed] alert_server []).
  - apply immediate_alert_events_keep_created.
  - exact alert_server_reachable.
Defined.

Lemma alert_server_all_created :
  all_created (service_class := immediate_alert_service example_handle)
    [CImmediateAlertService.constructed] alert_server.
Proof.
  constructor; [| constructor].
  exists CImmediateAlertService.constructed. split; reflexivity.
Qed.

Lemma start_registers_listed_witness :
  exists added,
    startServer (service_class := immediate_alert_service example_handle)
      [CImmediateAlertService.constructed] [] alert_server
    = Returns (alert_server, [] ++ added) /\
    Forall2 (fun i registered_service =>
               exists listed,
                 [CImmediateAlertService.constructed] !! i = Some listed /\
                 _service (CImmediateAlertService.base listed)
                 = Some registered_service)
            (_services alert_server) added /\
    addService (service_class := immediate_alert_service example_handle)
      0 [CImmediateAlertService.constructed] alert_server
    = Returns (true, mk_CGattServer (_services alert_server ++ [0%nat]) false).
Proof.
  apply (start_registers_listed
           (service_class := immediate_alert_service example_handle)
           [CImmediateAlertService.constructed] alert_server [] 0
           CImmediateAlertService.constructed).
  - reflexivity.
  - exact alert_server_all_created.
  - reflexivity.
  - reflexivity.
Defined.

Lemma write_goes_to_first_owner_witness :
  onDataWritten (service_class := immediate_alert_service example_handle)
    example_handle example_value_or_null 111 [2; 0] 2
    two_alert_services two_alert_server
  = Returns
      [CImmediateAlertService.built 7 499 101;
       CImmediateAlertService.led_for_level 2
         CImmediateAlertService.constructed].
Proof.
  apply (proj1
           (proj2
              (write_goes_to_first_owner
                 (service_class := immediate_alert_service example_handle)
                 example_handle example_value_or_null 111 [2; 0] 2
                 two_alert_services two_alert_server)
              [0%nat] 1%nat [] CImmediateAlertService.constructed
              eq_refl
              (List.Forall_cons _ 0%nat []
                 (ex_intro _ (CImmediateAlertService.built 7 499 101)
                    (conj eq_refl eq_refl))
                 (List.Forall_nil _))
              eq_refl eq_refl)
           (example_value_or_null 501)).
  - reflexivity.
  - discriminate.
Defined.



End CGattServer_properties.
